(** * XSL transform engine: the transformation job pipeline

    A shallow embedding of [server/storage.ts] (the in-memory registry
    [MemStorage]), of the route module that is concatenated to it in the same
    file (dependency resolution, the content preprocessor, the two-stage
    executor, the upload handler and [processTransformation]) and of the
    parts of [server/saxonProcessor.ts] the executor relies on.

    Conventions.
    - A JavaScript string is a [string]: the UTF-8 bytes of the text, as the
      files are read ([fs.readFile(path, 'utf-8')]).  Every pattern of the
      source is made of ASCII literals, negated ASCII classes, [.] and [\s];
      on well-formed UTF-8 these match the same texts byte by byte as they do
      code unit by code unit, once [\s] is spelled out over the encodings of
      the white space characters.
    - [randomUUID()], [new Date()] and [Date.now()] are inputs of the
      functions that call them.
    - The collaborators (SaxonJS, xslt-processor, the file system) are fields
      of a [World] record: what each call answers. *)

From Stdlib Require Import String Ascii List Arith NArith Bool Lia DecimalString.
Import ListNotations.
Open Scope list_scope.
Open Scope string_scope.

(** ** JavaScript string primitives *)

Module Js.

(** The double quote character and the one-character strings built on it. *)
Definition dquote : ascii := "034"%char.
Definition squote : ascii := "039"%char.
Definition dq : string := String dquote EmptyString.

(** [s.startsWith(p)] *)
Definition startsWith (s p : string) : bool := String.prefix p s.

(** [s.includes(p)] *)
Fixpoint includes (s p : string) : bool :=
  if String.prefix p s then true
  else match s with
       | EmptyString => false
       | String _ s' => includes s' p
       end.

(** [s.endsWith(p)] *)
Definition endsWith (s p : string) : bool :=
  (String.length p <=? String.length s)%nat &&
  String.eqb (substring (String.length s - String.length p) (String.length p) s) p.

(** [arr.join(sep)] *)
Definition join (sep : string) (l : list string) : string := String.concat sep l.

(** [s.toUpperCase()], on ASCII letters. *)
Definition upper (a : ascii) : ascii :=
  let n := nat_of_ascii a in
  if ((97 <=? n) && (n <=? 122))%nat then ascii_of_nat (n - 32) else a.

Fixpoint toUpperCase (s : string) : string :=
  match s with
  | EmptyString => EmptyString
  | String a s' => String (upper a) (toUpperCase s')
  end.

Definition lower (a : ascii) : ascii :=
  let n := nat_of_ascii a in
  if ((65 <=? n) && (n <=? 90))%nat then ascii_of_nat (n + 32) else a.

(** [s.toLowerCase()], on ASCII letters. *)
Fixpoint toLowerCase (s : string) : string :=
  match s with
  | EmptyString => EmptyString
  | String a s' => String (lower a) (toLowerCase s')
  end.

(** [n.toString()] for a count or a size. *)
Definition decimal (n : nat) : string := NilZero.string_of_uint (Nat.to_uint n).

(** [arr.find(p)] *)
Definition find {A} (p : A -> bool) (l : list A) : option A := List.find p l.

(** [consumed s rest] is what a matcher that started at [s] and stopped at
    [rest] has read: [s] without its suffix [rest]. *)
Definition consumed (s rest : string) : string :=
  substring 0 (String.length s - String.length rest) s.

(** [path.basename(p)] (POSIX): the last segment, trailing slashes ignored. *)
Fixpoint basename_aux (s : string) (cur last : string) : string :=
  match s with
  | EmptyString => if String.eqb cur EmptyString then last else cur
  | String c s' =>
      if Ascii.eqb c "/"%char
      then basename_aux s' EmptyString (if String.eqb cur EmptyString then last else cur)
      else basename_aux s' (cur ++ String c EmptyString) last
  end.

Definition basename (p : string) : string := basename_aux p EmptyString EmptyString.

(** [GetSubstitution] for a pattern that is a string: [$$], [$&], the
    text before ([$] and a backquote) and the text after ([$'] ); any other
    [$] stands for itself. *)
Fixpoint substitution (t before matched after : string) : string :=
  match t with
  | EmptyString => EmptyString
  | String a t1 =>
      if Ascii.eqb a "$"%char then
        match t1 with
        | EmptyString => String a EmptyString
        | String c t2 =>
            if Ascii.eqb c "$"%char then String "$"%char (substitution t2 before matched after)
            else if Ascii.eqb c "&"%char then matched ++ substitution t2 before matched after
            else if Ascii.eqb c "`"%char then before ++ substitution t2 before matched after
            else if Ascii.eqb c squote then after ++ substitution t2 before matched after
            else String a (String c (substitution t2 before matched after))
        end
      else String a (substitution t1 before matched after)
  end.

(** [s.replace(p, t)] for a string [p]: the first occurrence only. *)
Fixpoint replaceFirst_aux (seen s p t : string) : string :=
  if String.prefix p s
  then seen ++ substitution t seen p (substring (String.length p) (String.length s) s)
       ++ substring (String.length p) (String.length s) s
  else match s with
       | EmptyString => seen
       | String a s' => replaceFirst_aux (seen ++ String a EmptyString) s' p t
       end.

Definition replaceFirst (s p t : string) : string := replaceFirst_aux EmptyString s p t.

End Js.

(** ** Regular expressions

    A backtracking matcher with the priorities of ECMAScript: alternatives
    left to right, greedy repetition longest first, lazy repetition shortest
    first, an iteration that reads nothing is not taken, and the captures of
    a repeated group are cleared when an iteration starts.  The patterns of
    the source have no anchor, no look-around and no back-reference, so a
    match depends on the text from its start only. *)

Module Regex.

Inductive regex : Type :=
| Empty                              (* the empty pattern *)
| Char (p : ascii -> bool)           (* one character of a class *)
| Cat (r1 r2 : regex)                (* r1 r2 *)
| Or (r1 r2 : regex)                 (* r1|r2 *)
| Rep (greedy : bool) (r : regex)    (* r* and r*? *)
| Cap (n : nat) (r : regex).         (* the n-th parenthesis *)

Definition caps := list (nat * string).

Fixpoint get_cap (n : nat) (c : caps) : option string :=
  match c with
  | [] => None
  | (m, v) :: c' => if (n =? m)%nat then Some v else get_cap n c'
  end.

Definition set_cap (n : nat) (v : string) (c : caps) : caps := (n, v) :: c.

Fixpoint groups (r : regex) : list nat :=
  match r with
  | Empty | Char _ => []
  | Cat r1 r2 | Or r1 r2 => groups r1 ++ groups r2
  | Rep _ r1 => groups r1
  | Cap n r1 => n :: groups r1
  end.

Definition clear (gs : list nat) (c : caps) : caps :=
  filter (fun e => negb (existsb (Nat.eqb (fst e)) gs)) c.

Definition first_of {R} (a b : option R) : option R :=
  match a with Some x => Some x | None => b end.

(** [run r s c k]: match [r] at the start of [s] with captures [c], and
    hand the rest of the text to the continuation [k]; the first
    alternative, in priority order, that [k] accepts wins.  An iteration
    of a repetition reads at least one character, so the length of the
    text plus one bounds their number. *)
Fixpoint run {R} (r : regex) (s : string) (c : caps)
         (k : string -> caps -> option R) {struct r} : option R :=
  match r with
  | Empty => k s c
  | Char p =>
      match s with
      | String a s' => if p a then k s' c else None
      | EmptyString => None
      end
  | Cat r1 r2 => run r1 s c (fun s1 c1 => run r2 s1 c1 k)
  | Or r1 r2 => first_of (run r1 s c k) (run r2 s c k)
  | Cap n r1 => run r1 s c (fun s1 c1 => k s1 (set_cap n (Js.consumed s s1) c1))
  | Rep greedy r1 =>
      (fix loop (fuel : nat) (s0 : string) (c0 : caps) {struct fuel} : option R :=
         match fuel with
         | O => None
         | S fuel' =>
             let again :=
               run r1 s0 (clear (groups r1) c0)
                   (fun s1 c1 =>
                      if (String.length s1 <? String.length s0)%nat
                      then loop fuel' s1 c1 else None) in
             if greedy then first_of again (k s0 c0)
             else first_of (k s0 c0) again
         end) (S (String.length s)) s c
  end.

(** One match: the text before it, the matched text, its captures and the
    text after it. *)
Record found := { before : string; matched : string; groups_of : caps; after : string }.

Definition match_here (r : regex) (s : string) : option (string * caps) :=
  run r s [] (fun s1 c1 => Some (s1, c1)).

(** The leftmost match, as [RegExp.prototype.exec] finds it. *)
Fixpoint exec (r : regex) (s : string) : option found :=
  match match_here r s with
  | Some (rest, c) =>
      Some {| before := EmptyString; matched := Js.consumed s rest;
              groups_of := c; after := rest |}
  | None =>
      match s with
      | EmptyString => None
      | String a s' =>
          match exec r s' with
          | Some f => Some {| before := String a (before f); matched := matched f;
                              groups_of := groups_of f; after := after f |}
          | None => None
          end
      end
  end.

(** All the matches of a global pattern, left to right: the loop
    [while ((match = re.exec(text)) !== null)] with its [lastIndex].  The
    patterns the source runs this loop with read at least the text
    [<xsl:], so the turn after an empty match, which [String.replace]
    starts one character further, does not arise. *)
Fixpoint exec_all_aux (fuel : nat) (r : regex) (s : string) : list found :=
  match fuel with
  | O => []
  | S fuel' =>
      match exec r s with
      | None => []
      | Some f =>
          f :: match matched f, after f with
               | EmptyString, EmptyString => []
               | EmptyString, String _ s' => exec_all_aux fuel' r s'
               | _, s' => exec_all_aux fuel' r s'
               end
      end
  end.

Definition exec_all (r : regex) (s : string) : list found :=
  exec_all_aux (S (String.length s)) r s.

(** A replacement text: literal pieces and [$n] references. *)
Inductive piece : Type :=
| Lit (s : string)
| Ref (n : nat).

Fixpoint expand (t : list piece) (c : caps) : string :=
  match t with
  | [] => EmptyString
  | Lit s :: t' => s ++ expand t' c
  | Ref n :: t' =>
      match get_cap n c with Some v => v | None => EmptyString end ++ expand t' c
  end.

(** [s.replace(re, t)] for a global [re]. *)
Fixpoint replace_aux (fuel : nat) (r : regex) (t : list piece) (s : string) : string :=
  match fuel with
  | O => s
  | S fuel' =>
      match exec r s with
      | None => s
      | Some f =>
          before f ++ expand t (groups_of f) ++
          match matched f, after f with
          | EmptyString, EmptyString => EmptyString
          | EmptyString, String a s' => String a (replace_aux fuel' r t s')
          | _, s' => replace_aux fuel' r t s'
          end
      end
  end.

Definition replace (r : regex) (t : list piece) (s : string) : string :=
  replace_aux (S (String.length s)) r t s.


(** *** Pattern syntax *)

Definition one (a : ascii) : regex := Char (Ascii.eqb a).
Definition onei (a : ascii) : regex := Char (fun b => Ascii.eqb (Js.upper b) (Js.upper a)).

(** A literal text, and the same under the [i] flag. *)
Fixpoint lit (s : string) : regex :=
  match s with
  | EmptyString => Empty
  | String a s' => Cat (one a) (lit s')
  end.

Fixpoint liti (s : string) : regex :=
  match s with
  | EmptyString => Empty
  | String a s' => Cat (onei a) (liti s')
  end.

(** [[^abc]] *)
Definition none_of (l : list ascii) : regex :=
  Char (fun b => negb (existsb (Ascii.eqb b) l)).

(** [[\x22']] and [[^\x22']]: the two quote characters, and any other
    character. *)
Definition quote : regex := Char (fun b => Ascii.eqb b Js.dquote || Ascii.eqb b Js.squote).
Definition not_quote : regex := none_of [Js.dquote; Js.squote].

(** [.] under the [s] flag. *)
Definition any : regex := Char (fun _ => true).

Definition star (r : regex) : regex := Rep true r.
Definition lazy_star (r : regex) : regex := Rep false r.
Definition plus (r : regex) : regex := Cat r (Rep true r).

Fixpoint sequence (l : list regex) : regex :=
  match l with
  | [] => Empty
  | r :: l' => Cat r (sequence l')
  end.

Definition bytes (l : list nat) : regex := sequence (map (fun n => one (ascii_of_nat n)) l).

Fixpoint alt (l : list regex) : regex :=
  match l with
  | [] => Char (fun _ => false)
  | [r] => r
  | r :: l' => Or r (alt l')
  end.

(** [\s]: TAB, LF, VT, FF, CR, SP, then U+00A0, U+1680, U+2000 to U+200A,
    U+2028, U+2029, U+202F, U+205F, U+3000 and U+FEFF in UTF-8. *)
Definition space : regex :=
  alt ([ Char (fun b => let n := nat_of_ascii b in (((9 <=? n) && (n <=? 13)) || (n =? 32))%nat);
         bytes [194; 160];
         bytes [225; 154; 128];
         Cat (bytes [226; 128])
             (Char (fun b => let n := nat_of_ascii b in
                             (((128 <=? n) && (n <=? 138)) || (n =? 168) || (n =? 169) || (n =? 175))%nat));
         bytes [226; 129; 159];
         bytes [227; 128; 128];
         bytes [239; 187; 191] ]).

End Regex.

Import Regex.

(** ** The content preprocessor ([preprocessXslContent]) *)

Module Preprocess.

Definition unsupportedElements : list string :=
  [ "xsl:strip-space"; "xsl:preserve-space"; "xsl:decimal-format";
    "xsl:key"; "xsl:namespace-alias" ].

(** [new RegExp(`<${element}[^>]*/>`, 'gi')] *)
Definition selfClosingRegex (element : string) : regex :=
  sequence [ liti ("<" ++ element); star (none_of [">"%char]); liti "/>" ].

(** [new RegExp(`<${element}[^>]*>.*?</${element}>`, 'gis')] *)
Definition regularElementRegex (element : string) : regex :=
  sequence [ liti ("<" ++ element); star (none_of [">"%char]); liti ">";
        lazy_star any; liti ("</" ++ element ++ ">") ].

Definition removedMarker (element : string) : list piece :=
  [ Lit ("<!-- Removed unsupported " ++ element ++ " -->") ].

(** One turn of the [forEach] over the unsupported elements. *)
Definition removeElement (processedContent element : string) : string :=
  let c1 := replace (selfClosingRegex element) (removedMarker element) processedContent in
  replace (regularElementRegex element) (removedMarker element) c1.

(** [/<xsl:output([^>]*?)method=[\x22']html[\x22']/gi] *)
Definition outputHtmlRegex : regex :=
  sequence [ liti "<xsl:output"; Cap 1 (lazy_star (none_of [">"%char]));
        liti "method="; quote; liti "html"; quote ].

(** [/\s+disable-output-escaping=[\x22'][^\x22']*[\x22']/gi] *)
Definition disableEscapingRegex : regex :=
  sequence [ plus space; liti "disable-output-escaping="; quote; star not_quote; quote ].

(** [/key\s*\([^)]+\)/gi] *)
Definition keyFunctionRegex : regex :=
  sequence [ liti "key"; star space; liti "("; plus (none_of [")"%char]); liti ")" ].

(** [/\[[^\]]*key\([^\]]*\]/gi] *)
Definition keyPredicateRegex : regex :=
  sequence [ liti "["; star (none_of ["]"%char]); liti "key("; star (none_of ["]"%char]); liti "]" ].

(** [/\[[^\]]*generate-id\([^\]]*\]/gi] *)
Definition generateIdPredicateRegex : regex :=
  sequence [ liti "["; star (none_of ["]"%char]); liti "generate-id(";
        star (none_of ["]"%char]); liti "]" ].

(** [/(<xsl:variable[^>]*select=[\x22'])[^\x22']*(\|[^\x22']{0,}){0,}[\x22']/gi],
    where the source writes the two [{0,}] as stars. *)
Definition variableSelectRegex : regex :=
  sequence [ Cap 1 (sequence [ liti "<xsl:variable"; star (none_of [">"%char]); liti "select="; quote ]);
        star not_quote; star (Cap 2 (Cat (liti "|") (star not_quote))); quote ].

(** [/(<xsl:for-each[^>]*select=[\x22'])[^\x22']*\|[^\x22']*[\x22']/gi] *)
Definition forEachSelectRegex : regex :=
  sequence [ Cap 1 (sequence [ liti "<xsl:for-each"; star (none_of [">"%char]); liti "select="; quote ]);
        star not_quote; liti "|"; star not_quote; quote ].

(** [/generate-id\s*\([^)]*\)/gi] *)
Definition generateIdRegex : regex :=
  sequence [ liti "generate-id"; star space; liti "("; star (none_of [")"%char]); liti ")" ].

(** [/current\s*\(\s*\)/gi] *)
Definition currentRegex : regex :=
  sequence [ liti "current"; star space; liti "("; star space; liti ")" ].

(** [/document\s*\([^)]*\)/gi] *)
Definition documentRegex : regex :=
  sequence [ liti "document"; star space; liti "("; star (none_of [")"%char]); liti ")" ].

(** [/(<xsl:template[^>]*match=[\x22'])[^\x22']*key\([^\x22']*[\x22']/gi], and the two
    patterns of the same shape for [xsl:if] and [xsl:when] with [test=]. *)
Definition keyedAttributeRegex (element attribute : string) : regex :=
  sequence [ Cap 1 (sequence [ liti ("<" ++ element); star (none_of [">"%char]);
                     liti (attribute ++ "="); quote ]);
        star not_quote; liti "key("; star not_quote; quote ].

(** The rewrites that follow the [forEach], in the order of the source:
    each pattern with its replacement text. *)
Definition rewrites : list (regex * list piece) :=
  [ (outputHtmlRegex, [ Lit "<xsl:output"; Ref 1; Lit ("method=" ++ Js.dq ++ "xml" ++ Js.dq) ]);
    (disableEscapingRegex, [ Lit EmptyString ]);
    (keyFunctionRegex, [ Lit (Js.dq ++ Js.dq) ]);
    (keyPredicateRegex, [ Lit "[position()=1]" ]);
    (generateIdPredicateRegex, [ Lit "[position()=1]" ]);
    (variableSelectRegex, [ Ref 1; Lit "*"; Ref 2; Lit Js.dq ]);
    (forEachSelectRegex, [ Ref 1; Lit ("*" ++ Js.dq) ]);
    (generateIdRegex, [ Lit "position()" ]);
    (currentRegex, [ Lit "." ]);
    (documentRegex, [ Lit "." ]);
    (keyedAttributeRegex "xsl:template" "match", [ Ref 1; Lit ("*" ++ Js.dq) ]);
    (keyedAttributeRegex "xsl:if" "test", [ Ref 1; Lit ("true()" ++ Js.dq) ]);
    (keyedAttributeRegex "xsl:when" "test", [ Ref 1; Lit ("true()" ++ Js.dq) ]) ].

Definition preprocessXslContent (xslContent : string) : string :=
  let processedContent := fold_left removeElement unsupportedElements xslContent in
  fold_left (fun content rw => replace (fst rw) (snd rw) content) rewrites processedContent.

End Preprocess.

(** ** The schema of [@shared/schema]: rows of the three tables *)

(** A [timestamp]: milliseconds, as [new Date()] reads the clock. *)
Definition Date := nat.

Module File.
Record t := {
  id : string;
  filename : string;
  originalName : string;
  mimeType : string;
  size : string;
  path : string;
  uploadedAt : Date;
  validationStatus : option string;    (* 'pending', 'valid', 'invalid' *)
  validationError : option string;
  validatedAt : option Date
}.
End File.

Module InsertFile.
Record t := {
  filename : string;
  originalName : string;
  mimeType : string;
  size : string;
  path : string
}.
End InsertFile.

Module Transformation.
Record t := {
  id : string;
  xmlFileId : string;
  xslFileId : string;
  xsdFileId : option string;
  status : string;                     (* 'queued', 'processing', 'completed', 'failed' *)
  progress : option string;
  statusMessage : option string;
  resultPath : option string;
  errorMessage : option string;
  processingTime : option string;
  outputSize : option string;
  createdAt : Date;
  completedAt : option Date
}.
End Transformation.

Module InsertTransformation.
Record t := {
  xmlFileId : string;
  xslFileId : string;
  xsdFileId : option string;
  status : string;
  progress : option string;
  statusMessage : option string;
  resultPath : option string;
  errorMessage : option string;
  processingTime : option string;
  outputSize : option string
}.
End InsertTransformation.

(** [Partial<Transformation>], on the keys the callers of
    [updateTransformation] write; [None] is an absent key, and no caller
    writes [null]. *)
Module Updates.
Record t := {
  status : option string;
  progress : option string;
  statusMessage : option string;
  resultPath : option string;
  errorMessage : option string;
  processingTime : option string;
  outputSize : option string
}.

Definition none : t :=
  {| status := None; progress := None; statusMessage := None; resultPath := None;
     errorMessage := None; processingTime := None; outputSize := None |}.
End Updates.

Module Dependency.
Record t := {
  id : string;
  xslFileId : string;
  dependencyPath : string;
  resolvedFileId : option string;
  status : string                      (* 'pending', 'resolved', 'missing' *)
}.
End Dependency.

Module InsertDependency.
Record t := {
  xslFileId : string;
  dependencyPath : string;
  resolvedFileId : option string;
  status : string
}.
End InsertDependency.

(** [Partial<Dependency>], on the keys [resolveDependencies] writes. *)
Module DependencyUpdates.
Record t := {
  resolvedFileId : option string;
  status : option string
}.
End DependencyUpdates.

(** ** [Map<string, V>]: keys in insertion order *)

Module JsMap.

Definition t (V : Type) := list (string * V).

Definition empty {V} : t V := [].

Fixpoint get {V} (k : string) (m : t V) : option V :=
  match m with
  | [] => None
  | (k', v) :: m' => if String.eqb k k' then Some v else get k m'
  end.

Definition has {V} (k : string) (m : t V) : bool :=
  match get k m with Some _ => true | None => false end.

(** [m.set(k, v)]: a present key keeps its place, a new key goes last. *)
Fixpoint set {V} (k : string) (v : V) (m : t V) : t V :=
  match m with
  | [] => [(k, v)]
  | (k', v') :: m' =>
      if String.eqb k k' then (k, v) :: m' else (k', v') :: set k v m'
  end.

(** [m.delete(k)] and its answer. *)
Fixpoint delete {V} (k : string) (m : t V) : t V :=
  match m with
  | [] => []
  | (k', v') :: m' => if String.eqb k k' then m' else (k', v') :: delete k m'
  end.

(** [Array.from(m.values())] *)
Definition values {V} (m : t V) : list V := map snd m.

Definition keys {V} (m : t V) : list string := map fst m.

End JsMap.

(** [x || null] on a string that may be absent: the empty string is falsy. *)
Definition or_null (x : option string) : option string :=
  match x with
  | Some EmptyString => None
  | _ => x
  end.

(** ** [MemStorage] *)

Module MemStorage.

Record t := {
  files : JsMap.t File.t;
  transformations : JsMap.t Transformation.t;
  dependencies : JsMap.t Dependency.t
}.

(** [new MemStorage()] *)
Definition create : t :=
  {| files := JsMap.empty; transformations := JsMap.empty; dependencies := JsMap.empty |}.

Definition with_files (s : t) (m : JsMap.t File.t) : t :=
  {| files := m; transformations := transformations s; dependencies := dependencies s |}.

Definition with_transformations (s : t) (m : JsMap.t Transformation.t) : t :=
  {| files := files s; transformations := m; dependencies := dependencies s |}.

Definition with_dependencies (s : t) (m : JsMap.t Dependency.t) : t :=
  {| files := files s; transformations := transformations s; dependencies := m |}.

(** [createFile]; [id] is the value of [randomUUID()], [now] of [new Date()]. *)
Definition createFile (id : string) (now : Date) (insertFile : InsertFile.t) (s : t)
  : File.t * t :=
  let file :=
    {| File.id := id;
       File.filename := InsertFile.filename insertFile;
       File.originalName := InsertFile.originalName insertFile;
       File.mimeType := InsertFile.mimeType insertFile;
       File.size := InsertFile.size insertFile;
       File.path := InsertFile.path insertFile;
       File.uploadedAt := now;
       File.validationStatus := Some "pending";
       File.validationError := None;
       File.validatedAt := None |} in
  (file, with_files s (JsMap.set id file (files s))).

Definition getFile (id : string) (s : t) : option File.t := JsMap.get id (files s).

Definition getAllFiles (s : t) : list File.t := JsMap.values (files s).

Definition deleteFile (id : string) (s : t) : bool * t :=
  (JsMap.has id (files s), with_files s (JsMap.delete id (files s))).

Definition getFilesByType (mimeType : string) (s : t) : list File.t :=
  filter (fun file => Js.includes (File.mimeType file) mimeType) (getAllFiles s).

Definition createTransformation (id : string) (now : Date)
           (ins : InsertTransformation.t) (s : t) : Transformation.t * t :=
  let transformation :=
    {| Transformation.id := id;
       Transformation.xmlFileId := InsertTransformation.xmlFileId ins;
       Transformation.xslFileId := InsertTransformation.xslFileId ins;
       Transformation.xsdFileId := or_null (InsertTransformation.xsdFileId ins);
       Transformation.status := InsertTransformation.status ins;
       Transformation.progress := or_null (InsertTransformation.progress ins);
       Transformation.statusMessage := or_null (InsertTransformation.statusMessage ins);
       Transformation.resultPath := or_null (InsertTransformation.resultPath ins);
       Transformation.errorMessage := or_null (InsertTransformation.errorMessage ins);
       Transformation.processingTime := or_null (InsertTransformation.processingTime ins);
       Transformation.outputSize := or_null (InsertTransformation.outputSize ins);
       Transformation.createdAt := now;
       Transformation.completedAt := None |} in
  (transformation, with_transformations s (JsMap.set id transformation (transformations s))).

Definition getTransformation (id : string) (s : t) : option Transformation.t :=
  JsMap.get id (transformations s).

Definition getAllTransformations (s : t) : list Transformation.t :=
  JsMap.values (transformations s).

Definition override (old : option string) (new : option string) : option string :=
  match new with Some v => Some v | None => old end.

(** [{ ...transformation, ...updates }] *)
Definition spread (tr : Transformation.t) (u : Updates.t) : Transformation.t :=
  {| Transformation.id := Transformation.id tr;
     Transformation.xmlFileId := Transformation.xmlFileId tr;
     Transformation.xslFileId := Transformation.xslFileId tr;
     Transformation.xsdFileId := Transformation.xsdFileId tr;
     Transformation.status :=
       match Updates.status u with Some v => v | None => Transformation.status tr end;
     Transformation.progress := override (Transformation.progress tr) (Updates.progress u);
     Transformation.statusMessage :=
       override (Transformation.statusMessage tr) (Updates.statusMessage u);
     Transformation.resultPath := override (Transformation.resultPath tr) (Updates.resultPath u);
     Transformation.errorMessage :=
       override (Transformation.errorMessage tr) (Updates.errorMessage u);
     Transformation.processingTime :=
       override (Transformation.processingTime tr) (Updates.processingTime u);
     Transformation.outputSize := override (Transformation.outputSize tr) (Updates.outputSize u);
     Transformation.createdAt := Transformation.createdAt tr;
     Transformation.completedAt := Transformation.completedAt tr |}.

Definition set_completedAt (tr : Transformation.t) (d : Date) : Transformation.t :=
  {| Transformation.id := Transformation.id tr;
     Transformation.xmlFileId := Transformation.xmlFileId tr;
     Transformation.xslFileId := Transformation.xslFileId tr;
     Transformation.xsdFileId := Transformation.xsdFileId tr;
     Transformation.status := Transformation.status tr;
     Transformation.progress := Transformation.progress tr;
     Transformation.statusMessage := Transformation.statusMessage tr;
     Transformation.resultPath := Transformation.resultPath tr;
     Transformation.errorMessage := Transformation.errorMessage tr;
     Transformation.processingTime := Transformation.processingTime tr;
     Transformation.outputSize := Transformation.outputSize tr;
     Transformation.createdAt := Transformation.createdAt tr;
     Transformation.completedAt := Some d |}.

(** [updates.status === 'completed' || updates.status === 'failed'] *)
Definition terminal_update (u : Updates.t) : bool :=
  match Updates.status u with
  | Some v => String.eqb v "completed" || String.eqb v "failed"
  | None => false
  end.

Definition updateTransformation (id : string) (updates : Updates.t) (now : Date) (s : t)
  : option Transformation.t * t :=
  match JsMap.get id (transformations s) with
  | None => (None, s)
  | Some transformation =>
      let updated := spread transformation updates in
      let updated := if terminal_update updates then set_completedAt updated now else updated in
      (Some updated, with_transformations s (JsMap.set id updated (transformations s)))
  end.

Definition getActiveTransformations (s : t) : list Transformation.t :=
  filter (fun tr => String.eqb (Transformation.status tr) "queued"
                    || String.eqb (Transformation.status tr) "processing")
         (getAllTransformations s).

Definition createDependency (id : string) (ins : InsertDependency.t) (s : t)
  : Dependency.t * t :=
  let dependency :=
    {| Dependency.id := id;
       Dependency.xslFileId := InsertDependency.xslFileId ins;
       Dependency.dependencyPath := InsertDependency.dependencyPath ins;
       Dependency.resolvedFileId := or_null (InsertDependency.resolvedFileId ins);
       Dependency.status := InsertDependency.status ins |} in
  (dependency, with_dependencies s (JsMap.set id dependency (dependencies s))).

Definition getDependenciesByXslFile (xslFileId : string) (s : t) : list Dependency.t :=
  filter (fun dep => String.eqb (Dependency.xslFileId dep) xslFileId)
         (JsMap.values (dependencies s)).

Definition updateDependency (id : string) (updates : DependencyUpdates.t) (s : t)
  : option Dependency.t * t :=
  match JsMap.get id (dependencies s) with
  | None => (None, s)
  | Some dependency =>
      let updated :=
        {| Dependency.id := Dependency.id dependency;
           Dependency.xslFileId := Dependency.xslFileId dependency;
           Dependency.dependencyPath := Dependency.dependencyPath dependency;
           Dependency.resolvedFileId :=
             override (Dependency.resolvedFileId dependency)
                      (DependencyUpdates.resolvedFileId updates);
           Dependency.status :=
             match DependencyUpdates.status updates with
             | Some v => v
             | None => Dependency.status dependency
             end |} in
      (Some updated, with_dependencies s (JsMap.set id updated (dependencies s)))
  end.

Definition updateFileValidation (id : string) (status : string) (error : option string)
           (now : Date) (s : t) : option File.t * t :=
  match JsMap.get id (files s) with
  | None => (None, s)
  | Some file =>
      let updated :=
        {| File.id := File.id file;
           File.filename := File.filename file;
           File.originalName := File.originalName file;
           File.mimeType := File.mimeType file;
           File.size := File.size file;
           File.path := File.path file;
           File.uploadedAt := File.uploadedAt file;
           File.validationStatus := Some status;
           File.validationError := or_null error;
           File.validatedAt := Some now |} in
      (Some updated, with_files s (JsMap.set id updated (files s)))
  end.

End MemStorage.

(** ** The collaborators

    What the file system, SaxonJS and xslt-processor answer is not decided by
    this repository: each call is a field of [World].  A call that can throw
    answers with [inr] of the thrown value. *)

(** A thrown value: an [Error] with its [message], or anything else. *)
Inductive thrown : Type :=
| JsError (message : string)
| NotAnError.

(** [error instanceof Error ? error.message : fallback] *)
Definition message_or (e : thrown) (fallback : string) : string :=
  match e with
  | JsError m => m
  | NotAnError => fallback
  end.

(** The answer of a check of validation style: after how many milliseconds
    it settles, or that it never does. *)
Inductive await (A : Type) : Type :=
| Settles (ms : N) (a : A)
| Never.
Arguments Settles {A} ms a.
Arguments Never {A}.

(** [{ isValid: boolean; error?: string }] *)
Record ValidationResult := { isValid : bool; error : option string }.

Record World := {
  (* fs.readFile(path, 'utf-8') *)
  readFile : string -> string + thrown;
  (* fs.writeFile(path, data) *)
  writeFile : string -> string -> option thrown;
  (* (await fs.stat(path)).size *)
  stat : string -> nat + thrown;
  (* fs.rename(from, to) *)
  rename : string -> string -> option thrown;
  (* validateXmlFile, validateXslFile, validateXsdFile: each catches what it
     throws; the answer depends on the file and on xslt-processor's parser *)
  validateXmlFile : string -> await ValidationResult;
  validateXslFile : string -> await ValidationResult;
  validateXsdFile : string -> await ValidationResult;
  (* validateXmlAgainstXsd(xmlPath, xsdPath), which also catches what it throws *)
  validateXmlAgainstXsd : string -> string -> await ValidationResult;
  (* SaxonJS.getResource({ location, type: 'xml' }): what it throws, if it does *)
  saxonGetResource : string -> option thrown;
  (* the compiled stylesheet of transform(): the existing .sef.json or the
     result of compileStylesheet(xslPath) *)
  saxonCompile : string -> string + thrown;
  (* SaxonJS.transform({ stylesheetFileName, sourceText, ... }).principalResult;
     a result that is absent is the empty text *)
  saxonTransform : string -> string -> string + thrown;
  (* xslt-processor: xmlParse of both texts, then xsltProcess *)
  xsltProcess : string -> string -> string + thrown;
  (* (a / b).toFixed(1) *)
  toFixed1 : nat -> nat -> string;
  (* Date.now() - startTime, where processTransformation reads it *)
  elapsed : nat;
  (* new Date() of the n-th update of the job *)
  clock : nat -> Date;
  (* randomUUID() of the n-th createDependency of a resolution *)
  dependencyUuid : nat -> string;
  (* randomUUID() in the name of the output file *)
  outputUuid : string;
  (* randomUUID() in the stored path and in the id of the n-th uploaded file,
     and new Date() of its createFile *)
  pathUuid : nat -> string;
  fileUuid : nat -> string;
  uploadClock : nat -> Date
}.

(** ** Dependency resolution *)

Module Resolver.

(** [/<xsl:(include|import)\s+href=[\x22']([^\x22']+)[\x22']/g] *)
Definition includeRegex : regex :=
  sequence [ lit "<xsl:"; Cap 1 (Or (lit "include") (lit "import")); plus space;
        lit "href="; quote; Cap 2 (plus not_quote); quote ].

(** The same pattern followed by [[^>]*>], as [resolveXslIncludes] and
    [resolveDependenciesForSaxon] write it. *)
Definition includeTagRegex : regex :=
  Cat includeRegex (Cat (star (none_of [">"%char])) (lit ">")).

Definition group (n : nat) (f : found) : string :=
  match get_cap n (groups_of f) with Some v => v | None => EmptyString end.

(** The include and import directives of a stylesheet text, in the order of
    the text: the [match[2]] of every turn of the [exec] loop. *)
Definition directives (xslContent : string) : list string :=
  map (group 2) (exec_all includeRegex xslContent).

(** [f.originalName === dependencyPath || f.filename === dependencyPath] *)
Definition resolves (dependencyPath : string) (f : File.t) : bool :=
  String.eqb (File.originalName f) dependencyPath || String.eqb (File.filename f) dependencyPath.

(** One turn of the loop of [resolveDependencies]; [id] is the
    [randomUUID()] of its [createDependency]. *)
Definition resolveOne (xslFileId : string) (id : string) (dependencyPath : string)
           (acc : list string * MemStorage.t) : list string * MemStorage.t :=
  let '(errors, s) := acc in
  let '(dependency, s) :=
    MemStorage.createDependency id
      {| InsertDependency.xslFileId := xslFileId;
         InsertDependency.dependencyPath := dependencyPath;
         InsertDependency.resolvedFileId := None;
         InsertDependency.status := "pending" |} s in
  let files := MemStorage.getAllFiles s in
  match Js.find (resolves dependencyPath) files with
  | Some resolvedFile =>
      (errors,
       snd (MemStorage.updateDependency (Dependency.id dependency)
              {| DependencyUpdates.resolvedFileId := Some (File.id resolvedFile);
                 DependencyUpdates.status := Some "resolved" |} s))
  | None =>
      (List.app errors ["Missing dependency: " ++ dependencyPath],
       snd (MemStorage.updateDependency (Dependency.id dependency)
              {| DependencyUpdates.resolvedFileId := None;
                 DependencyUpdates.status := Some "missing" |} s))
  end.

(** The loop over the directives, the [n]-th turn drawing [uuid n]. *)
Fixpoint resolveAll (xslFileId : string) (uuid : nat -> string) (n : nat)
         (paths : list string) (acc : list string * MemStorage.t)
  : list string * MemStorage.t :=
  match paths with
  | [] => acc
  | dependencyPath :: rest =>
      resolveAll xslFileId uuid (S n) rest (resolveOne xslFileId (uuid n) dependencyPath acc)
  end.

(** [resolveDependencies(xslFileId, xslPath)]: the errors and the registry
    it leaves. *)
Definition resolveDependencies (w : World) (xslFileId xslPath : string) (s : MemStorage.t)
  : list string * MemStorage.t :=
  match readFile w xslPath with
  | inl xslContent =>
      resolveAll xslFileId (dependencyUuid w) 0 (directives xslContent) ([], s)
  | inr e =>
      (["Error reading XSL file: " ++ message_or e "Unknown error"], s)
  end.

(** The test of [files.find] in [resolveXslIncludes]. *)
Definition includeMatches (dependencyPath : string) (f : File.t) : bool :=
  String.eqb (File.originalName f) dependencyPath
  || String.eqb (File.originalName f) (Js.basename dependencyPath)
  || String.eqb (File.filename f) dependencyPath
  || (Js.includes dependencyPath "W2" && Js.includes dependencyPath "Style.xsl"
      && Js.includes (File.originalName f) "W2" && Js.includes (File.originalName f) "Style.xsl")
  || (Js.endsWith dependencyPath "Style.xsl" && Js.endsWith (File.originalName f) "Style.xsl"
      && Js.startsWith dependencyPath "W2" && Js.startsWith (File.originalName f) "W2").

(** The comment that takes the place of a directive. *)
Definition marker (w : World) (files : list File.t) (operation dependencyPath : string)
  : string :=
  match Js.find (includeMatches dependencyPath) files with
  | Some dependencyFile =>
      match readFile w (File.path dependencyFile) with
      | inl _ =>
          ("<!-- " ++ Js.toUpperCase operation ++ ": " ++ dependencyPath
           ++ " - Manual dependency resolution required -->")%string
      | inr e =>
          ("<!-- Error resolving " ++ operation ++ ": " ++ dependencyPath ++ " - "
           ++ message_or e "Unknown error" ++ " -->")%string
      end
  | None => ("<!-- Missing " ++ operation ++ ": " ++ dependencyPath ++ " -->")%string
  end.

(** [resolveXslIncludes(xslContent, basePath)]: every directive found in
    [xslContent] is replaced, in the text resolved so far, by its marker. *)
Definition resolveXslIncludes (w : World) (s : MemStorage.t) (xslContent : string) : string :=
  fold_left
    (fun resolvedContent m =>
       Js.replaceFirst resolvedContent (matched m)
                       (marker w (MemStorage.getAllFiles s) (group 1 m) (group 2 m)))
    (exec_all includeTagRegex xslContent) xslContent.

End Resolver.

(** ** The Saxon processor ([SaxonProcessor]) *)

Module Saxon.

(** [SaxonValidationResult] *)
Record ValidationResult := { isValid : bool; errors : list string; warnings : list string }.

(** [SaxonTransformResult]; [output] and [outputSize] are set on success. *)
Record TransformResult := {
  success : bool;
  output : option string;
  transformErrors : list string;
  transformWarnings : list string;
  outputSize : option nat
}.

Definition validateXmlWellFormedness (w : World) (xmlPath : string) : ValidationResult :=
  match saxonGetResource w xmlPath with
  | None => {| isValid := true; errors := []; warnings := [] |}
  | Some e =>
      {| isValid := false; errors := [message_or e "XML is not well-formed"]; warnings := [] |}
  end.

(** The [catch] of [transform]. *)
Definition failed (e : thrown) : TransformResult :=
  {| success := false; output := None;
     transformErrors := [message_or e "Unknown error"];
     transformWarnings := []; outputSize := None |}.

Definition transform (w : World) (xmlPath xslPath outputPath : string) : TransformResult :=
  match saxonCompile w xslPath with
  | inr e => failed e
  | inl sefPath =>
      match readFile w xmlPath with
      | inr e => failed e
      | inl xmlContent =>
          match saxonTransform w sefPath xmlContent with
          | inr e => failed e
          | inl principalResult =>
              if String.eqb principalResult EmptyString
              then failed (JsError "No transformation result generated")
              else
                match writeFile w outputPath principalResult with
                | Some e => failed e
                | None =>
                    match stat w outputPath with
                    | inr e => failed e
                    | inl size =>
                        {| success := true; output := Some principalResult;
                           transformErrors := []; transformWarnings := [];
                           outputSize := Some size |}
                    end
                end
          end
      end
  end.

End Saxon.

(** ** The two-stage executor ([processXsltTransformation]) *)

Module Executor.

(** The [try] block: what it throws, if it does.  [analyzeStylesheet]
    catches what it throws and its answer is only logged. *)
Definition primary (w : World) (xmlPath xslPath outputPath : string) : option thrown :=
  let xmlValidation := Saxon.validateXmlWellFormedness w xmlPath in
  if negb (Saxon.isValid xmlValidation)
  then Some (JsError ("XML validation failed: " ++ Js.join "; " (Saxon.errors xmlValidation)))
  else
    let result := Saxon.transform w xmlPath xslPath outputPath in
    if negb (Saxon.success result)
    then
      let joined := Js.join "; " (Saxon.transformErrors result) in
      Some (JsError ("Saxon transformation failed: "
                     ++ if String.eqb joined EmptyString then "Unknown error" else joined))
    else None.

(** The inner [try] block of the [catch]: the fallback engine. *)
Definition fallback (w : World) (s : MemStorage.t) (xmlPath xslPath outputPath : string)
  : option thrown :=
  match readFile w xmlPath with
  | inr e => Some e
  | inl xmlContent =>
      match readFile w xslPath with
      | inr e => Some e
      | inl xslContent =>
          let xslContent := Resolver.resolveXslIncludes w s xslContent in
          let xslContent := Preprocess.preprocessXslContent xslContent in
          match xsltProcess w xmlContent xslContent with
          | inr e => Some e
          | inl transformed => writeFile w outputPath transformed
          end
      end
  end.

(** [processXsltTransformation]: [None] when the promise resolves, the
    thrown value when it rejects. *)
Definition processXsltTransformation (w : World) (s : MemStorage.t)
           (xmlPath xslPath outputPath : string) : option thrown :=
  match primary w xmlPath xslPath outputPath with
  | None => None
  | Some error =>
      match fallback w s xmlPath xslPath outputPath with
      | None => None
      | Some fallbackError => Some error
      end
  end.

End Executor.

(** ** The job controller ([POST /api/transform] and [processTransformation]) *)

Module Controller.

Record Options := {
  validateXml : bool;
  resolveDeps : bool;
  generatePreview : bool;
  validateWithXsd : bool;
  xsdFile : option File.t
}.

(** A run of the controller on one job: the registry, the states of the
    job a reader of the registry can observe (the state after each write,
    oldest first), how many writes were made, and whether the task has
    come to its end. *)
Record Run := {
  store : MemStorage.t;
  observed : list Transformation.t;
  writes : nat;
  returned : bool
}.

(** [await storage.updateTransformation(transformationId, updates)] *)
Definition update (w : World) (transformationId : string) (updates : Updates.t) (r : Run)
  : Run :=
  let '(res, s) :=
    MemStorage.updateTransformation transformationId updates (clock w (writes r)) (store r) in
  {| store := s;
     observed := observed r ++ match res with Some tr => [tr] | None => [] end;
     writes := S (writes r);
     returned := returned r |}.

Definition finish (r : Run) : Run :=
  {| store := store r; observed := observed r; writes := writes r; returned := true |}.

(** The run that starts when the job has just been created. *)
Definition begin (s : MemStorage.t) (transformation : Transformation.t) : Run :=
  {| store := s; observed := [transformation]; writes := 0; returned := false |}.

(** [`${x}`] for a string that may be [undefined]. *)
Definition template (x : option string) : string :=
  match x with Some v => v | None => "undefined" end.

(** The object literals the controller writes.
    [{ progress, statusMessage }] *)
Definition checkpoint (progress statusMessage : string) : Updates.t :=
  {| Updates.status := None;
     Updates.progress := Some progress;
     Updates.statusMessage := Some statusMessage;
     Updates.resultPath := None; Updates.errorMessage := None;
     Updates.processingTime := None; Updates.outputSize := None |}.

(** [{ status: 'processing', progress: '10', statusMessage }] *)
Definition processing (statusMessage : string) : Updates.t :=
  {| Updates.status := Some "processing";
     Updates.progress := Some "10";
     Updates.statusMessage := Some statusMessage;
     Updates.resultPath := None; Updates.errorMessage := None;
     Updates.processingTime := None; Updates.outputSize := None |}.

(** [{ status: 'failed', errorMessage }] *)
Definition failed (errorMessage : string) : Updates.t :=
  {| Updates.status := Some "failed";
     Updates.progress := None;
     Updates.statusMessage := None;
     Updates.resultPath := None; Updates.errorMessage := Some errorMessage;
     Updates.processingTime := None; Updates.outputSize := None |}.

(** The literal of the [catch]:
    [{ status: 'failed', progress: '0', statusMessage: 'Transformation failed',
       errorMessage: error instanceof Error ? error.message : 'Unknown error' }] *)
Definition caught (e : thrown) : Updates.t :=
  {| Updates.status := Some "failed";
     Updates.progress := Some "0";
     Updates.statusMessage := Some "Transformation failed";
     Updates.resultPath := None;
     Updates.errorMessage := Some (message_or e "Unknown error");
     Updates.processingTime := None; Updates.outputSize := None |}.

(** [{ status: 'completed', progress: '100', statusMessage, resultPath,
       processingTime, outputSize }]; [kb] is [(stats.size / 1024).toFixed(1)]
    and [processingTime] is [((Date.now() - startTime) / 1000).toFixed(1)]. *)
Definition completed (outputPath kb processingTime : string) : Updates.t :=
  {| Updates.status := Some "completed";
     Updates.progress := Some "100";
     Updates.statusMessage :=
       Some ("✅ Transformation complete! Generated " ++ kb ++ " KB output in "
             ++ processingTime ++ "s");
     Updates.resultPath := Some outputPath;
     Updates.errorMessage := None;
     Updates.processingTime := Some (processingTime ++ "s");
     Updates.outputSize := Some (kb ++ " KB") |}.

(** The [catch] of [processTransformation]. *)
Definition failure (w : World) (transformationId : string) (e : thrown) (r : Run) : Run :=
  finish (update w transformationId (caught e) r).

(** [path.join('uploads', `${randomUUID()}_transformed.html`)] *)
Definition outputPath (w : World) : string := "uploads/" ++ outputUuid w ++ "_transformed.html".

(** From the write of progress 50 or 40 to the end of the [try] block. *)
Definition execute (w : World) (transformationId : string) (xmlFile xslFile : File.t)
           (options : Options) (r : Run) : Run :=
  let r := update w transformationId
             (checkpoint (if validateWithXsd options || resolveDeps options
                          then "50" else "40")
                         "Parsing XML and XSL files...") r in
  let r := update w transformationId
             (checkpoint "60"
                ("Executing XSLT transformation (" ++ File.originalName xmlFile
                 ++ " + " ++ File.originalName xslFile ++ ")...")) r in
  match Executor.processXsltTransformation w (store r) (File.path xmlFile)
                                           (File.path xslFile) (outputPath w) with
  | Some e => failure w transformationId e r
  | None =>
      let r := update w transformationId
                 (checkpoint "85" "Finalizing HTML output...") r in
      match stat w (outputPath w) with
      | inr e => failure w transformationId e r
      | inl size =>
          let processingTime := toFixed1 w (elapsed w) 1000 in
          finish (update w transformationId
                    (completed (outputPath w) (toFixed1 w size 1024) processingTime) r)
      end
  end.

(** The registry of a run after [resolveDependencies] has written to it. *)
Definition with_store (r : Run) (s : MemStorage.t) : Run :=
  {| store := s; observed := observed r; writes := writes r; returned := returned r |}.

(** The dependency stage and what follows it. *)
Definition resolve (w : World) (transformationId : string) (xmlFile xslFile : File.t)
           (options : Options) (r : Run) : Run :=
  if resolveDeps options then
    let r := update w transformationId
               (checkpoint (if validateWithXsd options then "35" else "30")
                           "Resolving XSL dependencies and imports...") r in
    let '(errors, s) :=
      Resolver.resolveDependencies w (File.id xslFile) (File.path xslFile) (store r) in
    let r := with_store r s in
    match errors with
    | _ :: _ => finish (update w transformationId (failed (Js.join "; " errors)) r)
    | [] => execute w transformationId xmlFile xslFile options r
    end
  else execute w transformationId xmlFile xslFile options r.

(** [processTransformation]; [r] is the run so far. *)
Definition processTransformation (w : World) (transformationId : string)
           (xmlFile xslFile : File.t) (options : Options) (r : Run) : Run :=
  let r := update w transformationId
             (processing (if validateWithXsd options then "Preparing XSD validation..."
                          else "Preparing transformation...")) r in
  match validateWithXsd options, xsdFile options with
  | true, Some xsd =>
      let r := update w transformationId
                 (checkpoint "15"
                    ("Validating XML against XSD schema (" ++ File.originalName xsd
                     ++ ")...")) r in
      match validateXmlAgainstXsd w (File.path xmlFile) (File.path xsd) with
      | Never => r
      | Settles _ xsdValidationResult =>
          if negb (isValid xsdValidationResult) then
            finish (update w transformationId
                      (failed ("XSD Validation Failed: "
                               ++ template (error xsdValidationResult))) r)
          else
            let r := update w transformationId
                       (checkpoint "25" "✅ XSD validation passed - XML schema compliant")
                       r in
            resolve w transformationId xmlFile xslFile options r
      end
  | _, _ => resolve w transformationId xmlFile xslFile options r
  end.

(** The body of [POST /api/transform]. *)
Record Request := {
  xmlFileId : option string;
  xslFileId : option string;
  xsdFileId : option string;
  req_validateXml : bool;
  req_resolveDeps : bool;
  req_generatePreview : bool;
  req_validateWithXsd : bool
}.

(** A value that is set and truthy: a string that is not empty. *)
Definition truthy (x : option string) : option string := or_null x.

(** [POST /api/transform]: the job is created as 'queued' with progress
    '0' and handed to [processTransformation]; [None] when the request is
    answered with 400 or 404.  [id] and [now] are the [randomUUID()] and
    the [new Date()] of [createTransformation]. *)
Definition transform (w : World) (id : string) (now : Date) (req : Request)
           (s : MemStorage.t) : option Run :=
  match truthy (xmlFileId req), truthy (xslFileId req) with
  | Some xmlId, Some xslId =>
      match MemStorage.getFile xmlId s, MemStorage.getFile xslId s with
      | Some xmlFile, Some xslFile =>
          let start (xsd : option File.t) :=
            let '(transformation, s1) :=
              MemStorage.createTransformation id now
                {| InsertTransformation.xmlFileId := xmlId;
                   InsertTransformation.xslFileId := xslId;
                   InsertTransformation.xsdFileId :=
                     if req_validateWithXsd req then xsdFileId req else None;
                   InsertTransformation.status := "queued";
                   InsertTransformation.progress := Some "0";
                   InsertTransformation.statusMessage := None;
                   InsertTransformation.resultPath := None;
                   InsertTransformation.errorMessage := None;
                   InsertTransformation.processingTime := None;
                   InsertTransformation.outputSize := None |} s in
            processTransformation w (Transformation.id transformation) xmlFile xslFile
              {| validateXml := req_validateXml req;
                 resolveDeps := req_resolveDeps req;
                 generatePreview := req_generatePreview req;
                 validateWithXsd := req_validateWithXsd req;
                 xsdFile := xsd |}
              (begin s1 transformation) in
          if req_validateWithXsd req then
            match truthy (xsdFileId req) with
            | Some xsdId =>
                match MemStorage.getFile xsdId s with
                | Some xsd => Some (start (Some xsd))
                | None => None
                end
            | None => None
            end
          else Some (start None)
      | _, _ => None
      end
  | _, _ => None
  end.

End Controller.

(** ** The upload route ([POST /api/upload]) and its deferred validation *)

Module Upload.

(** A file as multer hands it over. *)
Record MulterFile := {
  originalname : string;
  filename : string;
  mimetype : string;
  size : nat;
  path : string
}.

(** The validation that [setTimeout(..., 100)] defers for a stored file. *)
Record Task := { savedFile : File.t; file : MulterFile; newPath : string }.

(** The variables of the handler while it loops over [req.files]. *)
Record Loop := {
  store : MemStorage.t;
  uploadedFiles : list File.t;
  skippedFiles : list string;
  scheduled : list Task;
  turn : nat
}.

Definition sameName (name : string) (f : File.t) : bool := String.eqb (File.originalName f) name.

(** One turn of [for (const file of req.files)]: the loop variables after
    it, or the value it throws.  The removal of the temporary file of a
    skipped upload is left out: what it throws is caught, and it does not
    touch the registry.  [path.join] is written for a name without
    separator or dot segment. *)
Definition uploadOne (w : World) (f : MulterFile) (l : Loop) : Loop + thrown :=
  let existingFiles := MemStorage.getAllFiles (store l) in
  match Js.find (sameName (originalname f)) existingFiles with
  | Some existingFile =>
      inl {| store := store l;
             uploadedFiles := uploadedFiles l;
             skippedFiles := skippedFiles l ++ [originalname f];
             scheduled := scheduled l;
             turn := S (turn l) |}
  | None =>
      let newPath := ("uploads/" ++ pathUuid w (turn l) ++ "_" ++ originalname f)%string in
      match rename w (path f) newPath with
      | Some e => inr e
      | None =>
          let fileData :=
            {| InsertFile.filename := filename f;
               InsertFile.originalName := originalname f;
               InsertFile.mimeType := mimetype f;
               InsertFile.size := Js.decimal (size f);
               InsertFile.path := newPath |} in
          let '(saved, s) :=
            MemStorage.createFile (fileUuid w (turn l)) (uploadClock w (turn l)) fileData
                                  (store l) in
          inl {| store := s;
                 uploadedFiles := uploadedFiles l ++ [saved];
                 skippedFiles := skippedFiles l;
                 scheduled := scheduled l ++ [{| savedFile := saved; file := f;
                                                 newPath := newPath |}];
                 turn := S (turn l) |}
      end
  end.

(** The whole loop: where it stops, and the thrown value when a turn
    throws. *)
Fixpoint uploadAll (w : World) (files : list MulterFile) (l : Loop) : Loop * option thrown :=
  match files with
  | [] => (l, None)
  | f :: rest =>
      match uploadOne w f l with
      | inl l' => uploadAll w rest l'
      | inr e => (l, Some e)
      end
  end.

(** [res.json({ files, message, skippedFiles })] *)
Record Body := { files : list File.t; message : string; skipped : list string }.

Inductive Reply : Type :=
| Ok (body : Body)
| BadRequest (message : string)
| ServerError (message : string).

Definition start (s : MemStorage.t) : Loop :=
  {| store := s; uploadedFiles := []; skippedFiles := []; scheduled := []; turn := 0 |}.

(** The handler: its reply, the registry it leaves and the validations it
    has deferred.  [None] stands for a request without an array of files. *)
Definition upload (w : World) (files : option (list MulterFile)) (s : MemStorage.t)
  : Reply * MemStorage.t * list Task :=
  match files with
  | None => (BadRequest "No files uploaded", s, [])
  | Some files =>
      match uploadAll w files (start s) with
      | (l, Some e) => (ServerError (message_or e "Upload failed"), store l, scheduled l)
      | (l, None) =>
          let n := Js.decimal (List.length (uploadedFiles l)) in
          let message :=
            match skippedFiles l with
            | _ :: _ =>
                (n ++ " file(s) uploaded and are being validated. "
                   ++ Js.decimal (List.length (skippedFiles l))
                   ++ " file(s) skipped (already exists): "
                   ++ Js.join ", " (skippedFiles l))%string
            | [] => (n ++ " file(s) uploaded successfully and are being validated")%string
            end in
          (Ok {| files := uploadedFiles l; message := message; skipped := skippedFiles l |},
           store l, scheduled l)
      end
  end.

(** The delay of the timer that races the validation, in milliseconds. *)
Definition validationTimeout : N := 10000%N.

Definition timedOut : ValidationResult :=
  {| isValid := false; error := Some "Validation timeout after 10 seconds" |}.

(** The validation the deferred task picks for a file. *)
Definition check (w : World) (t : Task) : await ValidationResult :=
  let f := file t in
  if Js.includes (mimetype f) "xml" || Js.endsWith (originalname f) ".xml"
  then validateXmlFile w (newPath t)
  else if Js.includes (mimetype f) "xsl" || Js.endsWith (originalname f) ".xsl"
  then validateXslFile w (newPath t)
  else if Js.endsWith (Js.toLowerCase (originalname f)) ".xsd"
  then validateXsdFile w (newPath t)
  else Settles 0%N {| isValid := false; error := Some "Unsupported file type" |}.

(** [validationWithTimeout()]: the promise takes the first of the two
    answers, the validation's when it settles before the timer fires. *)
Definition validationWithTimeout (w : World) (t : Task) : ValidationResult :=
  match check w t with
  | Settles ms result => if (ms <? validationTimeout)%N then result else timedOut
  | Never => timedOut
  end.

(** The deferred task; [now] is the [new Date()] of [updateFileValidation]. *)
Definition validate (w : World) (now : Date) (t : Task) (s : MemStorage.t) : MemStorage.t :=
  let validationResult := validationWithTimeout w t in
  snd (MemStorage.updateFileValidation (File.id (savedFile t))
         (if isValid validationResult then "valid" else "invalid")
         (error validationResult) now s).

End Upload.

(** * Specification vocabulary *)

(** ** Dependency resolution *)

(** No file of the pool answers to [dependencyPath] in [resolveDependencies]. *)
Definition unresolved (pool : list File.t) (dependencyPath : string) : bool :=
  match Js.find (Resolver.resolves dependencyPath) pool with
  | Some _ => false
  | None => true
  end.

(** The record a turn of [resolveDependencies] leaves for a directive. *)
Definition outcome (pool : list File.t) (xslFileId id dependencyPath : string) : Dependency.t :=
  match Js.find (Resolver.resolves dependencyPath) pool with
  | Some resolvedFile =>
      {| Dependency.id := id; Dependency.xslFileId := xslFileId;
         Dependency.dependencyPath := dependencyPath;
         Dependency.resolvedFileId := Some (File.id resolvedFile);
         Dependency.status := "resolved" |}
  | None =>
      {| Dependency.id := id; Dependency.xslFileId := xslFileId;
         Dependency.dependencyPath := dependencyPath;
         Dependency.resolvedFileId := None;
         Dependency.status := "missing" |}
  end.

Fixpoint outcomes (pool : list File.t) (xslFileId : string) (uuid : nat -> string)
         (n : nat) (paths : list string) : JsMap.t Dependency.t :=
  match paths with
  | [] => []
  | p :: rest =>
      (uuid n, outcome pool xslFileId (uuid n) p) :: outcomes pool xslFileId uuid (S n) rest
  end.

(** The paths of the directives that no file of the pool answers to, and the
    errors [resolveDependencies] collects for them. *)
Definition missingPaths (pool : list File.t) (paths : list string) : list string :=
  filter (unresolved pool) paths.

Definition missingErrors (pool : list File.t) (paths : list string) : list string :=
  map (fun p => "Missing dependency: " ++ p) (missingPaths pool paths).

(** ** The states of a job *)

(** The job as [POST /api/transform] has just created it. *)
Definition queued (id : string) (job : Transformation.t) (s : MemStorage.t) : Prop :=
  MemStorage.getTransformation id s = Some job
  /\ Transformation.status job = "queued"
  /\ Transformation.progress job = Some "0"
  /\ Transformation.statusMessage job = None
  /\ Transformation.errorMessage job = None
  /\ Transformation.completedAt job = None.

(** The progress as a number: [parseInt(transformation.progress || '0')], as
    the client reads it. *)
Definition percent (t : Transformation.t) : nat :=
  match Transformation.progress t with
  | Some p =>
      match NilZero.uint_of_string p with
      | Some u => Nat.of_uint u
      | None => 0
      end
  | None => 0
  end.

Definition terminal (t : Transformation.t) : Prop :=
  Transformation.status t = "completed" \/ Transformation.status t = "failed".

(** [b] is observed right after [a]. *)
Definition adjacent {A} (a b : A) (l : list A) : Prop :=
  exists l1 l2, l = (l1 ++ a :: b :: l2)%list.

(** What [updateTransformation] stores for a job [tr]. *)
Definition applied (u : Updates.t) (now : Date) (tr : Transformation.t) : Transformation.t :=
  if MemStorage.terminal_update u
  then MemStorage.set_completedAt (MemStorage.spread tr u) now
  else MemStorage.spread tr u.

(** The states a job goes through under the writes [us], the first of them
    being the [n]-th write of the run. *)
Fixpoint states (w : World) (n : nat) (tr : Transformation.t) (us : list Updates.t)
  : list Transformation.t :=
  match us with
  | [] => []
  | u :: us' => applied u (clock w n) tr :: states w (S n) (applied u (clock w n) tr) us'
  end.

(** The job after the same writes. *)
Fixpoint final (w : World) (n : nat) (tr : Transformation.t) (us : list Updates.t)
  : Transformation.t :=
  match us with
  | [] => tr
  | u :: us' => final w (S n) (applied u (clock w n) tr) us'
  end.

(** The run [r] has made the writes [us] on the job, and has left the files
    of the registry [s0] as they were. *)
Definition tracks (w : World) (id : string) (s0 : MemStorage.t) (job : Transformation.t)
           (us : list Updates.t) (r : Controller.Run) : Prop :=
  Controller.observed r = job :: states w 0 job us
  /\ Controller.writes r = List.length us
  /\ MemStorage.getTransformation id (Controller.store r) = Some (final w 0 job us)
  /\ MemStorage.files (Controller.store r) = MemStorage.files s0.

(** ** The controller as a relation: the writes of each stage *)

Section Stages.

Variable w : World.
Variables xmlFile xslFile : File.t.
Variable options : Controller.Options.
Variable s : MemStorage.t.

Definition parsing : Updates.t :=
  Controller.checkpoint
    (if Controller.validateWithXsd options || Controller.resolveDeps options
     then "50" else "40")
    "Parsing XML and XSL files...".

Definition executing : Updates.t :=
  Controller.checkpoint "60"
    ("Executing XSLT transformation (" ++ File.originalName xmlFile ++ " + "
     ++ File.originalName xslFile ++ ")...").

Definition finalizing : Updates.t :=
  Controller.checkpoint "85" "Finalizing HTML output...".

Definition resolving : Updates.t :=
  Controller.checkpoint (if Controller.validateWithXsd options then "35" else "30")
                        "Resolving XSL dependencies and imports...".

Definition preparing : Updates.t :=
  Controller.processing (if Controller.validateWithXsd options
                         then "Preparing XSD validation..."
                         else "Preparing transformation...").

Definition validating (xsd : File.t) : Updates.t :=
  Controller.checkpoint "15"
    ("Validating XML against XSD schema (" ++ File.originalName xsd ++ ")...").

Definition validated : Updates.t :=
  Controller.checkpoint "25" "✅ XSD validation passed - XML schema compliant".

(** The answer of the executor on the files of this job. *)
Definition executor : option thrown :=
  Executor.processXsltTransformation w s (File.path xmlFile) (File.path xslFile)
                                     (Controller.outputPath w).

(** The errors of the dependency stage. *)
Definition dependencyErrors : list string :=
  fst (Resolver.resolveDependencies w (File.id xslFile) (File.path xslFile) s).

Inductive executes : list Updates.t -> Prop :=
| executor_throws e :
    executor = Some e ->
    executes [parsing; executing; Controller.caught e]
| stat_throws e :
    executor = None ->
    stat w (Controller.outputPath w) = inr e ->
    executes [parsing; executing; finalizing; Controller.caught e]
| completes size :
    executor = None ->
    stat w (Controller.outputPath w) = inl size ->
    executes [parsing; executing; finalizing;
              Controller.completed (Controller.outputPath w) (toFixed1 w size 1024)
                                   (toFixed1 w (elapsed w) 1000)].

Inductive resolves : list Updates.t -> Prop :=
| resolution_skipped us :
    Controller.resolveDeps options = false ->
    executes us ->
    resolves us
| dependencies_missing :
    Controller.resolveDeps options = true ->
    dependencyErrors <> [] ->
    resolves [resolving; Controller.failed (Js.join "; " dependencyErrors)]
| dependencies_found us :
    Controller.resolveDeps options = true ->
    dependencyErrors = [] ->
    executes us ->
    resolves (resolving :: us).

(** [runs us b]: the writes of a whole run, and whether the task ends. *)
Inductive runs : list Updates.t -> bool -> Prop :=
| schema_skipped us :
    Controller.validateWithXsd options = false \/ Controller.xsdFile options = None ->
    resolves us ->
    runs (preparing :: us) true
| schema_pending xsd :
    Controller.validateWithXsd options = true ->
    Controller.xsdFile options = Some xsd ->
    validateXmlAgainstXsd w (File.path xmlFile) (File.path xsd) = Never ->
    runs [preparing; validating xsd] false
| schema_invalid xsd ms result :
    Controller.validateWithXsd options = true ->
    Controller.xsdFile options = Some xsd ->
    validateXmlAgainstXsd w (File.path xmlFile) (File.path xsd) = Settles ms result ->
    isValid result = false ->
    runs [preparing; validating xsd;
          Controller.failed ("XSD Validation Failed: " ++ Controller.template (error result))]
         true
| schema_valid xsd ms result us :
    Controller.validateWithXsd options = true ->
    Controller.xsdFile options = Some xsd ->
    validateXmlAgainstXsd w (File.path xmlFile) (File.path xsd) = Settles ms result ->
    isValid result = true ->
    resolves us ->
    runs (preparing :: validating xsd :: validated :: us) true.



End Stages.

(** A write that leaves the job running. *)
Definition live (u : Updates.t) : Prop :=
  Updates.status u = None \/ Updates.status u = Some "processing".

(** ** Worlds that differ in the answers of SaxonJS only *)

Definition with_saxon (w : World) (getResource : string -> option thrown)
           (compile : string -> string + thrown)
           (transform : string -> string -> string + thrown) : World :=
  {| readFile := readFile w;
     writeFile := writeFile w;
     stat := stat w;
     rename := rename w;
     validateXmlFile := validateXmlFile w;
     validateXslFile := validateXslFile w;
     validateXsdFile := validateXsdFile w;
     validateXmlAgainstXsd := validateXmlAgainstXsd w;
     saxonGetResource := getResource;
     saxonCompile := compile;
     saxonTransform := transform;
     xsltProcess := xsltProcess w;
     toFixed1 := toFixed1 w;
     elapsed := elapsed w;
     clock := clock w;
     dependencyUuid := dependencyUuid w;
     outputUuid := outputUuid w;
     pathUuid := pathUuid w;
     fileUuid := fileUuid w;
     uploadClock := uploadClock w |}.

(** ** The content preprocessor at rest *)


(** * Concrete inputs *)

Module Examples.

Definition stored (id name : string) : File.t :=
  {| File.id := id;
     File.filename := "tmp_" ++ id;
     File.originalName := name;
     File.mimeType := "text/xml";
     File.size := "64";
     File.path := "uploads/" ++ id ++ "_" ++ name;
     File.uploadedAt := 1;
     File.validationStatus := Some "valid";
     File.validationError := None;
     File.validatedAt := Some 2 |}.

Definition xmlFile : File.t := stored "f1" "order.xml".
Definition xslFile : File.t := stored "f2" "order.xsl".
Definition xsdFile : File.t := stored "f3" "order.xsd".
Definition w2Style : File.t := stored "f4" "W2Style.xsl".

(** A registry that holds the three files, and one that also holds
    [W2Style.xsl]. *)
Definition pool : MemStorage.t :=
  {| MemStorage.files := [("f1", xmlFile); ("f2", xslFile); ("f3", xsdFile)];
     MemStorage.transformations := [];
     MemStorage.dependencies := [] |}.

Definition w2Pool : MemStorage.t :=
  MemStorage.with_files pool (MemStorage.files pool ++ [("f4", w2Style)])%list.

(** The job [POST /api/transform] creates for the two files, and the
    registry once it is created. *)
Definition created (s : MemStorage.t) : Transformation.t * MemStorage.t :=
  MemStorage.createTransformation "job"%string 5
    {| InsertTransformation.xmlFileId := "f1";
       InsertTransformation.xslFileId := "f2";
       InsertTransformation.xsdFileId := None;
       InsertTransformation.status := "queued";
       InsertTransformation.progress := Some "0";
       InsertTransformation.statusMessage := None;
       InsertTransformation.resultPath := None;
       InsertTransformation.errorMessage := None;
       InsertTransformation.processingTime := None;
       InsertTransformation.outputSize := None |} s.

Definition job : Transformation.t := fst (created pool).
Definition registry : MemStorage.t := snd (created pool).
Definition w2Registry : MemStorage.t := snd (created w2Pool).

(** [(a / b).toFixed(1)], rounded half up on the tenth. *)
Definition tenths (a b : nat) : string :=
  let t := (10 * a + b / 2) / b in
  Js.decimal (t / 10) ++ "." ++ Js.decimal (t mod 10).

(** A world in which [order.xsl] holds [stylesheet], the schema check
    answers [schema], SaxonJS answers [saxon] to the transformation and
    xslt-processor answers [xslt]. *)
Definition world (stylesheet : string) (schema : await ValidationResult)
           (saxon xslt : string + thrown) : World :=
  {| readFile := fun p =>
                   if String.eqb p (File.path xslFile) then inl stylesheet
                   else if String.eqb p (File.path xmlFile) then inl "<order id='7'/>"
                   else if String.eqb p (File.path w2Style) then inl "<xsl:stylesheet/>"
                   else inr (JsError ("ENOENT: no such file or directory, open '" ++ p ++ "'"));
     writeFile := fun _ _ => None;
     stat := fun _ => inl 2048;
     rename := fun _ _ => None;
     validateXmlFile := fun _ => Settles 40 {| isValid := true; error := None |};
     validateXslFile := fun _ => Settles 40 {| isValid := true; error := None |};
     validateXsdFile := fun _ => Settles 40 {| isValid := true; error := None |};
     validateXmlAgainstXsd := fun _ _ => schema;
     saxonGetResource := fun _ => None;
     saxonCompile := fun p => inl (p ++ ".sef.json");
     saxonTransform := fun _ _ => saxon;
     xsltProcess := fun _ _ => xslt;
     toFixed1 := tenths;
     elapsed := 1200;
     clock := fun n => 100 + n;
     dependencyUuid := fun n => "d" ++ Js.decimal n;
     outputUuid := "out";
     pathUuid := fun n => "p" ++ Js.decimal n;
     fileUuid := fun n => "u" ++ Js.decimal n;
     uploadClock := fun n => 50 + n |}.

Definition compliant : await ValidationResult :=
  Settles 30 {| isValid := true;
                error := Some "Basic XSD validation passed. Note: This is simplified validation - enterprise processors provide comprehensive schema compliance checking." |}.

Definition notCompliant : await ValidationResult :=
  Settles 30 {| isValid := false;
                error := Some "XSD does not appear to define the root element 'order'. Note: This is basic validation - enterprise processors provide comprehensive schema validation." |}.

Definition plain : string :=
  "<xsl:stylesheet version='1.0'><xsl:template match='/'><p/></xsl:template></xsl:stylesheet>".

Definition withMissing : string :=
  "<xsl:stylesheet version='1.0'><xsl:include href='Missing.xsl'/><xsl:template match='/'><p/></xsl:template></xsl:stylesheet>".

Definition withW2 : string :=
  "<xsl:stylesheet version='1.0'><xsl:include href='W2CMStyle.xsl'/><xsl:template match='/'><p/></xsl:template></xsl:stylesheet>".

Definition keyed : string :=
  "<xsl:stylesheet version='1.0'><xsl:key name='k' match='item' use='@id'/><xsl:output method='html'/><xsl:template match='/'><xsl:value-of select='key(1, 2)'/></xsl:template></xsl:stylesheet>".


Definition options (deps schema : bool) : Controller.Options :=
  {| Controller.validateXml := true;
     Controller.resolveDeps := deps;
     Controller.generatePreview := false;
     Controller.validateWithXsd := schema;
     Controller.xsdFile := if schema then Some xsdFile else None |}.

Definition run (w : World) (deps schema : bool) : Controller.Run :=
  Controller.processTransformation w "job" xmlFile xslFile (options deps schema)
                                   (Controller.begin registry job).

Definition html : string := "<p></p>".

(** Both engines work. *)
Definition healthy : World := world plain compliant (inl html) (inl html).

(** SaxonJS throws and xslt-processor works. *)
Definition degraded : World :=
  world plain compliant (inr (JsError "XTDE0044: no source input")) (inl html).

(** Both engines throw. *)
Definition broken : World :=
  world plain compliant (inr (JsError "XTDE0044: no source input"))
        (inr (JsError "nodeSetValue is not supported")).

Definition upload (name : string) : Upload.MulterFile :=
  {| Upload.originalname := name;
     Upload.filename := "tmp_" ++ name;
     Upload.mimetype := "text/xml";
     Upload.size := 64;
     Upload.path := "uploads/tmp_" ++ name |}.

End Examples.

(** * The rest of the route module *)

(** ** The upload filter ([fileFilter] of the [multer] configuration) *)

Module Multer.

Definition allowedMimes : list string :=
  [ "text/xml"; "application/xml"; "text/xsl"; "application/xslt+xml" ].

Definition allowedExtensions : list string := [ ".xml"; ".xsl"; ".xsd" ].

(** [allowedMimes.includes(file.mimetype)] *)
Definition hasValidMime (file : Upload.MulterFile) : bool :=
  existsb (String.eqb (Upload.mimetype file)) allowedMimes.

(** [allowedExtensions.some(ext => file.originalname.toLowerCase().endsWith(ext))] *)
Definition hasValidExtension (file : Upload.MulterFile) : bool :=
  existsb (fun ext => Js.endsWith (Js.toLowerCase (Upload.originalname file)) ext)
          allowedExtensions.

(** The error handed to [cb]; [None] when the file is let through. *)
Definition fileFilter (file : Upload.MulterFile) : option thrown :=
  if hasValidMime file || hasValidExtension file then None
  else Some (JsError "Only XML, XSL, and XSD files are allowed").

End Multer.

(** ** More string primitives *)

Module Text.

(** [s.split(c)] for a separator of one character. *)
Fixpoint split_aux (c : ascii) (s cur : string) : list string :=
  match s with
  | EmptyString => [cur]
  | String a s' =>
      if Ascii.eqb a c then cur :: split_aux c s' EmptyString
      else split_aux c s' (cur ++ String a EmptyString)
  end.

Definition split (c : ascii) (s : string) : list string := split_aux c s EmptyString.

(** [s.slice(0, s.length - n)] *)
Definition dropEnd (n : nat) (s : string) : string :=
  substring 0 (String.length s - n) s.

End Text.

(** ** A negated class that holds [\s]

    [[^>\s]] reads one character that is neither [>] nor white space.  Over
    the bytes of UTF-8 that is one whole encoded character, the encodings
    that [space] reads left out.  A character outside the basic plane is
    two code units for the pattern and four bytes here; the patterns below
    repeat the class greedily, so both read it whole. *)

Module Utf8.

Definition between (lo hi : nat) (b : ascii) : bool :=
  let n := nat_of_ascii b in ((lo <=? n) && (n <=? hi))%nat.

Definition code (n : nat) (b : ascii) : bool := (nat_of_ascii b =? n)%nat.

Definition byte (n : nat) : regex := Char (code n).

(** A continuation byte, and one that is none of [l]. *)
Definition continuation : regex := Char (between 128 191).

Definition continuation_but (l : list nat) : regex :=
  Char (fun b => between 128 191 b && negb (existsb (fun n => code n b) l)).

Definition asciiSpace (b : ascii) : bool := between 9 13 b || code 32 b.

(** An ASCII character that is neither white space nor one of [excluded]. *)
Definition plain (excluded : list ascii) (b : ascii) : bool :=
  between 0 127 b && negb (asciiSpace b) && negb (existsb (Ascii.eqb b) excluded).

(** [[^\s...]], the dots being the ASCII characters of [excluded]. *)
Definition not_space_nor (excluded : list ascii) : regex :=
  alt [ Char (plain excluded);
        (* U+0080 to U+07FF, without U+00A0 *)
        Cat (byte 194) (continuation_but [160]);
        Cat (Char (between 195 223)) continuation;
        (* U+0800 to U+FFFF, without U+1680, U+2000 to U+200A, U+2028, U+2029,
           U+202F, U+205F, U+3000 and U+FEFF *)
        Cat (byte 224) (Cat continuation continuation);
        Cat (byte 225) (Or (Cat (byte 154) (continuation_but [128]))
                           (Cat (continuation_but [154]) continuation));
        Cat (byte 226)
            (alt [ Cat (byte 128)
                       (continuation_but [128; 129; 130; 131; 132; 133; 134; 135; 136; 137;
                                          138; 168; 169; 175]);
                   Cat (byte 129) (continuation_but [159]);
                   Cat (Char (between 130 191)) continuation ]);
        Cat (byte 227) (Or (Cat (byte 128) (continuation_but [128]))
                           (Cat (Char (between 129 191)) continuation));
        Cat (Char (between 228 238)) (Cat continuation continuation);
        Cat (byte 239) (Or (Cat (byte 187) (continuation_but [191]))
                           (Cat (continuation_but [187]) continuation));
        (* U+10000 and above *)
        Cat (Char (between 240 244)) (Cat continuation (Cat continuation continuation)) ].

End Utf8.

(** ** The validators of the route module

    [validateXmlFile], [validateXslFile], [validateXsdFile] and
    [validateXmlAgainstXsd] read the files and hand their text to the parser
    of xslt-processor; [xmlParse] is what [xmlParser.xmlParse(content)]
    throws, if it does.  Each of them catches what is thrown. *)

Module Validators.

Section Parser.

Variable w : World.
Variable xmlParse : string -> option thrown.

Definition valid : ValidationResult := {| isValid := true; error := None |}.

Definition invalid (text : string) : ValidationResult :=
  {| isValid := false; error := Some text |}.

Definition validateXmlFile (filePath : string) : ValidationResult :=
  match readFile w filePath with
  | inr e => invalid (message_or e "Invalid XML structure")
  | inl content =>
      match xmlParse content with
      | Some e => invalid (message_or e "Invalid XML structure")
      | None => valid
      end
  end.

Definition validateXslFile (filePath : string) : ValidationResult :=
  match readFile w filePath with
  | inr e => invalid (message_or e "Invalid XSL structure")
  | inl content =>
      match xmlParse content with
      | Some e => invalid (message_or e "Invalid XSL structure")
      | None =>
          let contentStr := Js.toLowerCase content in
          if negb (Js.includes contentStr "xsl:stylesheet")
             && negb (Js.includes contentStr "xsl:transform")
          then invalid "File does not appear to be a valid XSLT stylesheet (missing xsl:stylesheet or xsl:transform)"
          else if negb (Js.includes contentStr "xmlns:xsl")
                  || negb (Js.includes contentStr "http://www.w3.org/1999/xsl/transform")
          then invalid "Missing XSLT namespace declaration"
          else valid
      end
  end.

Definition validateXsdFile (filePath : string) : ValidationResult :=
  match readFile w filePath with
  | inr e => invalid (message_or e "Invalid XSD structure")
  | inl content =>
      match xmlParse content with
      | Some e => invalid (message_or e "Invalid XSD structure")
      | None =>
          let contentStr := Js.toLowerCase content in
          if negb (Js.includes contentStr "schema")
             || negb (Js.includes contentStr "http://www.w3.org/2001/xmlschema")
          then invalid "File does not appear to be a valid XML Schema (missing schema elements or namespace)"
          else if negb (Js.includes contentStr "xmlns:")
                  && negb (Js.includes contentStr "targetnamespace")
          then invalid "XSD file appears to be missing namespace declarations"
          else valid
      end
  end.

(** [/<([^>\s]+)/] *)
Definition rootRegex : regex :=
  sequence [ lit "<"; Cap 1 (plus (Utf8.not_space_nor [">"%char])) ].

(** [xmlRootMatch ? xmlRootMatch[1] : null] *)
Definition xmlRootElement (xmlContent : string) : option string :=
  option_map (Resolver.group 1) (exec rootRegex xmlContent).

(** [xsdContent.toLowerCase().includes(`element name=\x22${name.toLowerCase()}`)] *)
Definition defines (xsdContent name : string) : bool :=
  Js.includes (Js.toLowerCase xsdContent)
              ("element name=" ++ Js.dq ++ Js.toLowerCase name).

(** [name.includes(':') ? name.split(':')[1] : name]; the test makes the
    second piece exist. *)
Definition elementWithoutNamespace (name : string) : string :=
  if Js.includes name ":" then nth 1 (Text.split ":"%char name) EmptyString else name.

Definition passed : ValidationResult :=
  {| isValid := true;
     error := Some "Basic XSD validation passed. Note: This is simplified validation - enterprise processors provide comprehensive schema compliance checking." |}.

Definition undefinedRoot (name : string) : ValidationResult :=
  invalid ("XSD does not appear to define the root element '" ++ name
           ++ "'. Note: This is basic validation - enterprise processors provide comprehensive schema validation.").

Definition validateXmlAgainstXsd (xmlPath xsdPath : string) : ValidationResult :=
  match readFile w xmlPath with
  | inr e => invalid (message_or e "XSD validation failed")
  | inl xmlContent =>
      match readFile w xsdPath with
      | inr e => invalid (message_or e "XSD validation failed")
      | inl xsdContent =>
          match xmlParse xmlContent with
          | Some e => invalid (message_or e "XSD validation failed")
          | None =>
              match xmlParse xsdContent with
              | Some e => invalid (message_or e "XSD validation failed")
              | None =>
                  match or_null (xmlRootElement xmlContent) with
                  | Some name =>
                      if negb (defines xsdContent name)
                      then if negb (defines xsdContent (elementWithoutNamespace name))
                           then undefinedRoot name
                           else passed
                      else passed
                  | None => passed
                  end
              end
          end
      end
  end.

End Parser.

End Validators.

(** ** The routes on stored files and on results *)

Module Routes.

(** [res.json(body)] or [res.send(body)], and [res.status(code).json({ message })]. *)
Inductive Reply (A : Type) : Type :=
| Sent (body : A)
| Status (code : nat) (message : string).
Arguments Sent {A} body.
Arguments Status {A} code message.

(** [DELETE /api/files/:id]: the reply and the registry it leaves.  The
    removal of the file from the disk is left out: what it throws is
    caught, and it does not touch the registry. *)
Definition deleteFile (id : string) (s : MemStorage.t) : Reply string * MemStorage.t :=
  match MemStorage.getFile id s with
  | None => (Status 404 "File not found", s)
  | Some file =>
      let '(_, s) := MemStorage.deleteFile id s in
      (Sent "File deleted successfully", s)
  end.

(** [GET /api/transformations/:id/result] *)
Definition result (w : World) (id : string) (s : MemStorage.t) : Reply string :=
  match MemStorage.getTransformation id s with
  | None => Status 404 "Result not found"
  | Some transformation =>
      match Controller.truthy (Transformation.resultPath transformation) with
      | None => Status 404 "Result not found"
      | Some resultPath =>
          match readFile w resultPath with
          | inl result => Sent result
          | inr e => Status 500 (message_or e "Failed to fetch result")
          end
      end
  end.

(** [file.originalName.replace(/\.(xml|xsl|xslt)$/i, '')] in
    [POST /api/files/:id/generate-xsd].  The pattern is anchored at the end
    of the name, so its match is a suffix of the name; no name ends with
    two of the three extensions. *)
Definition baseName (originalName : string) : string :=
  let name := Js.toLowerCase originalName in
  if Js.endsWith name ".xml" || Js.endsWith name ".xsl" then Text.dropEnd 4 originalName
  else if Js.endsWith name ".xslt" then Text.dropEnd 5 originalName
  else originalName.

(** [`${baseName}.xsd`] *)
Definition suggestedFilename (originalName : string) : string :=
  baseName originalName ++ ".xsd".

End Routes.

(** ** The path of a compiled stylesheet *)

Module Sef.

(** [xslPath.replace(/\.xsl$/, '.sef.json')], the [sefPath] of
    [compileStylesheet] and the [potentialSefPath] of [transform]: the
    pattern is anchored at the end and has no flag. *)
Definition sefPath (xslPath : string) : string :=
  if Js.endsWith xslPath ".xsl" then Text.dropEnd 4 xslPath ++ ".sef.json" else xslPath.

End Sef.

(** ** The entities of a linked dependency *)

Module Entities.

(** The named entities that [resolveDependenciesForSaxon] rewrites in the
    copy of a dependency, each with the character reference that takes its
    place, in the order of the chain of [replace] calls. *)
Definition replacements : list (string * string) :=
  [ ("&nbsp;", "&#160;"); ("&copy;", "&#169;"); ("&reg;", "&#174;");
    ("&trade;", "&#8482;"); ("&amp;", "&#38;"); ("&lt;", "&#60;"); ("&gt;", "&#62;") ].

(** [content.replace(/&nbsp;/g, '&#160;').replace(/&copy;/g, '&#169;')...] *)
Definition fixEntities (content : string) : string :=
  fold_left (fun content e => Regex.replace (lit (fst e)) [Lit (snd e)] content)
            replacements content.

End Entities.

(** * More vocabulary *)

(** ** The registry as the operations of [MemStorage] make it *)

(** The keys of a [Map] are distinct, and every record sits under its id. *)
Definition keyed {V} (id : V -> string) (m : JsMap.t V) : Prop :=
  NoDup (JsMap.keys m) /\ Forall (fun e => id (snd e) = fst e) m.

(** A registry that was made by [new MemStorage()] and the methods of the
    class, with any arguments. *)
Inductive reachable : MemStorage.t -> Prop :=
| reach_create : reachable MemStorage.create
| reach_createFile id now ins s :
    reachable s -> reachable (snd (MemStorage.createFile id now ins s))
| reach_deleteFile id s :
    reachable s -> reachable (snd (MemStorage.deleteFile id s))
| reach_updateFileValidation id status error now s :
    reachable s -> reachable (snd (MemStorage.updateFileValidation id status error now s))
| reach_createTransformation id now ins s :
    reachable s -> reachable (snd (MemStorage.createTransformation id now ins s))
| reach_updateTransformation id updates now s :
    reachable s -> reachable (snd (MemStorage.updateTransformation id updates now s))
| reach_createDependency id ins s :
    reachable s -> reachable (snd (MemStorage.createDependency id ins s))
| reach_updateDependency id updates s :
    reachable s -> reachable (snd (MemStorage.updateDependency id updates s)).

(** The names under which the stored files were uploaded. *)
Definition storedNames (s : MemStorage.t) : list string :=
  map File.originalName (MemStorage.getAllFiles s).

(** ** The deferred validations of the uploads *)

(** The file carries a verdict. *)
Definition checked (file : File.t) : Prop :=
  File.validationStatus file = Some "valid" \/ File.validationStatus file = Some "invalid".

(** The registry after the deferred validations [done] have run, in that
    order, each with the time of its write. *)
Definition validations (w : World) (done : list (Date * Upload.Task)) (s : MemStorage.t)
  : MemStorage.t :=
  fold_left (fun s x => Upload.validate w (fst x) (snd x) s) done s.

(** ** The loop of the upload handler *)

(** What the loop of the handler keeps true, [n] being the number of files
    of the request: the files it has stored are in the registry under ids
    of the turns that are over, and the ids of the turns to come are free. *)
Definition fetched (w : World) (n : nat) (l : Upload.Loop) : Prop :=
  (forall f, In f (Upload.uploadedFiles l) ->
             MemStorage.getFile (File.id f) (Upload.store l) = Some f
             /\ exists i, i < Upload.turn l /\ File.id f = fileUuid w i)
  /\ forall i, Upload.turn l <= i < n ->
               MemStorage.getFile (fileUuid w i) (Upload.store l) = None.

(** ** What a pattern reads

    [reads r s c s1 c1]: the pattern [r] can read the text [s] down to its
    suffix [s1], taking the captures from [c] to [c1]. *)
Inductive reads : regex -> string -> caps -> string -> caps -> Prop :=
| reads_empty s c : reads Empty s c s c
| reads_char (p : ascii -> bool) a s c : p a = true -> reads (Char p) (String a s) c s c
| reads_cat r1 r2 s c s1 c1 s2 c2 :
    reads r1 s c s1 c1 -> reads r2 s1 c1 s2 c2 -> reads (Cat r1 r2) s c s2 c2
| reads_left r1 r2 s c s1 c1 : reads r1 s c s1 c1 -> reads (Or r1 r2) s c s1 c1
| reads_right r1 r2 s c s1 c1 : reads r2 s c s1 c1 -> reads (Or r1 r2) s c s1 c1
| reads_cap n r s c s1 c1 :
    reads r s c s1 c1 -> reads (Cap n r) s c s1 (set_cap n (Js.consumed s s1) c1)
| reads_done greedy r s c : reads (Rep greedy r) s c s c
| reads_again greedy r s c s1 c1 s2 c2 :
    reads r s (clear (groups r) c) s1 c1 ->
    String.length s1 < String.length s ->
    reads (Rep greedy r) s1 c1 s2 c2 ->
    reads (Rep greedy r) s c s2 c2.

(** The loop of a repetition, as [run] has it: [run (Rep greedy r) s c k] is
    [rep_loop greedy r k (S (String.length s)) s c]. *)
Section Loop.

Context {R : Type}.
Variable greedy : bool.
Variable r1 : regex.
Variable k : string -> caps -> option R.

Fixpoint rep_loop (fuel : nat) (s0 : string) (c0 : caps) {struct fuel} : option R :=
  match fuel with
  | O => None
  | S fuel' =>
      let again :=
        run r1 s0 (clear (groups r1) c0)
            (fun s1 c1 =>
               if (String.length s1 <? String.length s0)%nat
               then rep_loop fuel' s1 c1 else None) in
      if greedy then first_of again (k s0 c0)
      else first_of (k s0 c0) again
  end.

End Loop.

(** Every character of the text is in the class [p]. *)
Fixpoint all_in (p : ascii -> bool) (s : string) : bool :=
  match s with
  | EmptyString => true
  | String a s' => p a && all_in p s'
  end.

(** ** Entities and character references *)

Definition amp_free (s : string) : bool :=
  all_in (fun a => negb (Ascii.eqb a "&"%char)) s.

(** [&] followed by a name: the name is not empty, does not start with [#]
    and holds no [&]. *)
Definition named (q : string) : bool :=
  match q with
  | String a (String b q') =>
      Ascii.eqb a "&"%char && negb (Ascii.eqb b "#"%char) && amp_free (String b q')
  | _ => false
  end.

(** [&#] followed by a text without [&]. *)
Definition numeric (t : string) : bool :=
  match t with
  | String a (String b t') => Ascii.eqb a "&"%char && Ascii.eqb b "#"%char && amp_free t'
  | _ => false
  end.

(** * More concrete inputs *)

Module Cases.

(** A parser that accepts every text. *)
Definition lenient : string -> option thrown := fun _ => None.

Definition declared : string :=
  "<?xml version='1.0' encoding='UTF-8'?><order id='7'/>".

Definition orderSchema : string :=
  "<xs:schema xmlns:xs='http://www.w3.org/2001/XMLSchema'><xs:element name="
  ++ Js.dq ++ "order" ++ Js.dq ++ " type='xs:string'/></xs:schema>".

(** The world [w] with another disk: what the reads and the renames answer. *)
Definition with_disk (w : World) (read : string -> string + thrown)
           (move : string -> string -> option thrown) : World :=
  {| readFile := read;
     writeFile := writeFile w;
     stat := stat w;
     rename := move;
     validateXmlFile := validateXmlFile w;
     validateXslFile := validateXslFile w;
     validateXsdFile := validateXsdFile w;
     validateXmlAgainstXsd := validateXmlAgainstXsd w;
     saxonGetResource := saxonGetResource w;
     saxonCompile := saxonCompile w;
     saxonTransform := saxonTransform w;
     xsltProcess := xsltProcess w;
     toFixed1 := toFixed1 w;
     elapsed := elapsed w;
     clock := clock w;
     dependencyUuid := dependencyUuid w;
     outputUuid := outputUuid w;
     pathUuid := pathUuid w;
     fileUuid := fileUuid w;
     uploadClock := uploadClock w |}.

(** A disk that holds the document [doc.xml] and the schema [doc.xsd]. *)
Definition reading (xml xsd : string) : World :=
  with_disk Examples.healthy
    (fun p => if String.eqb p "doc.xml" then inl xml
              else if String.eqb p "doc.xsd" then inl xsd
              else inr (JsError ("ENOENT: no such file or directory, open '" ++ p ++ "'")))
    (rename Examples.healthy).

(** A disk on which the temporary file of [b.xml] cannot be moved. *)
Definition locked : World :=
  with_disk Examples.healthy (readFile Examples.healthy)
    (fun from _ => if String.eqb from "uploads/tmp_b.xml"
                   then Some (JsError "EXDEV: cross-device link not permitted")
                   else None).

(** A disk on which the stylesheet of the job cannot be read. *)
Definition unreadable : World :=
  with_disk Examples.healthy
    (fun p => inr (JsError ("EACCES: permission denied, open '" ++ p ++ "'")))
    (rename Examples.healthy).

(** An upload as a browser that does not know the type sends it. *)
Definition octets (name : string) : Upload.MulterFile :=
  {| Upload.originalname := name;
     Upload.filename := "tmp_" ++ name;
     Upload.mimetype := "application/octet-stream";
     Upload.size := 64;
     Upload.path := "uploads/tmp_" ++ name |}.

Definition insert (name : string) : InsertFile.t :=
  {| InsertFile.filename := "tmp_" ++ name;
     InsertFile.originalName := name;
     InsertFile.mimeType := "text/xml";
     InsertFile.size := "64";
     InsertFile.path := "uploads/p0_" ++ name |}.

(** The registry after one upload. *)
Definition uploaded : MemStorage.t :=
  snd (MemStorage.createFile "u0" 50 (insert "order.xml") MemStorage.create).

(** The validation deferred for a stored file. *)
Definition task (f : File.t) : Upload.Task :=
  {| Upload.savedFile := f;
     Upload.file := Examples.upload (File.originalName f);
     Upload.newPath := File.path f |}.

Definition request (xsd : bool) : Controller.Request :=
  {| Controller.xmlFileId := Some "f1";
     Controller.xslFileId := Some "f2";
     Controller.xsdFileId := if xsd then Some "f3" else None;
     Controller.req_validateXml := true;
     Controller.req_resolveDeps := false;
     Controller.req_generatePreview := false;
     Controller.req_validateWithXsd := xsd |}.

End Cases.

(** * Properties *)

(** ** The matcher on small texts *)

Example greedy_star_backtracks :
  option_map matched (exec (sequence [star any; lit "b"]) "abcbd") = Some "abcb".
Proof. reflexivity. Qed.

Example lazy_star_stops_early :
  option_map matched (exec (sequence [lazy_star any; lit "b"]) "abcbd") = Some "ab".
Proof. reflexivity. Qed.

Example leftmost_alternative_wins :
  option_map matched (exec (Or (lit "ab") (lit "abc")) "xabc") = Some "ab".
Proof. reflexivity. Qed.

Example repeated_group_is_cleared :
  option_map (fun f => get_cap 1 (groups_of f))
             (exec (star (Or (Cap 1 (lit "a")) (lit "b"))) "ab")
  = Some None.
Proof. reflexivity. Qed.

Example flag_i_folds_ascii_letters :
  Regex.replace (liti "html") [Lit "xml"] "Html, HTML and html" = "xml, xml and xml".
Proof. reflexivity. Qed.

Example directives_in_order :
  Resolver.directives
    "<xsl:import   href='b/c.xsl' /><xsl:include href='a.xsl'/><xsl:include href='a.xsl'/>"
  = ["b/c.xsl"; "a.xsl"; "a.xsl"].
Proof. reflexivity. Qed.

Example directive_needs_a_path :
  Resolver.directives "<xsl:include href=''/><xsl:include  src='a.xsl'/>" = [].
Proof. reflexivity. Qed.

Example preprocess_keyed_stylesheet :
  Preprocess.preprocessXslContent Examples.keyed
  = "<xsl:stylesheet version='1.0'><!-- Removed unsupported xsl:key --><xsl:output method="
    ++ Js.dq ++ "xml" ++ Js.dq ++ "/><xsl:template match='/'><xsl:value-of select='"
    ++ Js.dq ++ Js.dq ++ "'/></xsl:template></xsl:stylesheet>".
Proof. vm_compute. reflexivity. Qed.

Example basename_of_a_path : Js.basename "xsl/common/W2Style.xsl" = "W2Style.xsl".
Proof. reflexivity. Qed.

(** ** Facts about [Map] *)

Lemma get_set_same {V} (k : string) (v : V) (m : JsMap.t V) :
  JsMap.get k (JsMap.set k v m) = Some v.
Proof.
  induction m as [| [k' v'] m IH]; simpl.
  - now rewrite String.eqb_refl.
  - destruct (String.eqb k k') eqn:E; simpl.
    + now rewrite String.eqb_refl.
    + now rewrite E.
Qed.

Lemma get_set_other {V} (k k' : string) (v : V) (m : JsMap.t V) :
  k <> k' -> JsMap.get k (JsMap.set k' v m) = JsMap.get k m.
Proof.
  intros Hne. induction m as [| [k0 v0] m IH]; simpl.
  - destruct (String.eqb_spec k k'); [contradiction | reflexivity].
  - destruct (String.eqb_spec k' k0) as [-> | Hk]; simpl.
    + destruct (String.eqb_spec k k0); [contradiction | reflexivity].
    + destruct (String.eqb_spec k k0); [reflexivity | exact IH].
Qed.

Lemma set_fresh {V} (k : string) (v : V) (m : JsMap.t V) :
  JsMap.get k m = None -> JsMap.set k v m = (m ++ [(k, v)])%list.
Proof.
  induction m as [| [k' v'] m IH]; simpl; intros H; [reflexivity |].
  destruct (String.eqb k k'); [discriminate |].
  now rewrite IH.
Qed.

Lemma get_last {V} (k : string) (v : V) (m : JsMap.t V) :
  JsMap.get k m = None -> JsMap.get k (m ++ [(k, v)])%list = Some v.
Proof.
  induction m as [| [k' v'] m IH]; simpl; intros H.
  - now rewrite String.eqb_refl.
  - destruct (String.eqb k k'); [discriminate | now apply IH].
Qed.

Lemma set_last {V} (k : string) (v v' : V) (m : JsMap.t V) :
  JsMap.get k m = None ->
  JsMap.set k v' (m ++ [(k, v)])%list = (m ++ [(k, v')])%list.
Proof.
  induction m as [| [k0 v0] m IH]; simpl; intros H.
  - now rewrite String.eqb_refl.
  - destruct (String.eqb k k0); [discriminate |].
    now rewrite IH.
Qed.

Lemma get_app_other {V} (k k' : string) (v : V) (m : JsMap.t V) :
  k <> k' -> JsMap.get k (m ++ [(k', v)])%list = JsMap.get k m.
Proof.
  intros Hne. induction m as [| [k0 v0] m IH]; simpl.
  - destruct (String.eqb_spec k k'); [contradiction | reflexivity].
  - now rewrite IH.
Qed.

(** ** Facts about dependency resolution *)

Lemma resolveOne_fresh xslFileId id dependencyPath errors s :
  JsMap.get id (MemStorage.dependencies s) = None ->
  Resolver.resolveOne xslFileId id dependencyPath (errors, s) =
  ((errors ++ missingErrors (MemStorage.getAllFiles s) [dependencyPath])%list,
   MemStorage.with_dependencies s
     (MemStorage.dependencies s
      ++ [(id, outcome (MemStorage.getAllFiles s) xslFileId id dependencyPath)])%list).
Proof.
  intros Hfresh.
  unfold Resolver.resolveOne, MemStorage.createDependency, MemStorage.updateDependency,
    missingErrors, missingPaths, outcome, unresolved.
  rewrite (set_fresh _ _ _ Hfresh).
  change (MemStorage.getAllFiles (MemStorage.with_dependencies s ?[m]))
    with (MemStorage.getAllFiles s).
  cbn [filter].
  destruct (Js.find (Resolver.resolves dependencyPath) (MemStorage.getAllFiles s))
    as [f |] eqn:Efind;
    cbn [MemStorage.dependencies MemStorage.with_dependencies];
    rewrite (get_last _ _ _ Hfresh);
    cbn [snd MemStorage.dependencies MemStorage.with_dependencies];
    rewrite (set_last _ _ _ _ Hfresh);
    cbn [map]; rewrite ?app_nil_r; reflexivity.
Qed.

Lemma resolveAll_fresh xslFileId uuid paths : forall n errors s,
  NoDup (map uuid (seq n (List.length paths))) ->
  (forall i, n <= i < n + List.length paths ->
             JsMap.get (uuid i) (MemStorage.dependencies s) = None) ->
  Resolver.resolveAll xslFileId uuid n paths (errors, s) =
  ((errors ++ missingErrors (MemStorage.getAllFiles s) paths)%list,
   MemStorage.with_dependencies s
     (MemStorage.dependencies s
      ++ outcomes (MemStorage.getAllFiles s) xslFileId uuid n paths)%list).
Proof.
  induction paths as [| p rest IH]; intros n errors s Hnd Hfresh.
  - cbn. unfold missingErrors, missingPaths. cbn. rewrite !app_nil_r. destruct s; reflexivity.
  - cbn [Resolver.resolveAll].
    rewrite resolveOne_fresh by (apply Hfresh; cbn; lia).
    cbn [List.length seq map] in Hnd. apply NoDup_cons_iff in Hnd as [Hnotin Hnd].
    rewrite IH.
    + cbn [MemStorage.getAllFiles MemStorage.files MemStorage.with_dependencies
           MemStorage.dependencies outcomes].
      f_equal.
      * unfold missingErrors, missingPaths. cbn [filter map].
        destruct (unresolved _ p); cbn [map]; rewrite <- app_assoc; reflexivity.
      * unfold MemStorage.with_dependencies. cbn. now rewrite <- app_assoc.
    + exact Hnd.
    + intros i Hi. cbn [MemStorage.with_dependencies MemStorage.dependencies].
      rewrite get_app_other.
      * apply Hfresh. cbn. lia.
      * intros Heq. apply Hnotin. rewrite <- Heq. apply in_map, in_seq. lia.
Qed.


Lemma outcome_path pool xslFileId id p :
  Dependency.dependencyPath (outcome pool xslFileId id p) = p.
Proof. unfold outcome. now destruct (Js.find _ _). Qed.

Lemma outcomes_paths pool xslFileId uuid paths : forall n,
  map (fun e => Dependency.dependencyPath (snd e)) (outcomes pool xslFileId uuid n paths) = paths.
Proof.
  induction paths; intros n; cbn; [reflexivity |].
  now rewrite outcome_path, IHpaths.
Qed.

Lemma outcomes_owner pool xslFileId uuid paths : forall n,
  Forall (fun e => Dependency.xslFileId (snd e) = xslFileId
                   /\ (Dependency.status (snd e) = "resolved"
                       \/ Dependency.status (snd e) = "missing"))
         (outcomes pool xslFileId uuid n paths).
Proof.
  induction paths; intros n; cbn; constructor; auto.
  unfold outcome. destruct (Js.find _ _); cbn; auto.
Qed.


(** ** The controller refines its relation *)

Lemma states_app w us1 : forall n tr us2,
  states w n tr (us1 ++ us2)%list
  = (states w n tr us1 ++ states w (n + List.length us1) (final w n tr us1) us2)%list.
Proof.
  induction us1 as [| u us1 IH]; intros n tr us2; cbn [states final app List.length].
  - now rewrite Nat.add_0_r.
  - rewrite IH. cbn [app]. now replace (S n + List.length us1) with (n + S (List.length us1)) by lia.
Qed.

Lemma final_app w us1 : forall n tr us2,
  final w n tr (us1 ++ us2)%list = final w (n + List.length us1) (final w n tr us1) us2.
Proof.
  induction us1 as [| u us1 IH]; intros n tr us2; cbn [final app List.length].
  - now rewrite Nat.add_0_r.
  - rewrite IH. now replace (S n + List.length us1) with (n + S (List.length us1)) by lia.
Qed.

Lemma tracks_begin w id s job :
  queued id job s -> tracks w id s job [] (Controller.begin s job).
Proof. intros [Hget _]. repeat split; assumption. Qed.

Lemma tracks_update w id s job us u r :
  tracks w id s job us r ->
  tracks w id s job (us ++ [u]) (Controller.update w id u r).
Proof.
  intros (Hobs & Hwrites & Hget & Hfiles).
  unfold Controller.update, MemStorage.updateTransformation.
  unfold MemStorage.getTransformation in Hget. rewrite Hget.
  unfold tracks. cbn [Controller.observed Controller.writes Controller.store].
  rewrite Hobs, states_app, final_app, Hwrites. cbn [states final].
  repeat split.
  - now rewrite length_app, Nat.add_comm.
  - unfold MemStorage.getTransformation. cbn [MemStorage.transformations MemStorage.with_transformations].
    now rewrite get_set_same.
  - exact Hfiles.
Qed.

Lemma tracks_finish w id s job us r :
  tracks w id s job us r -> tracks w id s job us (Controller.finish r).
Proof. intros H; exact H. Qed.

Lemma resolveOne_frame xslFileId id p acc :
  MemStorage.files (snd (Resolver.resolveOne xslFileId id p acc)) = MemStorage.files (snd acc)
  /\ MemStorage.transformations (snd (Resolver.resolveOne xslFileId id p acc))
     = MemStorage.transformations (snd acc)
  /\ fst (Resolver.resolveOne xslFileId id p acc)
     = (fst acc ++ missingErrors (MemStorage.getAllFiles (snd acc)) [p])%list.
Proof.
  destruct acc as [errors s].
  unfold Resolver.resolveOne, MemStorage.createDependency, MemStorage.updateDependency,
    missingErrors, missingPaths, unresolved.
  change (MemStorage.getAllFiles (MemStorage.with_dependencies s ?[m]))
    with (MemStorage.getAllFiles s).
  cbn [filter fst snd].
  destruct (Js.find (Resolver.resolves p) (MemStorage.getAllFiles s));
    cbn [MemStorage.dependencies MemStorage.with_dependencies Dependency.id];
    rewrite get_set_same; cbn; rewrite ?app_nil_r; auto.
Qed.

Lemma resolveAll_frame xslFileId uuid paths : forall n acc,
  MemStorage.files (snd (Resolver.resolveAll xslFileId uuid n paths acc))
  = MemStorage.files (snd acc)
  /\ MemStorage.transformations (snd (Resolver.resolveAll xslFileId uuid n paths acc))
     = MemStorage.transformations (snd acc)
  /\ fst (Resolver.resolveAll xslFileId uuid n paths acc)
     = (fst acc ++ missingErrors (MemStorage.getAllFiles (snd acc)) paths)%list.
Proof.
  induction paths as [| p rest IH]; intros n acc; cbn [Resolver.resolveAll].
  - unfold missingErrors, missingPaths. cbn. now rewrite app_nil_r.
  - destruct (IH (S n) (Resolver.resolveOne xslFileId (uuid n) p acc)) as (Hf & Ht & He).
    destruct (resolveOne_frame xslFileId (uuid n) p acc) as (Hf1 & Ht1 & He1).
    rewrite Hf, Ht, He, Hf1, Ht1, He1. repeat split.
    unfold MemStorage.getAllFiles. rewrite Hf1.
    unfold missingErrors, missingPaths. cbn [filter].
    destruct (unresolved _ p); cbn [map app]; now rewrite <- app_assoc.
Qed.

(** [resolveDependencies] writes to the dependencies only, and its errors
    are decided by the files of the registry. *)
Lemma resolveDependencies_frame w xslFileId xslPath s :
  MemStorage.files (snd (Resolver.resolveDependencies w xslFileId xslPath s))
  = MemStorage.files s
  /\ MemStorage.transformations (snd (Resolver.resolveDependencies w xslFileId xslPath s))
     = MemStorage.transformations s.
Proof.
  unfold Resolver.resolveDependencies.
  destruct (readFile w xslPath); [| split; reflexivity].
  destruct (resolveAll_frame xslFileId (dependencyUuid w) (Resolver.directives s0) 0 ([], s))
    as (Hf & Ht & _).
  split; assumption.
Qed.

Lemma resolveDependencies_errors w xslFileId xslPath s xslContent :
  readFile w xslPath = inl xslContent ->
  fst (Resolver.resolveDependencies w xslFileId xslPath s)
  = missingErrors (MemStorage.getAllFiles s) (Resolver.directives xslContent).
Proof.
  intros Hread. unfold Resolver.resolveDependencies. rewrite Hread.
  now destruct (resolveAll_frame xslFileId (dependencyUuid w) (Resolver.directives xslContent)
                                 0 ([], s)) as (_ & _ & ->).
Qed.

Lemma resolveDependencies_pool w xslFileId xslPath s1 s2 :
  MemStorage.files s1 = MemStorage.files s2 ->
  fst (Resolver.resolveDependencies w xslFileId xslPath s1)
  = fst (Resolver.resolveDependencies w xslFileId xslPath s2).
Proof.
  intros Hfiles. unfold Resolver.resolveDependencies.
  destruct (readFile w xslPath) as [xslContent | e]; [| reflexivity].
  destruct (resolveAll_frame xslFileId (dependencyUuid w) (Resolver.directives xslContent)
                             0 ([], s1)) as (_ & _ & ->).
  destruct (resolveAll_frame xslFileId (dependencyUuid w) (Resolver.directives xslContent)
                             0 ([], s2)) as (_ & _ & ->).
  cbn [fst snd]. unfold MemStorage.getAllFiles. now rewrite Hfiles.
Qed.

Lemma executor_pool w s1 s2 xmlPath xslPath out :
  MemStorage.files s1 = MemStorage.files s2 ->
  Executor.processXsltTransformation w s1 xmlPath xslPath out
  = Executor.processXsltTransformation w s2 xmlPath xslPath out.
Proof.
  intros Hfiles.
  unfold Executor.processXsltTransformation, Executor.fallback, Resolver.resolveXslIncludes,
    MemStorage.getAllFiles.
  now rewrite Hfiles.
Qed.

Lemma tracks_with_store w id s job us r s' :
  tracks w id s job us r ->
  MemStorage.files s' = MemStorage.files (Controller.store r) ->
  MemStorage.transformations s' = MemStorage.transformations (Controller.store r) ->
  tracks w id s job us (Controller.with_store r s').
Proof.
  intros (Hobs & Hwrites & Hget & Hfiles) Hf Ht.
  unfold tracks, MemStorage.getTransformation in *.
  cbn [Controller.with_store Controller.observed Controller.writes Controller.store].
  rewrite Hf, Ht. auto.
Qed.

Lemma update_returned w id u r :
  Controller.returned (Controller.update w id u r) = Controller.returned r.
Proof.
  unfold Controller.update.
  now destruct (MemStorage.updateTransformation id u (clock w (Controller.writes r))
                                                (Controller.store r)).
Qed.

Lemma execute_refines w id xmlFile xslFile options s job us r :
  tracks w id s job us r ->
  exists us',
    executes w xmlFile xslFile options s us'
    /\ tracks w id s job (us ++ us') (Controller.execute w id xmlFile xslFile options r)
    /\ Controller.returned (Controller.execute w id xmlFile xslFile options r) = true.
Proof.
  intros H0.
  pose proof (tracks_update w id s job us (parsing options) r H0) as H1.
  pose proof (tracks_update w id s job _ (executing xmlFile xslFile) _ H1) as H2.
  unfold Controller.execute.
  fold (parsing options). fold (executing xmlFile xslFile).
  set (r2 := Controller.update w id (executing xmlFile xslFile)
                               (Controller.update w id (parsing options) r)) in *.
  rewrite (executor_pool w (Controller.store r2) s) by apply H2.
  fold (executor w xmlFile xslFile s).
  destruct (executor w xmlFile xslFile s) as [e |] eqn:Eexec.
  - exists [parsing options; executing xmlFile xslFile; Controller.caught e].
    split; [now constructor |]. split; [| reflexivity].
    apply tracks_finish.
    pose proof (tracks_update w id s job _ (Controller.caught e) _ H2) as H3.
    now rewrite <- !app_assoc in H3.
  - pose proof (tracks_update w id s job _ finalizing _ H2) as H3.
    fold finalizing.
    destruct (stat w (Controller.outputPath w)) as [size | e] eqn:Estat.
    + eexists. split; [eapply completes; eassumption |]. split; [| reflexivity].
      apply tracks_finish.
      pose proof (tracks_update w id s job _
                    (Controller.completed (Controller.outputPath w) (toFixed1 w size 1024)
                                          (toFixed1 w (elapsed w) 1000)) _ H3) as H4.
      now rewrite <- !app_assoc in H4.
    + eexists. split; [eapply stat_throws; eassumption |]. split; [| reflexivity].
      apply tracks_finish.
      pose proof (tracks_update w id s job _ (Controller.caught e) _ H3) as H4.
      now rewrite <- !app_assoc in H4.
Qed.

Lemma resolve_refines w id xmlFile xslFile options s job us r :
  tracks w id s job us r ->
  exists us',
    resolves w xmlFile xslFile options s us'
    /\ tracks w id s job (us ++ us') (Controller.resolve w id xmlFile xslFile options r)
    /\ Controller.returned (Controller.resolve w id xmlFile xslFile options r) = true.
Proof.
  intros H0. unfold Controller.resolve.
  destruct (Controller.resolveDeps options) eqn:Edeps.
  - fold (resolving options).
    pose proof (tracks_update w id s job us (resolving options) r H0) as H1.
    set (r1 := Controller.update w id (resolving options) r) in *.
    pose proof (resolveDependencies_frame w (File.id xslFile) (File.path xslFile)
                                          (Controller.store r1)) as [Hf Ht].
    pose proof (resolveDependencies_pool w (File.id xslFile) (File.path xslFile)
                                         (Controller.store r1) s) as Herr.
    fold (dependencyErrors w xslFile s) in Herr.
    destruct (Resolver.resolveDependencies w (File.id xslFile) (File.path xslFile)
                                            (Controller.store r1)) as [errors s'].
    cbn [fst snd] in *.
    rewrite Herr by apply H1.
    pose proof (tracks_with_store w id s job _ r1 s' H1 Hf Ht) as H2.
    destruct (dependencyErrors w xslFile s) as [| err errs] eqn:Eerrs.
    + destruct (execute_refines w id xmlFile xslFile options s job _ _ H2)
        as (us' & Hexec & Htr & Hret).
      exists (resolving options :: us'). split; [now apply dependencies_found |].
      split; [| exact Hret].
      now rewrite <- app_assoc in Htr.
    + exists [resolving options; Controller.failed (Js.join "; " (err :: errs))].
      split.
      * rewrite <- Eerrs. apply dependencies_missing; [assumption |].
        rewrite Eerrs. discriminate.
      * split; [| reflexivity]. apply tracks_finish.
        pose proof (tracks_update w id s job _ (Controller.failed (Js.join "; " (err :: errs)))
                                  _ H2) as H3.
        now rewrite <- app_assoc in H3.
  - destruct (execute_refines w id xmlFile xslFile options s job us r H0)
      as (us' & Hexec & Htr & Hret).
    exists us'. split; [now apply resolution_skipped |]. now split.
Qed.

(** Every run of [processTransformation] on a job that has just been
    created is a run of the relation. *)
Lemma processTransformation_refines w id xmlFile xslFile options s job :
  queued id job s ->
  exists us b,
    runs w xmlFile xslFile options s us b
    /\ tracks w id s job us
              (Controller.processTransformation w id xmlFile xslFile options
                                                (Controller.begin s job))
    /\ Controller.returned
         (Controller.processTransformation w id xmlFile xslFile options
                                           (Controller.begin s job)) = b.
Proof.
  intros Hq. pose proof (tracks_begin w id s job Hq) as H0.
  pose proof (tracks_update w id s job [] (preparing options) _ H0) as H1.
  cbn [app] in H1.
  unfold Controller.processTransformation. fold (preparing options).
  set (r1 := Controller.update w id (preparing options) (Controller.begin s job)) in *.
  assert (Hskip : Controller.validateWithXsd options = false
                  \/ Controller.xsdFile options = None ->
                  exists us b,
                    runs w xmlFile xslFile options s us b
                    /\ tracks w id s job us (Controller.resolve w id xmlFile xslFile options r1)
                    /\ Controller.returned
                         (Controller.resolve w id xmlFile xslFile options r1) = b).
  { intros Hno.
    destruct (resolve_refines w id xmlFile xslFile options s job _ _ H1)
      as (us' & Hres & Htr & Hret).
    exists (preparing options :: us'), true. split; [now apply schema_skipped |]. now split. }
  destruct (Controller.validateWithXsd options) eqn:Evx; [| apply Hskip; now left].
  destruct (Controller.xsdFile options) as [xsd |] eqn:Exsd; [| apply Hskip; now right].
  clear Hskip. fold (validating xsd).
  pose proof (tracks_update w id s job _ (validating xsd) _ H1) as H2.
  cbn [app] in H2.
  destruct (validateXmlAgainstXsd w (File.path xmlFile) (File.path xsd))
    as [ms result |] eqn:Echeck.
  - destruct (isValid result) eqn:Evalid; cbn [negb].
    + fold validated.
      pose proof (tracks_update w id s job _ validated _ H2) as H3. cbn [app] in H3.
      destruct (resolve_refines w id xmlFile xslFile options s job _ _ H3)
        as (us' & Hres & Htr & Hret).
      exists (preparing options :: validating xsd :: validated :: us'), true.
      split; [eapply schema_valid; eassumption |]. now split.
    + eexists; exists true.
      split; [eapply schema_invalid; eassumption |]. split; [| reflexivity].
      apply tracks_finish.
      exact (tracks_update w id s job _ _ _ H2).
  - exists [preparing options; validating xsd], false.
    split; [now apply schema_pending |]. split; [exact H2 |].
    unfold r1. now rewrite !update_returned.
Qed.

(** [POST /api/transform] hands to [processTransformation] a job that is
    queued in the registry. *)
Lemma transform_starts_queued w id now req s run :
  Controller.transform w id now req s = Some run ->
  exists job s1 xmlFile xslFile options,
    queued id job s1
    /\ MemStorage.files s1 = MemStorage.files s
    /\ run = Controller.processTransformation w id xmlFile xslFile options
                                              (Controller.begin s1 job).
Proof.
  unfold Controller.transform. intros H.
  destruct (Controller.truthy (Controller.xmlFileId req)) as [xmlId |]; [| discriminate].
  destruct (Controller.truthy (Controller.xslFileId req)) as [xslId |]; [| discriminate].
  destruct (MemStorage.getFile xmlId s) as [xmlFile |]; [| discriminate].
  destruct (MemStorage.getFile xslId s) as [xslFile |]; [| discriminate].
  assert (Hstart : forall ins options,
             InsertTransformation.status ins = "queued" ->
             InsertTransformation.progress ins = Some "0" ->
             InsertTransformation.statusMessage ins = None ->
             InsertTransformation.errorMessage ins = None ->
             Some (let '(transformation, s1) :=
                     MemStorage.createTransformation id now ins s in
                   Controller.processTransformation w (Transformation.id transformation)
                     xmlFile xslFile options (Controller.begin s1 transformation))
             = Some run ->
             exists job s1 xmlFile' xslFile' options',
               queued id job s1
               /\ MemStorage.files s1 = MemStorage.files s
               /\ run = Controller.processTransformation w id xmlFile' xslFile' options'
                                                         (Controller.begin s1 job)).
  { intros ins options Hst Hpr Hsm Herr Hrun.
    exists (fst (MemStorage.createTransformation id now ins s)),
           (snd (MemStorage.createTransformation id now ins s)), xmlFile, xslFile, options.
    split; [| split; [reflexivity | now injection Hrun as <-]].
    unfold queued, MemStorage.createTransformation, MemStorage.getTransformation.
    cbn [fst snd MemStorage.transformations MemStorage.with_transformations
         Transformation.status Transformation.progress Transformation.statusMessage
         Transformation.errorMessage Transformation.completedAt].
    rewrite get_set_same, Hst, Hpr, Hsm, Herr. repeat split. }
  destruct (Controller.req_validateWithXsd req) eqn:Evx.
  - destruct (Controller.truthy (Controller.xsdFileId req)) as [xsdId |]; [| discriminate].
    destruct (MemStorage.getFile xsdId s) as [xsd |]; [| discriminate].
    eapply Hstart; [| | | | exact H]; reflexivity.
  - eapply Hstart; [| | | | exact H]; reflexivity.
Qed.

(** A schema check that never settles leaves the job where the check
    started: the task does not end. *)
Lemma pending_schema_check_blocks_the_job w id xmlFile xslFile options s job xsd :
  queued id job s ->
  Controller.validateWithXsd options = true ->
  Controller.xsdFile options = Some xsd ->
  validateXmlAgainstXsd w (File.path xmlFile) (File.path xsd) = Never ->
  Controller.returned
    (Controller.processTransformation w id xmlFile xslFile options (Controller.begin s job))
  = false
  /\ Controller.observed
       (Controller.processTransformation w id xmlFile xslFile options (Controller.begin s job))
     = job :: states w 0 job [preparing options; validating xsd].
Proof.
  intros Hq Hvx Hxsd Hnever.
  pose proof (tracks_begin w id s job Hq) as H0.
  pose proof (tracks_update w id s job [] (preparing options) _ H0) as H1.
  pose proof (tracks_update w id s job _ (validating xsd) _ H1) as H2.
  unfold Controller.processTransformation. fold (preparing options).
  set (r1 := Controller.update w id (preparing options) (Controller.begin s job)) in *.
  rewrite Hvx, Hxsd. fold (validating xsd). rewrite Hnever.
  split; [unfold r1; now rewrite !update_returned | apply H2].
Qed.

(** ** Terminal states *)

Lemma executes_shape w xmlFile xslFile options s us :
  executes w xmlFile xslFile options s us ->
  exists init u, us = (init ++ [u])%list /\ Forall live init
                 /\ MemStorage.terminal_update u = true.
Proof.
  intros H. inversion H; subst.
  - exists [parsing options; executing xmlFile xslFile], (Controller.caught e).
    repeat split; repeat constructor.
  - exists [parsing options; executing xmlFile xslFile; finalizing], (Controller.caught e).
    repeat split; repeat constructor.
  - eexists [parsing options; executing xmlFile xslFile; finalizing], _.
    repeat split; repeat constructor.
Qed.

Lemma resolves_shape w xmlFile xslFile options s us :
  resolves w xmlFile xslFile options s us ->
  exists init u, us = (init ++ [u])%list /\ Forall live init
                 /\ MemStorage.terminal_update u = true.
Proof.
  intros H. inversion H; subst.
  - now apply executes_shape in H1.
  - exists [resolving options], (Controller.failed (Js.join "; " (dependencyErrors w xslFile s))).
    repeat split; repeat constructor.
  - apply executes_shape in H2 as (init & u & -> & Hlive & Hterm).
    exists (resolving options :: init), u. repeat split; auto.
    constructor; [now left | assumption].
Qed.

Lemma runs_shape w xmlFile xslFile options s us b :
  runs w xmlFile xslFile options s us b ->
  exists init,
    Forall live init
    /\ ((us = init /\ b = false)
        \/ exists u, us = (init ++ [u])%list /\ MemStorage.terminal_update u = true
                     /\ b = true).
Proof.
  intros H. inversion H; subst.
  - apply resolves_shape in H1 as (init & u & -> & Hlive & Hterm).
    exists (preparing options :: init). split; [constructor; [now right | assumption] |].
    right. now exists u.
  - exists [preparing options; validating xsd].
    split; [repeat constructor; now right |]. now left.
  - exists [preparing options; validating xsd].
    split; [repeat constructor; now right |]. right. eexists. repeat split.
  - apply resolves_shape in H4 as (init & u & -> & Hlive & Hterm).
    exists (preparing options :: validating xsd :: validated :: init).
    split; [repeat (constructor; [first [now left | now right] |]); assumption |].
    right. now exists u.
Qed.

Lemma applied_live u now tr :
  live u -> ~ terminal tr -> Transformation.completedAt tr = None ->
  ~ terminal (applied u now tr) /\ Transformation.completedAt (applied u now tr) = None.
Proof.
  intros Hlive Hnt Hnone. unfold applied, MemStorage.terminal_update, terminal in *.
  destruct Hlive as [E | E]; rewrite E; cbn; rewrite E.
  - split; assumption.
  - split; [| assumption]. intros [H | H]; discriminate H.
Qed.

Lemma applied_terminal u now tr :
  MemStorage.terminal_update u = true ->
  terminal (applied u now tr) /\ Transformation.completedAt (applied u now tr) = Some now.
Proof.
  intros Hterm. unfold applied. rewrite Hterm. split; [| reflexivity].
  unfold MemStorage.terminal_update, terminal in *.
  destruct (Updates.status u) as [v |] eqn:E; [| discriminate]. cbn. rewrite E.
  apply orb_true_iff in Hterm as [H | H]; apply String.eqb_eq in H; auto.
Qed.

Lemma states_live w us : forall n tr,
  Forall live us -> ~ terminal tr -> Transformation.completedAt tr = None ->
  Forall (fun t => ~ terminal t /\ Transformation.completedAt t = None) (states w n tr us)
  /\ ~ terminal (final w n tr us)
  /\ Transformation.completedAt (final w n tr us) = None.
Proof.
  induction us as [| u us IH]; intros n tr Hlive Hnt Hnone; cbn [states final].
  - auto.
  - inversion Hlive; subst.
    destruct (applied_live u (clock w n) tr) as [Hnt' Hnone']; auto.
    destruct (IH (S n) _ H2 Hnt' Hnone') as (Hall & Hfin).
    split; [constructor; auto | exact Hfin].
Qed.

Lemma states_length w us : forall n tr, List.length (states w n tr us) = List.length us.
Proof. induction us; intros; cbn; auto. Qed.

(** A list whose elements but the last are not terminal splits at a terminal
    element in one way only. *)
Lemma split_at_terminal (L l1 l2 : list Transformation.t) (t a : Transformation.t) :
  Forall (fun x => ~ terminal x) L ->
  (L ++ [t])%list = (l1 ++ a :: l2)%list -> terminal a ->
  l1 = L /\ a = t /\ l2 = [].
Proof.
  revert l1. induction L as [| x L IH]; intros l1 Hall Heq Ha.
  - destruct l1 as [| y l1]; cbn in Heq.
    + inversion Heq; subst. auto.
    + inversion Heq; subst. destruct l1; discriminate.
  - destruct l1 as [| y l1]; cbn in Heq; inversion Heq; subst.
    + inversion Hall; subst. contradiction.
    + inversion Hall; subst. destruct (IH l1 H3 H1 Ha) as (-> & -> & ->). auto.
Qed.

Lemma no_terminal_element (L l1 l2 : list Transformation.t) (a : Transformation.t) :
  Forall (fun x => ~ terminal x) L -> L = (l1 ++ a :: l2)%list -> terminal a -> False.
Proof.
  intros Hall -> Ha. apply Forall_app in Hall as [_ Hall]. inversion Hall; subst. contradiction.
Qed.

(** C2. Once a job is 'completed' or 'failed', no later state of the job has
    another status or another completion timestamp: the terminal write is the
    last write of the run.  The completion timestamp is unset in every state
    before the terminal one, it is set by the write that makes the job
    terminal, to the time of that write, and the registry keeps that state. *)
Theorem terminal_state_is_final :
  forall (w : World) (id : string) (xmlFile xslFile : File.t)
         (options : Controller.Options) (s : MemStorage.t) (job : Transformation.t),
    queued id job s ->
    forall (l1 l2 : list Transformation.t) (a : Transformation.t),
      Controller.observed
        (Controller.processTransformation w id xmlFile xslFile options (Controller.begin s job))
      = (l1 ++ a :: l2)%list ->
      terminal a ->
      l2 = []
      /\ (forall b, In b l2 -> Transformation.status b = Transformation.status a
                            /\ Transformation.completedAt b = Transformation.completedAt a)
      /\ (forall b, In b l1 -> ~ terminal b /\ Transformation.completedAt b = None)
      /\ Transformation.completedAt a = Some (clock w (List.length l1 - 1))
      /\ MemStorage.getTransformation id
           (Controller.store
              (Controller.processTransformation w id xmlFile xslFile options
                                                (Controller.begin s job)))
         = Some a.
Proof.
  intros w id xmlFile xslFile options s job Hq l1 l2 a Hobs Ha.
  destruct (processTransformation_refines w id xmlFile xslFile options s job Hq)
    as (us & ended & Hruns & (Hobs' & _ & Hget & _) & _).
  rewrite Hobs' in Hobs. rewrite Hget. clear Hobs' Hget.
  destruct Hq as (_ & Hst & _ & _ & _ & Hnone).
  assert (Hjob : ~ terminal job).
  { unfold terminal. rewrite Hst. intros [H | H]; discriminate H. }
  apply runs_shape in Hruns as (init & Hlive & [[-> ->] | (u & -> & Hterm & ->)]).
  - exfalso.
    destruct (states_live w init 0 job Hlive Hjob Hnone) as (Hall & _).
    eapply (no_terminal_element (job :: states w 0 job init)); eauto.
    constructor; [assumption |].
    eapply Forall_impl; [| exact Hall]. cbn. tauto.
  - destruct (states_live w init 0 job Hlive Hjob Hnone) as (Hall & Hfin & Hfnone).
    rewrite states_app in Hobs. cbn [states Nat.add] in Hobs.
    rewrite final_app. cbn [final Nat.add].
    change (job :: (states w 0 job init ++ [applied u (clock w (List.length init))
                                                    (final w 0 job init)])%list)
      with ((job :: states w 0 job init) ++ [applied u (clock w (List.length init))
                                                     (final w 0 job init)])%list in Hobs.
    apply split_at_terminal in Hobs as (-> & -> & ->); auto.
    + destruct (applied_terminal u (clock w (List.length init)) (final w 0 job init) Hterm)
        as [_ Hat].
      split; [reflexivity |]. split; [intros b [] |]. split; [| split].
      * intros b [<- | Hin]; [split; assumption |].
        rewrite Forall_forall in Hall. now apply Hall.
      * rewrite Hat. cbn [List.length]. rewrite states_length. f_equal. f_equal. lia.
      * reflexivity.
    + constructor; [assumption |].
      eapply Forall_impl; [| exact Hall]. cbn. tauto.
Qed.

(** ** Progress *)

Lemma applied_status u now tr :
  Transformation.status (applied u now tr)
  = match Updates.status u with Some v => v | None => Transformation.status tr end.
Proof. unfold applied. now destruct (MemStorage.terminal_update u). Qed.

Lemma applied_progress u now tr :
  Transformation.progress (applied u now tr)
  = MemStorage.override (Transformation.progress tr) (Updates.progress u).
Proof. unfold applied. now destruct (MemStorage.terminal_update u). Qed.

Lemma applied_errorMessage u now tr :
  Transformation.errorMessage (applied u now tr)
  = MemStorage.override (Transformation.errorMessage tr) (Updates.errorMessage u).
Proof. unfold applied. now destruct (MemStorage.terminal_update u). Qed.

Lemma applied_statusMessage u now tr :
  Transformation.statusMessage (applied u now tr)
  = MemStorage.override (Transformation.statusMessage tr) (Updates.statusMessage u).
Proof. unfold applied. now destruct (MemStorage.terminal_update u). Qed.


Lemma adjacent_nil {A} (a b : A) : adjacent a b [] -> False.
Proof. intros (l1 & l2 & Heq). destruct l1; discriminate. Qed.

(** The leaves of the relation. *)
Ltac leaves H :=
  inversion H; subst; clear H;
  repeat match goal with
         | H' : resolves _ _ _ _ _ _ |- _ => inversion H'; subst; clear H'
         | H' : executes _ _ _ _ _ _ |- _ => inversion H'; subst; clear H'
         end.


Ltac fields :=
  unfold percent;
  rewrite ?applied_status, ?applied_progress, ?applied_errorMessage, ?applied_statusMessage;
  cbn.

Ltac booleans :=
  repeat match goal with
         | |- context [if ?b then _ else _] => destruct b
         end.



(** ** Facts about strings *)

Lemma append_assoc (a b c : string) : (a ++ b) ++ c = a ++ (b ++ c).
Proof. induction a as [| x a IH]; cbn; [reflexivity | now rewrite IH]. Qed.

Lemma append_empty (a : string) : a ++ EmptyString = a.
Proof. induction a as [| x a IH]; cbn; [reflexivity | now rewrite IH]. Qed.

Lemma prefix_append (p s : string) : String.prefix p (p ++ s) = true.
Proof.
  induction p as [| x p IH]; cbn.
  - now destruct s.
  - destruct (Ascii.ascii_dec x x); [exact IH | contradiction].
Qed.

Lemma includes_unfold (s p : string) :
  Js.includes s p
  = if String.prefix p s then true
    else match s with
         | EmptyString => false
         | String _ s' => Js.includes s' p
         end.
Proof. destruct s; reflexivity. Qed.

Lemma includes_append (a p b : string) : Js.includes (a ++ p ++ b) p = true.
Proof.
  induction a as [| x a IH].
  - cbn [append]. rewrite includes_unfold. now rewrite prefix_append.
  - cbn [append]. rewrite includes_unfold.
    destruct (String.prefix p (String x (a ++ p ++ b))); [reflexivity | exact IH].
Qed.

Lemma prefix_split (p s : string) :
  String.prefix p s = true -> exists b, s = p ++ b.
Proof.
  revert s. induction p as [| x p IH]; intros s H.
  - now exists s.
  - destruct s as [| y s]; cbn in H; [discriminate |].
    destruct (Ascii.ascii_dec x y) as [-> |]; [| discriminate].
    destruct (IH s H) as [b ->]. now exists b.
Qed.

Lemma includes_split (s p : string) :
  Js.includes s p = true -> exists a b, s = a ++ p ++ b.
Proof.
  induction s as [| x s IH]; rewrite includes_unfold.
  - destruct (String.prefix p EmptyString) eqn:E; [| discriminate].
    intros _. apply prefix_split in E as [b E]. now exists EmptyString, b.
  - destruct (String.prefix p (String x s)) eqn:E.
    + intros _. apply prefix_split in E as [b E]. now exists EmptyString, b.
    + intros H. destruct (IH H) as (a & b & ->). now exists (String x a), b.
Qed.

Lemma includes_inside (a x b p : string) :
  Js.includes x p = true -> Js.includes (a ++ x ++ b) p = true.
Proof.
  intros H. apply includes_split in H as (a' & b' & ->).
  rewrite !append_assoc. rewrite <- (append_assoc a a').
  apply includes_append.
Qed.

Lemma join_split (sep x : string) (l : list string) :
  In x l -> exists a b, Js.join sep l = a ++ x ++ b.
Proof.
  unfold Js.join. induction l as [| y l IH]; intros Hin; [contradiction |].
  destruct Hin as [-> | Hin].
  - destruct l as [| z l]; cbn [String.concat].
    + exists EmptyString, EmptyString. cbn. now rewrite append_empty.
    + exists EmptyString, (sep ++ String.concat sep (z :: l)). reflexivity.
  - destruct (IH Hin) as (a & b & E).
    destruct l as [| z l]; [contradiction |].
    cbn [String.concat] in *. rewrite E.
    exists (y ++ sep ++ a), b. now rewrite !append_assoc.
Qed.

Lemma join_includes (sep x p : string) (l : list string) :
  In x l -> Js.includes x p = true -> Js.includes (Js.join sep l) p = true.
Proof.
  intros Hin Hx. destruct (join_split sep x l Hin) as (a & b & ->).
  now apply includes_inside.
Qed.

(** ** The executor *)

Lemma primary_throws_an_error w xmlPath xslPath out e :
  Executor.primary w xmlPath xslPath out = Some e -> exists message, e = JsError message.
Proof.
  unfold Executor.primary.
  destruct (negb (Saxon.isValid (Saxon.validateXmlWellFormedness w xmlPath))).
  - intros H. inversion H. eauto.
  - destruct (negb (Saxon.success (Saxon.transform w xmlPath xslPath out))).
    + intros H. inversion H. eauto.
    + discriminate.
Qed.

Ltac members H :=
  repeat (destruct H as [<- | H]); try contradiction.

(** C4. When the executor runs and both engines fail, the job ends 'failed'
    and the error it records is the message of the error thrown by the
    primary attempt; what the fallback threw does not enter the record. *)
Theorem primary_error_is_reported :
  forall (w : World) (id : string) (xmlFile xslFile : File.t)
         (options : Controller.Options) (s : MemStorage.t) (job : Transformation.t)
         (error fallbackError : thrown),
    queued id job s ->
    (exists t,
        In t (Controller.observed
                (Controller.processTransformation w id xmlFile xslFile options
                                                  (Controller.begin s job)))
        /\ Transformation.progress t = Some "60") ->
    Executor.primary w (File.path xmlFile) (File.path xslFile) (Controller.outputPath w)
    = Some error ->
    Executor.fallback w s (File.path xmlFile) (File.path xslFile) (Controller.outputPath w)
    = Some fallbackError ->
    exists l t message,
      Controller.observed
        (Controller.processTransformation w id xmlFile xslFile options (Controller.begin s job))
      = (l ++ [t])%list
      /\ MemStorage.getTransformation id
           (Controller.store
              (Controller.processTransformation w id xmlFile xslFile options
                                                (Controller.begin s job)))
         = Some t
      /\ Transformation.status t = "failed"
      /\ error = JsError message
      /\ Transformation.errorMessage t = Some message.
Proof.
  intros w id xmlFile xslFile options s job error fallbackError Hq (t60 & Hin & H60)
         Hprimary Hfallback.
  assert (Hexec : executor w xmlFile xslFile s = Some error).
  { unfold executor, Executor.processXsltTransformation. now rewrite Hprimary, Hfallback. }
  destruct (primary_throws_an_error _ _ _ _ _ Hprimary) as [message ->].
  destruct (processTransformation_refines w id xmlFile xslFile options s job Hq)
    as (us & ended & Hruns & (Hobs & _ & Hget & _) & _).
  rewrite Hobs in *. rewrite Hget. clear Hobs Hget.
  destruct Hq as (_ & Hst & Hpr & _ & Herr & _).
  leaves Hruns; cbn [states final] in *;
    first
      [ congruence
      | exfalso; members Hin; revert H60; fields; rewrite ?Hpr; booleans; discriminate
      | match goal with
        | H : executor _ _ _ _ = Some ?e |- _ =>
            rewrite Hexec in H; inversion H; subst e
        end;
        match goal with
        | |- exists l t m, ?L = _ /\ Some ?F = _ /\ _ =>
            exists (removelast L), F, message
        end;
        repeat split; fields; reflexivity ].
Qed.

(** ** Missing dependencies *)

Lemma missing_error_includes pool paths p :
  In p (missingPaths pool paths) ->
  Js.includes (Js.join "; " (missingErrors pool paths)) p = true.
Proof.
  intros Hin. apply (join_includes _ ("Missing dependency: " ++ p)).
  - unfold missingErrors. now apply (in_map (fun q => "Missing dependency: " ++ q)).
  - rewrite <- (append_empty p) at 1. apply includes_append.
Qed.

(** C5, as the code has it.  When dependency resolution is requested, the
    job reaches the dependency stage, the stylesheet can be read and at
    least one of its directives names a path that no stored file answers to,
    the job ends 'failed' at the progress of the dependency checkpoint, and
    its error message is the list of 'Missing dependency: <path>' for every
    such path, in the order of the text, joined by '; ': every missing path
    occurs in it. *)
Theorem missing_dependencies_fail_the_job :
  forall (w : World) (id : string) (xmlFile xslFile : File.t)
         (options : Controller.Options) (s : MemStorage.t) (job : Transformation.t)
         (xslContent : string),
    queued id job s ->
    Controller.resolveDeps options = true ->
    (exists t,
        In t (Controller.observed
                (Controller.processTransformation w id xmlFile xslFile options
                                                  (Controller.begin s job)))
        /\ Transformation.statusMessage t = Some "Resolving XSL dependencies and imports...") ->
    readFile w (File.path xslFile) = inl xslContent ->
    missingPaths (MemStorage.getAllFiles s) (Resolver.directives xslContent) <> [] ->
    exists l t,
      Controller.observed
        (Controller.processTransformation w id xmlFile xslFile options (Controller.begin s job))
      = (l ++ [t])%list
      /\ MemStorage.getTransformation id
           (Controller.store
              (Controller.processTransformation w id xmlFile xslFile options
                                                (Controller.begin s job)))
         = Some t
      /\ Transformation.status t = "failed"
      /\ Transformation.progress t
         = Some (if Controller.validateWithXsd options then "35" else "30")
      /\ Transformation.errorMessage t
         = Some (Js.join "; "
                   (map (fun p => "Missing dependency: " ++ p)
                        (missingPaths (MemStorage.getAllFiles s)
                                      (Resolver.directives xslContent))))
      /\ forall p,
          In p (missingPaths (MemStorage.getAllFiles s) (Resolver.directives xslContent)) ->
          exists text, Transformation.errorMessage t = Some text
                       /\ Js.includes text p = true.
Proof.
  intros w id xmlFile xslFile options s job xslContent Hq Hdeps (tr & Hin & Hmsg)
         Hread Hmissing.
  assert (Herrors : dependencyErrors w xslFile s
                    = missingErrors (MemStorage.getAllFiles s) (Resolver.directives xslContent)).
  { unfold dependencyErrors. now apply resolveDependencies_errors. }
  assert (Hsome : dependencyErrors w xslFile s <> []).
  { rewrite Herrors. unfold missingErrors. intros H. apply map_eq_nil in H. contradiction. }
  destruct (processTransformation_refines w id xmlFile xslFile options s job Hq)
    as (us & ended & Hruns & (Hobs & _ & Hget & _) & _).
  rewrite Hobs in *. rewrite Hget. clear Hobs Hget.
  destruct Hq as (_ & Hst & Hpr & Hsm & Herr & Hnone).
  leaves Hruns; cbn [states final] in *;
    first
      [ congruence
      | exfalso; members Hin; revert Hmsg; fields; rewrite ?Hsm; booleans; discriminate
      | match goal with
        | |- exists l t, ?L = _ /\ Some ?F = _ /\ _ => exists (removelast L), F
        end;
        rewrite Herrors; fold (missingErrors (MemStorage.getAllFiles s)
                                             (Resolver.directives xslContent));
        repeat split; fields; try reflexivity;
        intros p Hp; eexists; split; [reflexivity | now apply missing_error_includes] ].
Qed.

(** ** Primary and fallback successes *)

Lemma update_files w id u r :
  MemStorage.files (Controller.store (Controller.update w id u r))
  = MemStorage.files (Controller.store r).
Proof.
  unfold Controller.update, MemStorage.updateTransformation.
  now destruct (JsMap.get id (MemStorage.transformations (Controller.store r))).
Qed.

Lemma execute_agrees w getResource compile transform id xmlFile xslFile options s r :
  executor (with_saxon w getResource compile transform) xmlFile xslFile s
  = executor w xmlFile xslFile s ->
  MemStorage.files (Controller.store r) = MemStorage.files s ->
  Controller.execute (with_saxon w getResource compile transform) id xmlFile xslFile options r
  = Controller.execute w id xmlFile xslFile options r.
Proof.
  intros Hsame Hfiles. unfold Controller.execute.
  rewrite (executor_pool (with_saxon w getResource compile transform) _ s)
    by (now rewrite !update_files).
  rewrite (executor_pool w _ s) by (now rewrite !update_files).
  fold (executor (with_saxon w getResource compile transform) xmlFile xslFile s).
  fold (executor w xmlFile xslFile s).
  rewrite Hsame. reflexivity.
Qed.

Lemma resolve_agrees w getResource compile transform id xmlFile xslFile options s r :
  executor (with_saxon w getResource compile transform) xmlFile xslFile s
  = executor w xmlFile xslFile s ->
  MemStorage.files (Controller.store r) = MemStorage.files s ->
  Controller.resolve (with_saxon w getResource compile transform) id xmlFile xslFile options r
  = Controller.resolve w id xmlFile xslFile options r.
Proof.
  intros Hsame Hfiles. unfold Controller.resolve.
  destruct (Controller.resolveDeps options); [| now apply (execute_agrees _ _ _ _ _ _ _ _ s)].
  change (Controller.update (with_saxon w getResource compile transform))
    with (Controller.update w).
  change (Resolver.resolveDependencies (with_saxon w getResource compile transform))
    with (Resolver.resolveDependencies w).
  pose proof (resolveDependencies_frame w (File.id xslFile) (File.path xslFile)
                (Controller.store
                   (Controller.update w id
                      (Controller.checkpoint
                         (if Controller.validateWithXsd options then "35" else "30")
                         "Resolving XSL dependencies and imports...") r))) as [Hf _].
  destruct (Resolver.resolveDependencies w (File.id xslFile) (File.path xslFile) _)
    as [errors s1].
  destruct errors; [| reflexivity].
  apply (execute_agrees _ _ _ _ _ _ _ _ s); [exact Hsame |].
  cbn [Controller.with_store Controller.store snd] in *.
  now rewrite Hf, update_files.
Qed.

Lemma processTransformation_agrees w getResource compile transform id xmlFile xslFile
      options s r :
  executor (with_saxon w getResource compile transform) xmlFile xslFile s
  = executor w xmlFile xslFile s ->
  MemStorage.files (Controller.store r) = MemStorage.files s ->
  Controller.processTransformation (with_saxon w getResource compile transform)
                                   id xmlFile xslFile options r
  = Controller.processTransformation w id xmlFile xslFile options r.
Proof.
  intros Hsame Hfiles. unfold Controller.processTransformation.
  change (Controller.update (with_saxon w getResource compile transform))
    with (Controller.update w).
  change (validateXmlAgainstXsd (with_saxon w getResource compile transform))
    with (validateXmlAgainstXsd w).
  destruct (Controller.validateWithXsd options);
    [| apply (resolve_agrees _ _ _ _ _ _ _ _ s); [exact Hsame | now rewrite update_files]].
  destruct (Controller.xsdFile options) as [xsd |];
    [| apply (resolve_agrees _ _ _ _ _ _ _ _ s); [exact Hsame | now rewrite update_files]].
  destruct (validateXmlAgainstXsd w (File.path xmlFile) (File.path xsd)) as [ms result |];
    [| reflexivity].
  destruct (negb (isValid result)); [reflexivity |].
  apply (resolve_agrees _ _ _ _ _ _ _ _ s); [exact Hsame | now rewrite !update_files].
Qed.

(** C3, as the code has it.  A run in which the primary engine fails and the
    fallback engine succeeds leaves the same states of the job and the same
    registry as the run in which the primary engine succeeds, all other
    answers of the world being the same: the job is recorded 'completed' at
    progress '100' with the same message and metrics, and no field of the
    record tells the two apart. *)
Theorem fallback_success_is_recorded_as_primary_success :
  forall (w : World) (getResource : string -> option thrown)
         (compile : string -> string + thrown)
         (transform : string -> string -> string + thrown)
         (id : string) (xmlFile xslFile : File.t) (options : Controller.Options)
         (r : Controller.Run) (error : thrown),
    Executor.primary w (File.path xmlFile) (File.path xslFile) (Controller.outputPath w)
    = None ->
    Executor.primary (with_saxon w getResource compile transform)
                     (File.path xmlFile) (File.path xslFile) (Controller.outputPath w)
    = Some error ->
    Executor.fallback (with_saxon w getResource compile transform) (Controller.store r)
                      (File.path xmlFile) (File.path xslFile) (Controller.outputPath w)
    = None ->
    Controller.processTransformation (with_saxon w getResource compile transform)
                                     id xmlFile xslFile options r
    = Controller.processTransformation w id xmlFile xslFile options r.
Proof.
  intros w getResource compile transform id xmlFile xslFile options r error
         Hprimary Hfails Hfallback.
  apply (processTransformation_agrees w getResource compile transform id xmlFile xslFile
                                      options (Controller.store r)); [| reflexivity].
  unfold executor, Executor.processXsltTransformation.
  change (Controller.outputPath (with_saxon w getResource compile transform))
    with (Controller.outputPath w).
  now rewrite Hprimary, Hfails, Hfallback.
Qed.

(** ** The content preprocessor *)






(** ** Uploads *)



Lemma uploadAll_app w before : forall after l l1,
  Upload.uploadAll w before l = (l1, None) ->
  Upload.uploadAll w (before ++ after) l = Upload.uploadAll w after l1.
Proof.
  induction before as [| f rest IH]; intros after l l1 H; cbn in *.
  - now inversion H.
  - destruct (Upload.uploadOne w f l) as [l2 | e]; [now apply IH | discriminate].
Qed.


(** The deferred validation of an upload gives up when the timer fires
    first: the file becomes 'invalid' with the message of the timeout. *)
Lemma upload_validation_times_out w now t s file :
  MemStorage.getFile (File.id (Upload.savedFile t)) s = Some file ->
  (Upload.check w t = Never
   \/ exists ms result, Upload.check w t = Settles ms result
                        /\ (Upload.validationTimeout <= ms)%N) ->
  exists file',
    MemStorage.getFile (File.id (Upload.savedFile t)) (Upload.validate w now t s) = Some file'
    /\ File.validationStatus file' = Some "invalid"
    /\ File.validationError file' = Some "Validation timeout after 10 seconds"
    /\ File.validatedAt file' = Some now.
Proof.
  intros Hget Hslow.
  assert (Hto : Upload.validationWithTimeout w t = Upload.timedOut).
  { unfold Upload.validationWithTimeout.
    destruct Hslow as [-> | (ms & result & -> & Hms)]; [reflexivity |].
    apply N.ltb_ge in Hms. now rewrite Hms. }
  unfold Upload.validate, MemStorage.updateFileValidation, MemStorage.getFile in *.
  rewrite Hto, Hget. cbn [snd MemStorage.files MemStorage.with_files].
  rewrite get_set_same. eexists. repeat split.
Qed.

(** * The claims on concrete inputs *)

Lemma example_job_is_queued : queued "job" Examples.job Examples.registry.
Proof. repeat split. Qed.



Lemma terminal_state_is_final_witness :
  queued "job" Examples.job Examples.registry
  /\ Controller.observed (Examples.run Examples.healthy false false)
     = (removelast (Controller.observed (Examples.run Examples.healthy false false))
        ++ [last (Controller.observed (Examples.run Examples.healthy false false))
                 Examples.job])%list
  /\ terminal (last (Controller.observed (Examples.run Examples.healthy false false))
                    Examples.job)
  /\ Transformation.completedAt
       (last (Controller.observed (Examples.run Examples.healthy false false)) Examples.job)
     = Some (clock Examples.healthy 4)
  /\ MemStorage.getTransformation "job"
       (Controller.store (Examples.run Examples.healthy false false))
     = Some (last (Controller.observed (Examples.run Examples.healthy false false))
                  Examples.job).
Proof.
  assert (Hsplit : Controller.observed (Examples.run Examples.healthy false false)
                   = (removelast (Controller.observed (Examples.run Examples.healthy false false))
                      ++ [last (Controller.observed (Examples.run Examples.healthy false false))
                               Examples.job])%list)
    by (vm_compute; reflexivity).
  assert (Hterminal : terminal (last (Controller.observed
                                        (Examples.run Examples.healthy false false))
                                     Examples.job))
    by (left; vm_compute; reflexivity).
  split; [exact example_job_is_queued |]. split; [exact Hsplit |].
  split; [exact Hterminal |].
  destruct (terminal_state_is_final Examples.healthy "job" Examples.xmlFile Examples.xslFile
              (Examples.options false false) Examples.registry Examples.job
              example_job_is_queued _ _ _ Hsplit Hterminal) as (_ & _ & _ & Hat & Hget).
  split; [exact Hat | exact Hget].
Defined.

(** C3, as it is stated, fails: the run in which SaxonJS throws and
    xslt-processor answers leaves the very states and registry of the run in
    which SaxonJS answers. *)
Lemma degraded_success_has_no_marker :
  Executor.primary Examples.degraded (File.path Examples.xmlFile) (File.path Examples.xslFile)
                   (Controller.outputPath Examples.degraded)
  = Some (JsError "Saxon transformation failed: XTDE0044: no source input")
  /\ Executor.fallback Examples.degraded Examples.registry (File.path Examples.xmlFile)
                       (File.path Examples.xslFile) (Controller.outputPath Examples.degraded)
     = None
  /\ Executor.primary Examples.healthy (File.path Examples.xmlFile) (File.path Examples.xslFile)
                      (Controller.outputPath Examples.healthy)
     = None
  /\ Examples.run Examples.degraded false false = Examples.run Examples.healthy false false
  /\ option_map Transformation.status
                (MemStorage.getTransformation "job"
                   (Controller.store (Examples.run Examples.degraded false false)))
     = Some "completed".
Proof. vm_compute. repeat split. Qed.

Lemma fallback_success_is_recorded_as_primary_success_witness :
  Executor.primary Examples.healthy (File.path Examples.xmlFile) (File.path Examples.xslFile)
                   (Controller.outputPath Examples.healthy)
  = None
  /\ Executor.primary
       (with_saxon Examples.healthy (saxonGetResource Examples.healthy)
                   (saxonCompile Examples.healthy)
                   (fun _ _ => inr (JsError "XTDE0044: no source input")))
       (File.path Examples.xmlFile) (File.path Examples.xslFile)
       (Controller.outputPath Examples.healthy)
     = Some (JsError "Saxon transformation failed: XTDE0044: no source input")
  /\ Executor.fallback
       (with_saxon Examples.healthy (saxonGetResource Examples.healthy)
                   (saxonCompile Examples.healthy)
                   (fun _ _ => inr (JsError "XTDE0044: no source input")))
       (Controller.store (Controller.begin Examples.registry Examples.job))
       (File.path Examples.xmlFile) (File.path Examples.xslFile)
       (Controller.outputPath Examples.healthy)
     = None
  /\ Controller.processTransformation
       (with_saxon Examples.healthy (saxonGetResource Examples.healthy)
                   (saxonCompile Examples.healthy)
                   (fun _ _ => inr (JsError "XTDE0044: no source input")))
       "job" Examples.xmlFile Examples.xslFile (Examples.options false false)
       (Controller.begin Examples.registry Examples.job)
     = Controller.processTransformation Examples.healthy "job" Examples.xmlFile
         Examples.xslFile (Examples.options false false)
         (Controller.begin Examples.registry Examples.job).
Proof.
  assert (H1 : Executor.primary Examples.healthy (File.path Examples.xmlFile)
                                (File.path Examples.xslFile)
                                (Controller.outputPath Examples.healthy) = None)
    by (vm_compute; reflexivity).
  assert (H2 : Executor.primary
                 (with_saxon Examples.healthy (saxonGetResource Examples.healthy)
                             (saxonCompile Examples.healthy)
                             (fun _ _ => inr (JsError "XTDE0044: no source input")))
                 (File.path Examples.xmlFile) (File.path Examples.xslFile)
                 (Controller.outputPath Examples.healthy)
               = Some (JsError "Saxon transformation failed: XTDE0044: no source input"))
    by (vm_compute; reflexivity).
  assert (H3 : Executor.fallback
                 (with_saxon Examples.healthy (saxonGetResource Examples.healthy)
                             (saxonCompile Examples.healthy)
                             (fun _ _ => inr (JsError "XTDE0044: no source input")))
                 (Controller.store (Controller.begin Examples.registry Examples.job))
                 (File.path Examples.xmlFile) (File.path Examples.xslFile)
                 (Controller.outputPath Examples.healthy) = None)
    by (vm_compute; reflexivity).
  split; [exact H1 |]. split; [exact H2 |]. split; [exact H3 |].
  exact (fallback_success_is_recorded_as_primary_success Examples.healthy _ _ _ "job"
           Examples.xmlFile Examples.xslFile (Examples.options false false)
           (Controller.begin Examples.registry Examples.job) _ H1 H2 H3).
Defined.

Lemma primary_error_is_reported_witness :
  queued "job" Examples.job Examples.registry
  /\ (exists t,
         In t (Controller.observed (Examples.run Examples.broken false false))
         /\ Transformation.progress t = Some "60")
  /\ Executor.primary Examples.broken (File.path Examples.xmlFile) (File.path Examples.xslFile)
                      (Controller.outputPath Examples.broken)
     = Some (JsError "Saxon transformation failed: XTDE0044: no source input")
  /\ Executor.fallback Examples.broken Examples.registry (File.path Examples.xmlFile)
                       (File.path Examples.xslFile) (Controller.outputPath Examples.broken)
     = Some (JsError "nodeSetValue is not supported")
  /\ exists l t message,
      Controller.observed (Examples.run Examples.broken false false) = (l ++ [t])%list
      /\ MemStorage.getTransformation "job"
           (Controller.store (Examples.run Examples.broken false false)) = Some t
      /\ Transformation.status t = "failed"
      /\ JsError "Saxon transformation failed: XTDE0044: no source input" = JsError message
      /\ Transformation.errorMessage t = Some message.
Proof.
  assert (H60 : exists t,
             In t (Controller.observed (Examples.run Examples.broken false false))
             /\ Transformation.progress t = Some "60").
  { exists (nth 3 (Controller.observed (Examples.run Examples.broken false false))
                Examples.job).
    vm_compute. split; [| reflexivity]. do 3 right. left. reflexivity. }
  assert (H1 : Executor.primary Examples.broken (File.path Examples.xmlFile)
                                (File.path Examples.xslFile)
                                (Controller.outputPath Examples.broken)
               = Some (JsError "Saxon transformation failed: XTDE0044: no source input"))
    by (vm_compute; reflexivity).
  assert (H2 : Executor.fallback Examples.broken Examples.registry
                                 (File.path Examples.xmlFile) (File.path Examples.xslFile)
                                 (Controller.outputPath Examples.broken)
               = Some (JsError "nodeSetValue is not supported"))
    by (vm_compute; reflexivity).
  split; [exact example_job_is_queued |]. split; [exact H60 |].
  split; [exact H1 |]. split; [exact H2 |].
  exact (primary_error_is_reported Examples.broken "job" Examples.xmlFile Examples.xslFile
           (Examples.options false false) Examples.registry Examples.job _ _
           example_job_is_queued H60 H1 H2).
Defined.

(** C5, as it is stated, fails: with schema validation requested and not
    passed, the job fails before the dependency stage, and its error message
    does not name the missing path. *)
Lemma schema_failure_hides_missing_dependency :
  Controller.resolveDeps (Examples.options true true) = true
  /\ Resolver.directives Examples.withMissing = ["Missing.xsl"]
  /\ unresolved (MemStorage.getAllFiles Examples.registry) "Missing.xsl" = true
  /\ exists t text,
      MemStorage.getTransformation "job"
        (Controller.store
           (Examples.run (Examples.world Examples.withMissing Examples.notCompliant
                                         (inl Examples.html) (inl Examples.html))
                         true true))
      = Some t
      /\ Transformation.status t = "failed"
      /\ Transformation.errorMessage t = Some text
      /\ Js.includes text "Missing.xsl" = false.
Proof.
  split; [reflexivity |]. split; [vm_compute; reflexivity |].
  split; [vm_compute; reflexivity |].
  eexists. eexists. vm_compute. repeat split.
Qed.

Lemma missing_dependencies_fail_the_job_witness :
  queued "job" Examples.job Examples.registry
  /\ Controller.resolveDeps (Examples.options true false) = true
  /\ (exists t,
         In t (Controller.observed
                 (Examples.run (Examples.world Examples.withMissing Examples.compliant
                                               (inl Examples.html) (inl Examples.html))
                               true false))
         /\ Transformation.statusMessage t = Some "Resolving XSL dependencies and imports...")
  /\ readFile (Examples.world Examples.withMissing Examples.compliant
                              (inl Examples.html) (inl Examples.html))
              (File.path Examples.xslFile)
     = inl Examples.withMissing
  /\ missingPaths (MemStorage.getAllFiles Examples.registry)
                  (Resolver.directives Examples.withMissing) <> []
  /\ exists l t,
      Controller.observed
        (Examples.run (Examples.world Examples.withMissing Examples.compliant
                                      (inl Examples.html) (inl Examples.html))
                      true false)
      = (l ++ [t])%list
      /\ MemStorage.getTransformation "job"
           (Controller.store
              (Examples.run (Examples.world Examples.withMissing Examples.compliant
                                            (inl Examples.html) (inl Examples.html))
                            true false))
         = Some t
      /\ Transformation.status t = "failed"
      /\ Transformation.progress t = Some "30"
      /\ Transformation.errorMessage t = Some "Missing dependency: Missing.xsl"
      /\ exists text, Transformation.errorMessage t = Some text
                      /\ Js.includes text "Missing.xsl" = true.
Proof.
  assert (Hstage : exists t,
             In t (Controller.observed
                     (Examples.run (Examples.world Examples.withMissing Examples.compliant
                                                   (inl Examples.html) (inl Examples.html))
                                   true false))
             /\ Transformation.statusMessage t
                = Some "Resolving XSL dependencies and imports...").
  { exists (nth 2 (Controller.observed
                     (Examples.run (Examples.world Examples.withMissing Examples.compliant
                                                   (inl Examples.html) (inl Examples.html))
                                   true false)) Examples.job).
    vm_compute. split; [| reflexivity]. do 2 right. left. reflexivity. }
  assert (Hread : readFile (Examples.world Examples.withMissing Examples.compliant
                                           (inl Examples.html) (inl Examples.html))
                           (File.path Examples.xslFile)
                  = inl Examples.withMissing)
    by (vm_compute; reflexivity).
  assert (Hmissing : missingPaths (MemStorage.getAllFiles Examples.registry)
                                  (Resolver.directives Examples.withMissing) <> [])
    by (vm_compute; discriminate).
  split; [exact example_job_is_queued |]. split; [reflexivity |].
  split; [exact Hstage |]. split; [exact Hread |]. split; [exact Hmissing |].
  destruct (missing_dependencies_fail_the_job
              (Examples.world Examples.withMissing Examples.compliant
                              (inl Examples.html) (inl Examples.html))
              "job" Examples.xmlFile Examples.xslFile (Examples.options true false)
              Examples.registry Examples.job Examples.withMissing
              example_job_is_queued eq_refl Hstage Hread Hmissing)
    as (l & t & Hobs & Hget & Hstatus & Hprogress & Herror & Hall).
  exists l, t. repeat split; try assumption.
  apply Hall. vm_compute. left. reflexivity.
Defined.


(** C7 on a failing input: the stylesheet includes [W2CMStyle.xsl] and the
    pool holds [W2Style.xsl].  The test of [resolveXslIncludes] finds the
    file, while [resolveDependencies] records the directive as 'missing' and
    the job fails at the dependency stage. *)
Theorem fuzzy_match_is_not_recorded :
  Resolver.directives Examples.withW2 = ["W2CMStyle.xsl"]
  /\ Js.find (Resolver.includeMatches "W2CMStyle.xsl")
             (MemStorage.getAllFiles Examples.w2Registry)
     = Some Examples.w2Style
  /\ map (fun d => (Dependency.dependencyPath d, Dependency.status d,
                    Dependency.resolvedFileId d))
         (JsMap.values
            (MemStorage.dependencies
               (snd (Resolver.resolveDependencies
                       (Examples.world Examples.withW2 Examples.compliant
                                       (inl Examples.html) (inl Examples.html))
                       "f2" (File.path Examples.xslFile) Examples.w2Registry))))
     = [("W2CMStyle.xsl", "missing", None)]
  /\ map (fun t => (Transformation.status t, Transformation.errorMessage t))
         (MemStorage.getAllTransformations
            (Controller.store
               (Controller.processTransformation
                  (Examples.world Examples.withW2 Examples.compliant
                                  (inl Examples.html) (inl Examples.html))
                  "job" Examples.xmlFile Examples.xslFile (Examples.options true false)
                  (Controller.begin Examples.w2Registry Examples.job))))
     = [("failed", Some "Missing dependency: W2CMStyle.xsl")].
Proof. vm_compute. repeat split. Qed.



(** C9 on a failing input: a schema check that never settles.  The job
    stays 'processing' at progress '15', the task never ends, and no file of
    the registry is marked 'invalid'. *)
Theorem schema_check_has_no_timeout :
  Controller.returned
    (Examples.run (Examples.world Examples.plain Never (inl Examples.html) (inl Examples.html))
                  false true)
  = false
  /\ map (fun t => (Transformation.status t, Transformation.progress t))
         (Controller.observed
            (Examples.run (Examples.world Examples.plain Never (inl Examples.html)
                                          (inl Examples.html))
                          false true))
     = [("queued", Some "0"); ("processing", Some "10"); ("processing", Some "15")]
  /\ MemStorage.files
       (Controller.store
          (Examples.run (Examples.world Examples.plain Never (inl Examples.html)
                                        (inl Examples.html))
                        false true))
     = MemStorage.files Examples.registry.
Proof. vm_compute. repeat split. Qed.


(** * Further properties *)

(** ** More facts about [Map] *)

Lemma get_none_keys {V} (k : string) (m : JsMap.t V) :
  JsMap.get k m = None <-> ~ In k (JsMap.keys m).
Proof.
  induction m as [| [k' v'] m IH]; cbn; [tauto |].
  destruct (String.eqb_spec k k') as [-> | Hne].
  - split; [discriminate | intros H; exfalso; apply H; now left].
  - rewrite IH. split; [intros H [Heq | Hin]; [congruence | auto] | tauto].
Qed.

Lemma keys_set_present {V} (k : string) (v v0 : V) (m : JsMap.t V) :
  JsMap.get k m = Some v0 -> JsMap.keys (JsMap.set k v m) = JsMap.keys m.
Proof.
  induction m as [| [k' v'] m IH]; cbn; [discriminate |].
  destruct (String.eqb_spec k k') as [-> | Hne]; cbn; [reflexivity |].
  intros H. f_equal. now apply IH.
Qed.

Lemma keys_set {V} (k : string) (v : V) (m : JsMap.t V) :
  JsMap.keys (JsMap.set k v m)
  = if JsMap.has k m then JsMap.keys m else (JsMap.keys m ++ [k])%list.
Proof.
  unfold JsMap.has. destruct (JsMap.get k m) as [v0 |] eqn:E.
  - now apply keys_set_present with v0.
  - rewrite (set_fresh _ _ _ E). unfold JsMap.keys. now rewrite map_app.
Qed.

Lemma in_set {V} (k : string) (v : V) (m : JsMap.t V) (e : string * V) :
  In e (JsMap.set k v m) -> e = (k, v) \/ In e m.
Proof.
  induction m as [| [k' v'] m IH]; cbn.
  - intros [<- | []]. now left.
  - destruct (String.eqb k k'); cbn; intros [<- | H]; auto.
    destruct (IH H); auto.
Qed.

Lemma in_delete {V} (k : string) (m : JsMap.t V) (e : string * V) :
  In e (JsMap.delete k m) -> In e m.
Proof.
  induction m as [| [k' v'] m IH]; cbn; [tauto |].
  destruct (String.eqb k k'); cbn; [auto |]. intros [<- | H]; auto.
Qed.

Lemma get_delete_other {V} (k k' : string) (m : JsMap.t V) :
  k <> k' -> JsMap.get k (JsMap.delete k' m) = JsMap.get k m.
Proof.
  intros Hne. induction m as [| [k0 v0] m IH]; cbn; [reflexivity |].
  destruct (String.eqb_spec k' k0) as [-> | Hk]; cbn.
  - destruct (String.eqb_spec k k0); [contradiction | reflexivity].
  - now rewrite IH.
Qed.

Lemma get_delete_same {V} (k : string) (m : JsMap.t V) :
  NoDup (JsMap.keys m) -> JsMap.get k (JsMap.delete k m) = None.
Proof.
  induction m as [| [k0 v0] m IH]; cbn; [reflexivity |].
  intros Hnd. apply NoDup_cons_iff in Hnd as [Hnotin Hnd].
  destruct (String.eqb_spec k k0) as [-> | Hk]; cbn.
  - now apply get_none_keys.
  - destruct (String.eqb_spec k k0); [contradiction | now apply IH].
Qed.

Lemma delete_absent {V} (k : string) (m : JsMap.t V) :
  JsMap.get k m = None -> JsMap.delete k m = m.
Proof.
  induction m as [| [k0 v0] m IH]; cbn; [reflexivity |].
  destruct (String.eqb k k0); [discriminate |].
  intros H. now rewrite IH.
Qed.

Lemma keys_delete {V} (k : string) (m : JsMap.t V) :
  NoDup (JsMap.keys m) -> NoDup (JsMap.keys (JsMap.delete k m)).
Proof.
  induction m as [| [k0 v0] m IH]; cbn; [auto |].
  intros Hnd. apply NoDup_cons_iff in Hnd as [Hnotin Hnd].
  destruct (String.eqb k k0); cbn; [assumption |].
  constructor; [| now apply IH].
  intros Hin. apply Hnotin. apply in_map_iff in Hin as ([k1 v1] & <- & Hin).
  apply in_delete in Hin. now apply (in_map fst) in Hin.
Qed.


(** ** The registry keeps every record under its id *)

Lemma keyed_empty {V} (id : V -> string) : keyed id JsMap.empty.
Proof. split; constructor. Qed.

Lemma keyed_set {V} (id : V -> string) (k : string) (v : V) (m : JsMap.t V) :
  keyed id m -> id v = k -> keyed id (JsMap.set k v m).
Proof.
  intros [Hnd Hall] Hid. split.
  - rewrite keys_set. unfold JsMap.has.
    destruct (JsMap.get k m) eqn:E; [assumption |].
    apply get_none_keys in E.
    clear Hall. induction (JsMap.keys m) as [| k0 ks IH]; cbn.
    + constructor; [tauto | constructor].
    + apply NoDup_cons_iff in Hnd as [Hnotin Hnd]. constructor.
      * rewrite in_app_iff. intros [H | [<- | []]]; [contradiction |].
        apply E. now left.
      * apply IH; [assumption |]. intros H. apply E. now right.
  - apply Forall_forall. intros e He. apply in_set in He as [-> | He]; [exact Hid |].
    rewrite Forall_forall in Hall. now apply Hall.
Qed.

Lemma keyed_delete {V} (id : V -> string) (k : string) (m : JsMap.t V) :
  keyed id m -> keyed id (JsMap.delete k m).
Proof.
  intros [Hnd Hall]. split; [now apply keys_delete |].
  apply Forall_forall. intros e He. apply in_delete in He.
  rewrite Forall_forall in Hall. now apply Hall.
Qed.

Lemma keyed_get {V} (id : V -> string) (k : string) (v : V) (m : JsMap.t V) :
  keyed id m -> JsMap.get k m = Some v -> id v = k.
Proof.
  intros [_ Hall]. induction m as [| [k0 v0] m IH]; cbn; [discriminate |].
  apply Forall_cons_iff in Hall as [H0 Hall].
  destruct (String.eqb_spec k k0) as [-> | Hk].
  - intros H. injection H as <-. exact H0.
  - now apply IH.
Qed.


Lemma reachable_keyed s :
  reachable s ->
  keyed File.id (MemStorage.files s)
  /\ keyed Transformation.id (MemStorage.transformations s)
  /\ keyed Dependency.id (MemStorage.dependencies s).
Proof.
  induction 1 as [| id now ins s _ (Hf & Ht & Hd) | id s _ (Hf & Ht & Hd)
                  | id status error now s _ (Hf & Ht & Hd)
                  | id now ins s _ (Hf & Ht & Hd)
                  | id updates now s _ (Hf & Ht & Hd)
                  | id ins s _ (Hf & Ht & Hd)
                  | id updates s _ (Hf & Ht & Hd)].
  - split; [| split]; apply keyed_empty.
  - cbn. split; [now apply keyed_set | now split].
  - cbn. split; [now apply keyed_delete | now split].
  - unfold MemStorage.updateFileValidation.
    destruct (JsMap.get id (MemStorage.files s)) as [file |] eqn:E; cbn; [| now split].
    split; [| now split]. apply keyed_set; [assumption |]. cbn.
    now apply (keyed_get File.id id file (MemStorage.files s)).
  - cbn. split; [assumption |]. split; [| assumption]. now apply keyed_set.
  - unfold MemStorage.updateTransformation.
    destruct (JsMap.get id (MemStorage.transformations s)) as [tr |] eqn:E; cbn;
      [| now split].
    split; [assumption |]. split; [| assumption]. apply keyed_set; [assumption |].
    destruct (MemStorage.terminal_update updates); cbn;
      now apply (keyed_get Transformation.id id tr (MemStorage.transformations s)).
  - cbn. split; [assumption |]. split; [assumption |]. now apply keyed_set.
  - unfold MemStorage.updateDependency.
    destruct (JsMap.get id (MemStorage.dependencies s)) as [dep |] eqn:E; cbn;
      [| now split].
    split; [assumption |]. split; [assumption |]. apply keyed_set; [assumption |]. cbn.
    now apply (keyed_get Dependency.id id dep (MemStorage.dependencies s)).
Qed.


(** X2. [createFile] stores the file it returns under the id it drew, as
    'pending' and with the fields of the insert; the file can be fetched at
    once, and no other file, job or dependency is touched. *)
Theorem createFile_then_getFile :
  forall (id : string) (now : Date) (ins : InsertFile.t) (s : MemStorage.t),
    let file := fst (MemStorage.createFile id now ins s) in
    let s' := snd (MemStorage.createFile id now ins s) in
    MemStorage.getFile id s' = Some file
    /\ File.id file = id
    /\ File.originalName file = InsertFile.originalName ins
    /\ File.path file = InsertFile.path ins
    /\ File.validationStatus file = Some "pending"
    /\ File.validationError file = None
    /\ File.validatedAt file = None
    /\ (forall id', id' <> id -> MemStorage.getFile id' s' = MemStorage.getFile id' s)
    /\ MemStorage.transformations s' = MemStorage.transformations s
    /\ MemStorage.dependencies s' = MemStorage.dependencies s.
Proof.
  intros id now ins s. cbn. unfold MemStorage.getFile. cbn.
  rewrite get_set_same. repeat split.
  intros id' Hne. now apply get_set_other.
Qed.



(** ** The routes on stored files *)

(** X4. [DELETE /api/files/:id] answers 404 and changes nothing when the id
    is not in the registry; otherwise it answers with the message of success,
    the id fetches no file any more, and the other files, the jobs (also the
    jobs that were run on the file) and the dependencies are as before. *)
Theorem delete_route_removes_only_the_file :
  forall (id : string) (s : MemStorage.t),
    reachable s ->
    let reply := fst (Routes.deleteFile id s) in
    let s' := snd (Routes.deleteFile id s) in
    (MemStorage.getFile id s = None ->
     reply = Routes.Status 404 "File not found" /\ s' = s)
    /\ (MemStorage.getFile id s <> None -> reply = Routes.Sent "File deleted successfully")
    /\ MemStorage.getFile id s' = None
    /\ (forall id', id' <> id -> MemStorage.getFile id' s' = MemStorage.getFile id' s)
    /\ MemStorage.transformations s' = MemStorage.transformations s
    /\ MemStorage.dependencies s' = MemStorage.dependencies s.
Proof.
  intros id s Hreach. destruct (reachable_keyed s Hreach) as ([Hnd _] & _).
  unfold Routes.deleteFile.
  destruct (MemStorage.getFile id s) as [file |] eqn:E; cbn.
  - split; [discriminate |]. split; [reflexivity |].
    unfold MemStorage.getFile. cbn.
    split; [now apply get_delete_same |].
    split; [intros id' Hne; now apply get_delete_other | now split].
  - split; [now split |]. split; [congruence |]. split; [exact E | now repeat split].
Qed.

Lemma delete_route_removes_only_the_file_witness :
  reachable Cases.uploaded
  /\ (MemStorage.getFile "u0" Cases.uploaded = None ->
      fst (Routes.deleteFile "u0" Cases.uploaded) = Routes.Status 404 "File not found"
      /\ snd (Routes.deleteFile "u0" Cases.uploaded) = Cases.uploaded)
  /\ (MemStorage.getFile "u0" Cases.uploaded <> None ->
      fst (Routes.deleteFile "u0" Cases.uploaded) = Routes.Sent "File deleted successfully")
  /\ MemStorage.getFile "u0" (snd (Routes.deleteFile "u0" Cases.uploaded)) = None
  /\ (forall id', id' <> "u0" ->
                  MemStorage.getFile id' (snd (Routes.deleteFile "u0" Cases.uploaded))
                  = MemStorage.getFile id' Cases.uploaded)
  /\ MemStorage.transformations (snd (Routes.deleteFile "u0" Cases.uploaded))
     = MemStorage.transformations Cases.uploaded
  /\ MemStorage.dependencies (snd (Routes.deleteFile "u0" Cases.uploaded))
     = MemStorage.dependencies Cases.uploaded.
Proof.
  split; [apply reach_createFile, reach_create |].
  apply (delete_route_removes_only_the_file "u0" Cases.uploaded).
  apply reach_createFile, reach_create.
Defined.

(** ** More facts about uploads *)

Lemma find_none_names (name : string) (l : list File.t) :
  Js.find (Upload.sameName name) l = None -> ~ In name (map File.originalName l).
Proof.
  induction l as [| f l IH]; cbn; [tauto |].
  unfold Upload.sameName at 1.
  destruct (String.eqb_spec (File.originalName f) name) as [Heq | Hne]; [discriminate |].
  intros H [Heq | Hin]; [contradiction | now apply IH].
Qed.

Lemma in_values_set {V} (k : string) (v x : V) (m : JsMap.t V) :
  In x (JsMap.values (JsMap.set k v m)) -> x = v \/ In x (JsMap.values m).
Proof.
  unfold JsMap.values. intros H. apply in_map_iff in H as (e & <- & He).
  apply in_set in He as [-> | He]; [now left | right; now apply in_map].
Qed.

Lemma names_set (k : string) (v : File.t) (m : JsMap.t File.t) :
  ~ In (File.originalName v) (map File.originalName (JsMap.values m)) ->
  NoDup (map File.originalName (JsMap.values m)) ->
  NoDup (map File.originalName (JsMap.values (JsMap.set k v m))).
Proof.
  induction m as [| [k0 v0] m IH]; cbn; intros Hnew Hnd.
  - constructor; [tauto | constructor].
  - apply NoDup_cons_iff in Hnd as [Hnotin Hnd].
    destruct (String.eqb k k0); cbn.
    + constructor; [tauto | assumption].
    + constructor; [| apply IH; tauto].
      intros Hin. apply in_map_iff in Hin as (x & Hx & Hin).
      apply in_values_set in Hin as [-> | Hin].
      * apply Hnew. left. congruence.
      * apply Hnotin. rewrite <- Hx. now apply in_map.
Qed.

Lemma uploadOne_names w f l l' :
  Upload.uploadOne w f l = inl l' ->
  NoDup (storedNames (Upload.store l)) -> NoDup (storedNames (Upload.store l')).
Proof.
  unfold Upload.uploadOne.
  destruct (Js.find (Upload.sameName (Upload.originalname f))
                    (MemStorage.getAllFiles (Upload.store l))) as [existing |] eqn:Efind.
  - intros H. now injection H as <-.
  - destruct (rename w _ _); [discriminate |].
    cbn. intros H. injection H as <-. cbn. intros Hnd.
    unfold storedNames, MemStorage.getAllFiles. cbn.
    apply names_set; [| exact Hnd].
    cbn. now apply find_none_names.
Qed.

Lemma uploadAll_names w files : forall l,
  NoDup (storedNames (Upload.store l)) ->
  NoDup (storedNames (Upload.store (fst (Upload.uploadAll w files l)))).
Proof.
  induction files as [| f rest IH]; intros l Hnd; cbn; [assumption |].
  destruct (Upload.uploadOne w f l) as [l' | e] eqn:E; cbn; [| assumption].
  apply IH. now apply (uploadOne_names w f l l').
Qed.

Lemma upload_store w files s :
  snd (fst (Upload.upload w (Some files) s))
  = Upload.store (fst (Upload.uploadAll w files (Upload.start s))).
Proof.
  unfold Upload.upload.
  now destruct (Upload.uploadAll w files (Upload.start s)) as [l [e |]].
Qed.

(** X5. [POST /api/upload] keeps the names of the stored files distinct: when
    no two stored files have the same [originalName] before a request, none
    have after it, whatever the request holds (a name that is stored, the
    same name twice) and also when the request ends with the reply 500. *)
Theorem upload_keeps_names_distinct :
  forall (w : World) (files : option (list Upload.MulterFile)) (s : MemStorage.t),
    NoDup (storedNames s) ->
    NoDup (storedNames (snd (fst (Upload.upload w files s)))).
Proof.
  intros w [files |] s Hnd; [| exact Hnd].
  rewrite upload_store. now apply uploadAll_names.
Qed.

Lemma upload_keeps_names_distinct_witness :
  NoDup (storedNames Examples.pool)
  /\ NoDup (storedNames
              (snd (fst (Upload.upload Examples.healthy
                           (Some [Examples.upload "a.xml"; Examples.upload "order.xml";
                                  Examples.upload "a.xml"])
                           Examples.pool)))).
Proof.
  assert (H : NoDup (storedNames Examples.pool)).
  { vm_compute. repeat constructor; cbn; intuition discriminate. }
  split; [exact H |].
  exact (upload_keeps_names_distinct Examples.healthy _ Examples.pool H).
Defined.

Lemma uploadOne_counts w f l l' :
  Upload.uploadOne w f l = inl l' ->
  List.length (Upload.uploadedFiles l') + List.length (Upload.skippedFiles l')
  = S (List.length (Upload.uploadedFiles l) + List.length (Upload.skippedFiles l))
  /\ (map Upload.savedFile (Upload.scheduled l) = Upload.uploadedFiles l ->
      map Upload.savedFile (Upload.scheduled l') = Upload.uploadedFiles l')
  /\ (Forall (fun x => File.validationStatus x = Some "pending") (Upload.uploadedFiles l) ->
      Forall (fun x => File.validationStatus x = Some "pending") (Upload.uploadedFiles l')).
Proof.
  unfold Upload.uploadOne.
  destruct (Js.find _ _) as [existing |].
  - intros H. injection H as <-. cbn. rewrite length_app. cbn. split; [lia | tauto].
  - destruct (rename w _ _); [discriminate |].
    cbn. intros H. injection H as <-. cbn. rewrite length_app. cbn.
    split; [lia |]. split.
    + intros Hs. rewrite map_app, Hs. reflexivity.
    + intros Hp. apply Forall_app. split; [assumption |]. now constructor.
Qed.

Lemma uploadAll_counts w files : forall l l',
  Upload.uploadAll w files l = (l', None) ->
  List.length (Upload.uploadedFiles l') + List.length (Upload.skippedFiles l')
  = List.length files + (List.length (Upload.uploadedFiles l)
                         + List.length (Upload.skippedFiles l))
  /\ (map Upload.savedFile (Upload.scheduled l) = Upload.uploadedFiles l ->
      map Upload.savedFile (Upload.scheduled l') = Upload.uploadedFiles l')
  /\ (Forall (fun x => File.validationStatus x = Some "pending") (Upload.uploadedFiles l) ->
      Forall (fun x => File.validationStatus x = Some "pending") (Upload.uploadedFiles l')).
Proof.
  induction files as [| f rest IH]; intros l l'; cbn.
  - intros H. injection H as <-. split; [lia | tauto].
  - destruct (Upload.uploadOne w f l) as [l1 | e] eqn:E; [| discriminate].
    intros H. destruct (uploadOne_counts w f l l1 E) as (Hc & Hs & Hp).
    destruct (IH l1 l' H) as (Hc' & Hs' & Hp').
    split; [lia |]. split; auto.
Qed.

(** X6. When [POST /api/upload] answers with its JSON body, every file of
    the request was either stored or skipped: the two lists of the body have
    together as many entries as the request.  Every stored file is handed
    back as 'pending', and one validation is deferred for each of them, in
    the same order. *)
Theorem upload_accounts_for_every_file :
  forall (w : World) (files : list Upload.MulterFile) (s s' : MemStorage.t)
         (body : Upload.Body) (tasks : list Upload.Task),
    Upload.upload w (Some files) s = (Upload.Ok body, s', tasks) ->
    List.length (Upload.files body) + List.length (Upload.skipped body) = List.length files
    /\ map Upload.savedFile tasks = Upload.files body
    /\ Forall (fun f => File.validationStatus f = Some "pending") (Upload.files body).
Proof.
  intros w files s s' body tasks. unfold Upload.upload.
  destruct (Upload.uploadAll w files (Upload.start s)) as [l [e |]] eqn:E; [discriminate |].
  intros H. injection H as <- <- <-. cbn.
  destruct (uploadAll_counts w files _ _ E) as (Hc & Hs & Hp). cbn in Hc, Hs, Hp.
  split; [lia |]. split; [now apply Hs | apply Hp; constructor].
Qed.

Lemma upload_accounts_for_every_file_witness :
  exists body s' tasks,
    Upload.upload Examples.healthy
      (Some [Examples.upload "a.xml"; Examples.upload "order.xml"]) Examples.pool
    = (Upload.Ok body, s', tasks)
    /\ List.length (Upload.files body) + List.length (Upload.skipped body) = 2
    /\ map Upload.savedFile tasks = Upload.files body
    /\ Forall (fun f => File.validationStatus f = Some "pending") (Upload.files body).
Proof.
  eexists _, _, _. split; [vm_compute; reflexivity |].
  eapply (upload_accounts_for_every_file Examples.healthy
            [Examples.upload "a.xml"; Examples.upload "order.xml"] Examples.pool).
  vm_compute. reflexivity.
Defined.

(** X7. When [fs.rename] throws for a file whose name is new,
    [POST /api/upload] answers 500 with the message of the error, and what the
    turns before it did stays: their files are in the registry and their
    validations are deferred, although the reply lists none of them. *)
Theorem failed_upload_keeps_the_earlier_files :
  forall (w : World) (before after : list Upload.MulterFile) (f : Upload.MulterFile)
         (s : MemStorage.t) (l : Upload.Loop) (e : thrown),
    Upload.uploadAll w before (Upload.start s) = (l, None) ->
    Js.find (Upload.sameName (Upload.originalname f))
            (MemStorage.getAllFiles (Upload.store l)) = None ->
    rename w (Upload.path f)
           ("uploads/" ++ pathUuid w (Upload.turn l) ++ "_" ++ Upload.originalname f)
    = Some e ->
    Upload.upload w (Some (before ++ f :: after)%list) s
    = (Upload.ServerError (message_or e "Upload failed"), Upload.store l, Upload.scheduled l)
    /\ forall x, In x (Upload.uploadedFiles l) ->
                 In x (map Upload.savedFile (Upload.scheduled l)).
Proof.
  intros w before after f s l e Hbefore Hnew Hrename.
  split.
  - unfold Upload.upload.
    rewrite (uploadAll_app w before (f :: after) _ l Hbefore).
    cbn [Upload.uploadAll]. unfold Upload.uploadOne. now rewrite Hnew, Hrename.
  - destruct (uploadAll_counts w before _ _ Hbefore) as (_ & Hs & _).
    intros x Hx. now rewrite Hs.
Qed.

Lemma failed_upload_keeps_the_earlier_files_witness :
  Upload.uploadAll Cases.locked [Examples.upload "a.xml"] (Upload.start Examples.pool)
  = (fst (Upload.uploadAll Cases.locked [Examples.upload "a.xml"] (Upload.start Examples.pool)),
     None)
  /\ Upload.upload Cases.locked (Some [Examples.upload "a.xml"; Examples.upload "b.xml"])
                   Examples.pool
     = (Upload.ServerError "EXDEV: cross-device link not permitted",
        MemStorage.with_files Examples.pool
          (MemStorage.files Examples.pool
           ++ [("u0", fst (MemStorage.createFile "u0" 50
                             {| InsertFile.filename := "tmp_a.xml";
                                InsertFile.originalName := "a.xml";
                                InsertFile.mimeType := "text/xml";
                                InsertFile.size := "64";
                                InsertFile.path := "uploads/p0_a.xml" |}
                             Examples.pool))])%list,
        Upload.scheduled
          (fst (Upload.uploadAll Cases.locked [Examples.upload "a.xml"]
                                 (Upload.start Examples.pool)))).
Proof.
  split; [vm_compute; reflexivity |].
  refine (proj1 (failed_upload_keeps_the_earlier_files Cases.locked
                   [Examples.upload "a.xml"] [] (Examples.upload "b.xml") Examples.pool
                   (fst (Upload.uploadAll Cases.locked [Examples.upload "a.xml"]
                                          (Upload.start Examples.pool)))
                   (JsError "EXDEV: cross-device link not permitted") _ _ _));
    vm_compute; reflexivity.
Defined.

(** ** More facts about strings *)

Lemma length_append (a b : string) :
  String.length (a ++ b) = String.length a + String.length b.
Proof. induction a as [| x a IH]; cbn; [reflexivity | now rewrite IH]. Qed.

Lemma length_toLowerCase (s : string) : String.length (Js.toLowerCase s) = String.length s.
Proof. induction s as [| x s IH]; cbn; [reflexivity | now rewrite IH]. Qed.

Lemma toLowerCase_append (a b : string) :
  Js.toLowerCase (a ++ b) = Js.toLowerCase a ++ Js.toLowerCase b.
Proof. induction a as [| x a IH]; cbn; [reflexivity | now rewrite IH]. Qed.

Lemma substring_all (s : string) : substring 0 (String.length s) s = s.
Proof. induction s as [| x s IH]; cbn; [reflexivity | now rewrite IH]. Qed.

Lemma substring_skip (a b : string) :
  substring (String.length a) (String.length b) (a ++ b) = b.
Proof. induction a as [| x a IH]; cbn; [apply substring_all | exact IH]. Qed.

Lemma substring_keep (a b : string) : substring 0 (String.length a) (a ++ b) = a.
Proof.
  induction a as [| x a IH]; cbn; [now destruct b | now rewrite IH].
Qed.

(** A text ends with [p] exactly when its last characters, as many as [p]
    has, are [p]. *)
Lemma endsWith_append (a e p : string) :
  String.length e = String.length p -> Js.endsWith (a ++ e) p = String.eqb e p.
Proof.
  intros Hlen. unfold Js.endsWith. rewrite length_append, <- Hlen.
  replace (String.length a + String.length e - String.length e) with (String.length a) by lia.
  rewrite substring_skip.
  destruct (Nat.leb_spec (String.length e) (String.length a + String.length e)); [reflexivity | lia].
Qed.

Lemma dropEnd_append (a e : string) : Text.dropEnd (String.length e) (a ++ e) = a.
Proof.
  unfold Text.dropEnd. rewrite length_append.
  replace (String.length a + String.length e - String.length e) with (String.length a) by lia.
  apply substring_keep.
Qed.

(** ** The filter of the uploads and the choice of the validator *)

Lemma check_listed_mime w t :
  Multer.hasValidMime (Upload.file t) = true ->
  Upload.check w t
  = if String.eqb (Upload.mimetype (Upload.file t)) "text/xsl"
       && negb (Js.endsWith (Upload.originalname (Upload.file t)) ".xml")
    then validateXslFile w (Upload.newPath t)
    else validateXmlFile w (Upload.newPath t).
Proof.
  unfold Multer.hasValidMime, Multer.allowedMimes, Upload.check. cbn [existsb].
  intros H.
  repeat (apply orb_true_iff in H as [H | H]); try discriminate H;
    apply String.eqb_eq in H; rewrite H.
  - reflexivity.
  - reflexivity.
  - change (Js.includes "text/xsl" "xml") with false.
    change (Js.includes "text/xsl" "xsl") with true.
    change (String.eqb "text/xsl" "text/xsl") with true.
    cbn [orb andb]. now destruct (Js.endsWith _ ".xml").
  - reflexivity.
Qed.

(** X8. A file sent with one of the allowed MIME types is checked as plain
    XML, whatever its extension, unless the type is [text/xsl]: a stylesheet
    sent as [text/xml], [application/xml] or [application/xslt+xml] never
    reaches [validateXslFile], and a schema sent with any of the four types
    never reaches [validateXsdFile]. *)
Theorem listed_mime_types_choose_the_validator :
  forall (w : World) (t : Upload.Task),
    Multer.hasValidMime (Upload.file t) = true ->
    Multer.fileFilter (Upload.file t) = None
    /\ (Upload.mimetype (Upload.file t) <> "text/xsl" ->
        Upload.check w t = validateXmlFile w (Upload.newPath t))
    /\ (Upload.mimetype (Upload.file t) = "text/xsl" ->
        Upload.check w t
        = if Js.endsWith (Upload.originalname (Upload.file t)) ".xml"
          then validateXmlFile w (Upload.newPath t)
          else validateXslFile w (Upload.newPath t)).
Proof.
  intros w t H. rewrite (check_listed_mime w t H).
  split; [unfold Multer.fileFilter; now rewrite H |].
  split.
  - intros Hne. apply String.eqb_neq in Hne. now rewrite Hne.
  - intros ->. cbn [String.eqb Ascii.eqb Bool.eqb andb].
    now destruct (Js.endsWith _ ".xml").
Qed.

Lemma listed_mime_types_choose_the_validator_witness :
  Multer.hasValidMime
    (Upload.file {| Upload.savedFile := Examples.xslFile;
                    Upload.file := Examples.upload "order.xsl";
                    Upload.newPath := "uploads/p0_order.xsl" |}) = true
  /\ Upload.check Examples.healthy
       {| Upload.savedFile := Examples.xslFile;
          Upload.file := Examples.upload "order.xsl";
          Upload.newPath := "uploads/p0_order.xsl" |}
     = validateXmlFile Examples.healthy "uploads/p0_order.xsl".
Proof.
  split; [reflexivity |].
  refine (proj1 (proj2 (listed_mime_types_choose_the_validator Examples.healthy
                          {| Upload.savedFile := Examples.xslFile;
                             Upload.file := Examples.upload "order.xsl";
                             Upload.newPath := "uploads/p0_order.xsl" |} _)) _).
  - reflexivity.
  - cbn. discriminate.
Defined.

(** X9. Every file the filter lets through whose name is in lower case is
    handed to one of the three validators: the branch of 'Unsupported file
    type' is not taken. *)
Theorem accepted_lower_case_upload_is_validated :
  forall (w : World) (t : Upload.Task),
    Multer.fileFilter (Upload.file t) = None ->
    Js.toLowerCase (Upload.originalname (Upload.file t)) = Upload.originalname (Upload.file t) ->
    Upload.check w t = validateXmlFile w (Upload.newPath t)
    \/ Upload.check w t = validateXslFile w (Upload.newPath t)
    \/ Upload.check w t = validateXsdFile w (Upload.newPath t).
Proof.
  intros w t Hfilter Hlower. unfold Multer.fileFilter in Hfilter.
  destruct (Multer.hasValidMime (Upload.file t)) eqn:Hmime.
  - rewrite (check_listed_mime w t Hmime). destruct (_ && _); auto.
  - cbn [orb] in Hfilter.
    destruct (Multer.hasValidExtension (Upload.file t)) eqn:Hext; [| discriminate].
    unfold Multer.hasValidExtension, Multer.allowedExtensions in Hext. cbn [existsb] in Hext.
    rewrite Hlower in Hext. unfold Upload.check. rewrite Hlower.
    destruct (Js.includes (Upload.mimetype (Upload.file t)) "xml"); cbn [orb]; [auto |].
    destruct (Js.endsWith (Upload.originalname (Upload.file t)) ".xml"); [auto |].
    destruct (Js.includes (Upload.mimetype (Upload.file t)) "xsl"); cbn [orb]; [auto |].
    destruct (Js.endsWith (Upload.originalname (Upload.file t)) ".xsl"); [auto |].
    cbn [orb] in Hext. rewrite orb_false_r in Hext. rewrite Hext. auto.
Qed.

Lemma accepted_lower_case_upload_is_validated_witness :
  Multer.fileFilter (Cases.octets "order.xsd") = None
  /\ Js.toLowerCase "order.xsd" = "order.xsd"
  /\ (Upload.check Examples.healthy
        {| Upload.savedFile := Examples.xsdFile; Upload.file := Cases.octets "order.xsd";
           Upload.newPath := "uploads/p0_order.xsd" |}
      = validateXmlFile Examples.healthy "uploads/p0_order.xsd"
      \/ Upload.check Examples.healthy
           {| Upload.savedFile := Examples.xsdFile; Upload.file := Cases.octets "order.xsd";
              Upload.newPath := "uploads/p0_order.xsd" |}
         = validateXslFile Examples.healthy "uploads/p0_order.xsd"
      \/ Upload.check Examples.healthy
           {| Upload.savedFile := Examples.xsdFile; Upload.file := Cases.octets "order.xsd";
              Upload.newPath := "uploads/p0_order.xsd" |}
         = validateXsdFile Examples.healthy "uploads/p0_order.xsd").
Proof.
  split; [reflexivity |]. split; [reflexivity |].
  apply (accepted_lower_case_upload_is_validated Examples.healthy
           {| Upload.savedFile := Examples.xsdFile; Upload.file := Cases.octets "order.xsd";
              Upload.newPath := "uploads/p0_order.xsd" |}); reflexivity.
Defined.

(** X10. The filter compares the extension in lower case and the deferred
    task, for [.xml] and [.xsl], as it is written.  A file whose MIME type
    names neither 'xml' nor 'xsl' and whose extension is [.xml] or [.xsl] in
    another case (ORDER.XML, Style.Xsl) is let through by the filter, stored,
    and then marked with 'Unsupported file type'. *)
Theorem upper_case_extension_is_accepted_then_unsupported :
  forall (w : World) (t : Upload.Task) (base ext : string),
    Upload.originalname (Upload.file t) = base ++ ext ->
    Js.toLowerCase ext = ".xml" \/ Js.toLowerCase ext = ".xsl" ->
    ext <> Js.toLowerCase ext ->
    Js.includes (Upload.mimetype (Upload.file t)) "xml" = false ->
    Js.includes (Upload.mimetype (Upload.file t)) "xsl" = false ->
    Multer.fileFilter (Upload.file t) = None
    /\ Upload.check w t
       = Settles 0 {| isValid := false; error := Some "Unsupported file type" |}
    /\ Upload.validationWithTimeout w t
       = {| isValid := false; error := Some "Unsupported file type" |}.
Proof.
  intros w t base ext Hname Hext Hcase Hxml Hxsl.
  assert (Hlen : String.length ext = 4).
  { rewrite <- length_toLowerCase. now destruct Hext as [-> | ->]. }
  assert (Hnot : String.eqb ext ".xml" = false /\ String.eqb ext ".xsl" = false).
  { split; apply String.eqb_neq; intros ->; apply Hcase; reflexivity. }
  destruct Hnot as [Hnx Hns].
  assert (Hcheck : Upload.check w t
                   = Settles 0 {| isValid := false; error := Some "Unsupported file type" |}).
  { unfold Upload.check. rewrite Hxml, Hxsl, Hname, toLowerCase_append.
    rewrite !endsWith_append by (rewrite ?length_toLowerCase; exact Hlen).
    rewrite Hnx, Hns. cbn [orb]. now destruct Hext as [-> | ->]. }
  split; [| split; [exact Hcheck |]].
  - unfold Multer.fileFilter, Multer.hasValidExtension, Multer.allowedExtensions.
    rewrite Hname, toLowerCase_append. cbn [existsb].
    rewrite !endsWith_append by (rewrite ?length_toLowerCase; exact Hlen).
    destruct Hext as [-> | ->]; cbn; now rewrite orb_true_r.
  - unfold Upload.validationWithTimeout. now rewrite Hcheck.
Qed.

Lemma upper_case_extension_is_accepted_then_unsupported_witness :
  Multer.fileFilter (Cases.octets "ORDER.XML") = None
  /\ Upload.check Examples.healthy
       {| Upload.savedFile := Examples.xmlFile; Upload.file := Cases.octets "ORDER.XML";
          Upload.newPath := "uploads/p0_ORDER.XML" |}
     = Settles 0 {| isValid := false; error := Some "Unsupported file type" |}
  /\ Upload.validationWithTimeout Examples.healthy
       {| Upload.savedFile := Examples.xmlFile; Upload.file := Cases.octets "ORDER.XML";
          Upload.newPath := "uploads/p0_ORDER.XML" |}
     = {| isValid := false; error := Some "Unsupported file type" |}.
Proof.
  apply (upper_case_extension_is_accepted_then_unsupported Examples.healthy
           {| Upload.savedFile := Examples.xmlFile; Upload.file := Cases.octets "ORDER.XML";
              Upload.newPath := "uploads/p0_ORDER.XML" |} "ORDER" ".XML").
  - reflexivity.
  - left. reflexivity.
  - discriminate.
  - reflexivity.
  - reflexivity.
Defined.

(** ** The deferred validation *)

(** X11. The deferred validation of an upload writes the verdict on the file
    it was deferred for and on nothing else.  After it the file is 'valid' or
    'invalid', never 'pending'; it is 'valid' exactly when the check settled
    before the 10 seconds of the timer and accepted the file; the error text
    is the one of the verdict, the date is the time of the write, and the
    name and the path of the file are kept.  If the file was deleted in the
    meantime the registry is left as it is. *)
Theorem deferred_validation_records_the_verdict :
  forall (w : World) (now : Date) (t : Upload.Task) (s : MemStorage.t),
    let id := File.id (Upload.savedFile t) in
    let s' := Upload.validate w now t s in
    (forall id', id' <> id -> MemStorage.getFile id' s' = MemStorage.getFile id' s)
    /\ MemStorage.transformations s' = MemStorage.transformations s
    /\ MemStorage.dependencies s' = MemStorage.dependencies s
    /\ match MemStorage.getFile id s with
       | None => s' = s
       | Some file =>
           exists file',
             MemStorage.getFile id s' = Some file'
             /\ File.originalName file' = File.originalName file
             /\ File.path file' = File.path file
             /\ File.validatedAt file' = Some now
             /\ File.validationError file' = or_null (error (Upload.validationWithTimeout w t))
             /\ (File.validationStatus file' = Some "valid"
                 \/ File.validationStatus file' = Some "invalid")
             /\ (File.validationStatus file' = Some "valid" <->
                 exists ms result,
                   Upload.check w t = Settles ms result
                   /\ (ms < Upload.validationTimeout)%N
                   /\ isValid result = true)
       end.
Proof.
  intros w now t s. cbn zeta.
  unfold Upload.validate, MemStorage.updateFileValidation, MemStorage.getFile.
  destruct (JsMap.get (File.id (Upload.savedFile t)) (MemStorage.files s)) as [file |] eqn:E;
    cbn [snd MemStorage.files MemStorage.with_files MemStorage.transformations
         MemStorage.dependencies].
  - split; [intros id' Hne; now apply get_set_other |]. split; [reflexivity |].
    split; [reflexivity |].
    eexists. rewrite get_set_same. split; [reflexivity |].
    cbn [File.originalName File.path File.validatedAt File.validationError
         File.validationStatus].
    do 4 (split; [reflexivity |]).
    unfold Upload.validationWithTimeout.
    destruct (Upload.check w t) as [ms result |] eqn:Echeck.
    + destruct (N.ltb_spec ms Upload.validationTimeout) as [Hlt | Hge].
      * destruct (isValid result) eqn:Ev.
        -- split; [now left |]. split; [intros _; now exists ms, result | reflexivity].
        -- split; [now right |]. split; [discriminate |].
           intros (ms' & result' & Heq & _ & Hv). injection Heq as <- <-. congruence.
      * cbn. split; [now right |]. split; [discriminate |].
        intros (ms' & result' & Heq & Hlt & _). injection Heq as <- <-. lia.
    + cbn. split; [now right |]. split; [discriminate |].
      intros (ms' & result' & Heq & _). discriminate Heq.
  - repeat split.
Qed.

(** ** What the matcher reads *)

Lemma run_rep {R} (greedy : bool) (r : regex) (s : string) (c : caps)
      (k : string -> caps -> option R) :
  run (Rep greedy r) s c k = rep_loop greedy r k (S (String.length s)) s c.
Proof. reflexivity. Qed.

Lemma first_of_some {R} (a b : option R) (x : R) :
  first_of a b = Some x -> a = Some x \/ (a = None /\ b = Some x).
Proof. destruct a; cbn; intros H; [left | right]; auto. Qed.

(** The matcher is sound: what it hands to its continuation, it has read. *)
Lemma run_reads {R} (r : regex) : forall (s : string) (c : caps)
    (k : string -> caps -> option R) (x : R),
  run r s c k = Some x ->
  exists s1 c1, reads r s c s1 c1 /\ k s1 c1 = Some x.
Proof.
  induction r as [| p | r1 IH1 r2 IH2 | r1 IH1 r2 IH2 | greedy r1 IH1 | n r1 IH1];
    intros s c k x H.
  - exists s, c. split; [constructor | exact H].
  - cbn in H. destruct s as [| a s]; [discriminate |].
    destruct (p a) eqn:Ep; [| discriminate].
    exists s, c. split; [now constructor | exact H].
  - cbn in H. apply IH1 in H as (s1 & c1 & H1 & H).
    apply IH2 in H as (s2 & c2 & H2 & H).
    exists s2, c2. split; [econstructor; eassumption | exact H].
  - cbn in H. apply first_of_some in H as [H | [_ H]].
    + apply IH1 in H as (s1 & c1 & H1 & H). exists s1, c1. split; [now apply reads_left | exact H].
    + apply IH2 in H as (s1 & c1 & H1 & H). exists s1, c1. split; [now apply reads_right | exact H].
  - rewrite run_rep in H. remember (S (String.length s)) as fuel eqn:Ef. clear Ef.
    revert s c H.
    induction fuel as [| fuel IHf]; intros s0 c0 H; [discriminate |].
    cbn [rep_loop] in H.
    assert (Hagain :
              run r1 s0 (clear (groups r1) c0)
                  (fun s1 c1 => if (String.length s1 <? String.length s0)%nat
                                then rep_loop greedy r1 k fuel s1 c1 else None) = Some x ->
              exists s1 c1, reads (Rep greedy r1) s0 c0 s1 c1 /\ k s1 c1 = Some x).
    { intros Ha. apply IH1 in Ha as (s1 & c1 & H1 & Ha).
      destruct (Nat.ltb_spec (String.length s1) (String.length s0)) as [Hlt |]; [| discriminate].
      apply IHf in Ha as (s2 & c2 & H2 & Ha).
      exists s2, c2. split; [eapply reads_again; eassumption | exact Ha]. }
    assert (Hdone : k s0 c0 = Some x ->
                    exists s1 c1, reads (Rep greedy r1) s0 c0 s1 c1 /\ k s1 c1 = Some x).
    { intros Hk. exists s0, c0. split; [constructor | exact Hk]. }
    destruct greedy; apply first_of_some in H as [H | [_ H]]; auto.
  - cbn in H. apply IH1 in H as (s1 & c1 & H1 & H).
    exists s1, (set_cap n (Js.consumed s s1) c1). split; [now constructor | exact H].
Qed.

Lemma reads_suffix r s c s1 c1 :
  reads r s c s1 c1 -> exists m, s = m ++ s1.
Proof.
  induction 1 as [s c | p a s c Hp | r1 r2 s c s1 c1 s2 c2 _ [m1 ->] _ [m2 ->]
                  | r1 r2 s c s1 c1 _ IH | r1 r2 s c s1 c1 _ IH | n r s c s1 c1 _ IH
                  | greedy r s c | greedy r s c s1 c1 s2 c2 _ [m1 ->] _ _ [m2 ->]].
  - now exists EmptyString.
  - now exists (String a EmptyString).
  - exists (m1 ++ m2). now rewrite append_assoc.
  - exact IH.
  - exact IH.
  - exact IH.
  - now exists EmptyString.
  - exists (m1 ++ m2). now rewrite append_assoc.
Qed.

(** The captures of the groups a pattern does not hold are left alone. *)
Lemma get_cap_clear n gs c :
  ~ In n gs -> get_cap n (clear gs c) = get_cap n c.
Proof.
  intros Hn. unfold clear. induction c as [| [m v] c IH]; cbn; [reflexivity |].
  destruct (existsb (Nat.eqb m) gs) eqn:E; cbn.
  - destruct (Nat.eqb_spec n m) as [-> | Hne]; [| exact IH].
    exfalso. apply existsb_exists in E as (g & Hg & Heq).
    apply Nat.eqb_eq in Heq. subst g. contradiction.
  - now rewrite IH.
Qed.

Lemma reads_other_groups n r s c s1 c1 :
  reads r s c s1 c1 -> ~ In n (groups r) -> get_cap n c1 = get_cap n c.
Proof.
  induction 1 as [s c | p a s c Hp | r1 r2 s c s1 c1 s2 c2 _ IH1 _ IH2
                  | r1 r2 s c s1 c1 _ IH | r1 r2 s c s1 c1 _ IH | m r s c s1 c1 _ IH
                  | greedy r s c | greedy r s c s1 c1 s2 c2 _ IH1 _ _ IH2];
    cbn [groups]; intros Hn; try reflexivity.
  - rewrite in_app_iff in Hn. rewrite IH2, IH1; tauto.
  - rewrite in_app_iff in Hn. apply IH. tauto.
  - rewrite in_app_iff in Hn. apply IH. tauto.
  - cbn in Hn. cbn. destruct (Nat.eqb_spec n m) as [-> | Hne]; [tauto |]. apply IH. tauto.
  - rewrite IH2, IH1 by assumption. now apply get_cap_clear.
Qed.

Lemma consumed_append (m s : string) : Js.consumed (m ++ s) s = m.
Proof.
  unfold Js.consumed. rewrite length_append.
  replace (String.length m + String.length s - String.length s) with (String.length m) by lia.
  apply substring_keep.
Qed.

Lemma all_in_append p (a b : string) :
  all_in p (a ++ b) = all_in p a && all_in p b.
Proof. induction a as [| x a IH]; cbn; [reflexivity |]. now rewrite IH, andb_assoc. Qed.

(** A repeated class reads characters of the class only. *)
Lemma reads_class_star greedy p s c s1 c1 :
  reads (Rep greedy (Char p)) s c s1 c1 ->
  exists m, s = m ++ s1 /\ all_in p m = true.
Proof.
  intros H. remember (Rep greedy (Char p)) as r eqn:Er.
  induction H as [| | | | | | g r0 s c | g r0 s c s1 c1 s2 c2 H1 _ Hlt H2 IH2];
    try discriminate Er.
  - now exists EmptyString.
  - injection Er as -> ->. destruct (IH2 eq_refl) as (m & -> & Hm).
    inversion H1 as [| p' a s' c' Hp | | | | | |]; subst.
    exists (String a m). split; [reflexivity |]. cbn. now rewrite Hp.
Qed.

Lemma reads_class_plus greedy p s c s1 c1 :
  reads (Cat (Char p) (Rep greedy (Char p))) s c s1 c1 ->
  exists m, s = m ++ s1 /\ all_in p m = true /\ m <> EmptyString.
Proof.
  intros H. inversion H as [| | r1 r2 s0 c0 s2 c2 s3 c3 H1 H2 | | | | |]; subst.
  inversion H1 as [| p' a s' c' Hp | | | | | |]; subst.
  apply reads_class_star in H2 as (m & -> & Hm).
  exists (String a m). split; [reflexivity |]. split; [cbn; now rewrite Hp | discriminate].
Qed.

(** Every match of [exec] and of the [exec] loop is a match at some place of
    the text. *)
Lemma exec_here r : forall s f,
  exec r s = Some f ->
  exists s', match_here r s' = Some (after f, groups_of f)
             /\ matched f = Js.consumed s' (after f).
Proof.
  induction s as [| a s IH]; intros f; cbn [exec].
  - destruct (match_here r EmptyString) as [[rest c] |] eqn:E; [| discriminate].
    intros H. injection H as <-. cbn. now exists EmptyString.
  - destruct (match_here r (String a s)) as [[rest c] |] eqn:E.
    + intros H. injection H as <-. cbn. now exists (String a s).
    + destruct (exec r s) as [f0 |] eqn:E0; [| discriminate].
      intros H. injection H as <-. cbn. now apply IH.
Qed.

Lemma exec_all_here r f : forall fuel s,
  In f (exec_all_aux fuel r s) ->
  exists s', match_here r s' = Some (after f, groups_of f)
             /\ matched f = Js.consumed s' (after f).
Proof.
  induction fuel as [| fuel IH]; intros s; cbn [exec_all_aux]; [intros [] |].
  destruct (exec r s) as [f0 |] eqn:E; [| intros []].
  intros [<- | Hin]; [now apply exec_here with s |].
  destruct (matched f0); destruct (after f0); try contradiction; eapply IH; exact Hin.
Qed.

Lemma match_here_reads r s rest c :
  match_here r s = Some (rest, c) -> reads r s [] rest c.
Proof.
  unfold match_here. intros H. apply run_reads in H as (s1 & c1 & Hreads & Heq).
  now injection Heq as <- <-.
Qed.

Ltac split_reads :=
  repeat match goal with
         | H : reads (Cat _ _) _ _ _ _ |- _ => inversion H; subst; clear H
         end.

Lemma all_in_not (a : ascii) (s : string) (p : ascii -> bool) :
  (forall b, p b = true -> b <> a) ->
  all_in p s = true -> Js.includes s (String a EmptyString) = false.
Proof.
  intros Hp. induction s as [| b s IH]; cbn; [reflexivity |].
  intros H. apply andb_true_iff in H as [Hb Hs].
  destruct (Ascii.ascii_dec a b) as [-> | Hne]; [now apply Hp in Hb |].
  rewrite (IH Hs). now destruct s.
Qed.

(** X12. The path of an include or import directive, as
    [resolveDependencies] reads it from the stylesheet, is never empty and
    holds no quote character: every Dependency record has a path, and a
    'Missing dependency' error names one. *)
Theorem directive_paths_are_not_empty :
  forall (xslContent dependencyPath : string),
    In dependencyPath (Resolver.directives xslContent) ->
    dependencyPath <> EmptyString
    /\ Js.includes dependencyPath Js.dq = false
    /\ Js.includes dependencyPath "'" = false.
Proof.
  intros xslContent p Hin. unfold Resolver.directives in Hin.
  apply in_map_iff in Hin as (f & <- & Hin).
  apply exec_all_here in Hin as (s' & Hmatch & _).
  apply match_here_reads in Hmatch.
  unfold Resolver.includeRegex in Hmatch. cbn [sequence] in Hmatch. split_reads.
  match goal with
  | H : reads (Cap 2 _) _ _ _ _ |- _ => inversion H; subst; clear H
  end.
  repeat match goal with
         | H : reads Empty _ _ _ _ |- _ => inversion H; subst; clear H
         | H : reads quote _ _ _ _ |- _ => inversion H; subst; clear H
         end.
  match goal with
  | H : reads (plus not_quote) _ _ _ _ |- _ =>
      apply reads_class_plus in H as (m & Hs & Hall & Hne)
  end.
  unfold Resolver.group.
  match goal with
  | H : set_cap 2 _ _ = groups_of f |- _ => rewrite <- H
  end.
  cbn [get_cap set_cap Nat.eqb]. rewrite Hs, consumed_append.
  split; [exact Hne |].
  split; (eapply all_in_not; [| exact Hall]); intros b Hb ->; discriminate Hb.
Qed.

Lemma directive_paths_are_not_empty_witness :
  In "Missing.xsl" (Resolver.directives Examples.withMissing)
  /\ "Missing.xsl" <> EmptyString
  /\ Js.includes "Missing.xsl" Js.dq = false
  /\ Js.includes "Missing.xsl" "'" = false.
Proof.
  assert (H : In "Missing.xsl" (Resolver.directives Examples.withMissing)).
  { vm_compute. now left. }
  split; [exact H |].
  exact (directive_paths_are_not_empty Examples.withMissing "Missing.xsl" H).
Defined.

(** ** The name the schema check looks for *)

Lemma clear_nil (c : caps) : clear [] c = c.
Proof.
  unfold clear. induction c as [| e c IH]; cbn; [reflexivity | now f_equal].
Qed.

(** On an ASCII character the class [[^\s...]] reads it or stops. *)
Lemma class_ascii {R} (l : list ascii) (a : ascii) (s : string) (c : caps)
      (k : string -> caps -> option R) :
  Utf8.between 0 127 a = true ->
  run (Utf8.not_space_nor l) (String a s) c k = if Utf8.plain l a then k s c else None.
Proof.
  intros H.
  assert (Hn : nat_of_ascii a <= 127).
  { unfold Utf8.between in H. cbn zeta in H. apply andb_true_iff in H as [_ H].
    now apply Nat.leb_le in H. }
  assert (Hcode : forall n, 128 <= n -> Utf8.code n a = false).
  { intros n Hge. unfold Utf8.code. apply Nat.eqb_neq. lia. }
  assert (Hbetween : forall lo hi, 128 <= lo -> Utf8.between lo hi a = false).
  { intros lo hi Hge. unfold Utf8.between. cbn zeta. apply andb_false_iff. left.
    apply Nat.leb_gt. lia. }
  unfold Utf8.not_space_nor, Utf8.byte. cbn [alt run].
  rewrite !Hcode, !Hbetween by lia. cbn [first_of].
  destruct (Utf8.plain l a); [| reflexivity]. now destruct (k s c).
Qed.

Lemma plain_ascii l a : Utf8.plain l a = true -> Utf8.between 0 127 a = true.
Proof.
  unfold Utf8.plain. intros H. apply andb_true_iff in H as [H _].
  now apply andb_true_iff in H as [H _].
Qed.

(** The greedy repetition of the class reads a word of plain characters up
    to the character that stops it. *)
Lemma rep_reads_token {R} (l : list ascii) (k : string -> caps -> option R)
      (stop : ascii) (rest : string) (c : caps) (x : R) :
  Utf8.between 0 127 stop = true -> Utf8.plain l stop = false ->
  k (String stop rest) c = Some x ->
  forall (tok : string) (fuel : nat),
    all_in (Utf8.plain l) tok = true ->
    String.length tok < fuel ->
    rep_loop true (Utf8.not_space_nor l) k fuel (tok ++ String stop rest) c = Some x.
Proof.
  intros Hascii Hstop Hk.
  induction tok as [| a tok IH]; intros [| fuel] Hall Hfuel; try (cbn in Hfuel; lia).
  - cbn [rep_loop append]. change (groups (Utf8.not_space_nor l)) with (@nil nat).
    rewrite clear_nil, (class_ascii l stop _ _ _ Hascii), Hstop. exact Hk.
  - cbn [rep_loop append]. change (groups (Utf8.not_space_nor l)) with (@nil nat).
    cbn in Hall. apply andb_true_iff in Hall as [Ha Hall].
    rewrite clear_nil, (class_ascii l a _ _ _ (plain_ascii l a Ha)), Ha.
    assert (Hlt : (String.length (tok ++ String stop rest)
                   <? String.length (String a (tok ++ String stop rest)))%nat = true).
    { apply Nat.ltb_lt. cbn. lia. }
    rewrite Hlt, IH; [reflexivity | assumption | cbn in Hfuel; lia].
Qed.

Lemma run_root {R} (P : regex) (s : string) (k : string -> caps -> option R) :
  run (sequence [lit "<"; Cap 1 P]) (String "<" s) [] k
  = run P s [] (fun s1 c1 => k s1 (set_cap 1 (Js.consumed s s1) c1)).
Proof. reflexivity. Qed.

(** The root element of the check is the word that follows the first [<]
    of a text that starts with it. *)
Lemma root_of_token (tok : string) (stop : ascii) (rest : string) :
  tok <> EmptyString ->
  all_in (Utf8.plain [">"%char]) tok = true ->
  Utf8.between 0 127 stop = true -> Utf8.plain [">"%char] stop = false ->
  Validators.xmlRootElement ("<" ++ tok ++ String stop rest) = Some tok.
Proof.
  intros Hne Hall Hascii Hstop.
  destruct tok as [| a tok]; [contradiction |].
  cbn in Hall. apply andb_true_iff in Hall as [Ha Hall].
  assert (Hmatch : match_here Validators.rootRegex ("<" ++ String a tok ++ String stop rest)
                   = Some (String stop rest, [(1, String a tok)])).
  { unfold match_here, Validators.rootRegex. cbn [append].
    rewrite run_root. unfold plus.
    change (run (Cat ?r1 ?r2) ?s ?c ?k) with (run r1 s c (fun s1 c1 => run r2 s1 c1 k)).
    rewrite (class_ascii _ a _ _ _ (plain_ascii _ a Ha)), Ha, run_rep.
    apply rep_reads_token; try assumption.
    - unfold set_cap.
      change (String a (tok ++ String stop rest)) with (String a tok ++ String stop rest).
      now rewrite consumed_append.
    - rewrite length_append. lia. }
  unfold Validators.xmlRootElement.
  cbn [append] in *. cbn [exec]. rewrite Hmatch. reflexivity.
Qed.



(** X14. A document that starts with an XML declaration does not pass
    [validateXmlAgainstXsd]: the word the check takes for the root element
    is [?xml], and unless the schema text holds [element name=] followed by a
    double quote and [?xml], the answer is that the schema does not define
    the root element '?xml'. *)
Theorem declaration_is_taken_for_the_root_element :
  forall (w : World) (xmlParse : string -> option thrown)
         (xmlPath xsdPath rest xsdContent : string) (sp : ascii),
    readFile w xmlPath = inl ("<?xml" ++ String sp rest) ->
    Utf8.asciiSpace sp = true ->
    readFile w xsdPath = inl xsdContent ->
    xmlParse ("<?xml" ++ String sp rest) = None ->
    xmlParse xsdContent = None ->
    Validators.defines xsdContent "?xml" = false ->
    Validators.validateXmlAgainstXsd w xmlParse xmlPath xsdPath
    = {| isValid := false;
         error := Some "XSD does not appear to define the root element '?xml'. Note: This is basic validation - enterprise processors provide comprehensive schema validation." |}.
Proof.
  intros w xmlParse xmlPath xsdPath rest xsdContent sp Hxml Hsp Hxsd Hpx Hps Hdef.
  assert (Hascii : Utf8.between 0 127 sp = true /\ Utf8.plain [">"%char] sp = false).
  { unfold Utf8.plain. rewrite Hsp. cbn [negb andb]. rewrite andb_false_r.
    split; [| reflexivity].
    unfold Utf8.asciiSpace, Utf8.between, Utf8.code in *. cbn zeta in *.
    apply andb_true_iff. split; [reflexivity |]. apply Nat.leb_le.
    apply orb_true_iff in Hsp as [Hsp | Hsp].
    - apply andb_true_iff in Hsp as [_ Hsp]. apply Nat.leb_le in Hsp. lia.
    - apply Nat.eqb_eq in Hsp. lia. }
  destruct Hascii as [Hascii Hstop].
  unfold Validators.validateXmlAgainstXsd.
  rewrite Hxml, Hxsd, Hpx, Hps.
  change ("<?xml" ++ String sp rest) with ("<" ++ "?xml" ++ String sp rest).
  rewrite (root_of_token "?xml" sp rest); try assumption; [| discriminate | reflexivity].
  cbn [or_null].
  change (Validators.elementWithoutNamespace "?xml") with "?xml".
  rewrite Hdef. reflexivity.
Qed.

Lemma declaration_is_taken_for_the_root_element_witness :
  Validators.validateXmlAgainstXsd (Cases.reading Cases.declared Cases.orderSchema)
                                   Cases.lenient "doc.xml" "doc.xsd"
  = {| isValid := false;
       error := Some "XSD does not appear to define the root element '?xml'. Note: This is basic validation - enterprise processors provide comprehensive schema validation." |}.
Proof.
  apply (declaration_is_taken_for_the_root_element
           (Cases.reading Cases.declared Cases.orderSchema) Cases.lenient
           "doc.xml" "doc.xsd" "version='1.0' encoding='UTF-8'?><order id='7'/>"
           Cases.orderSchema " "%char); reflexivity.
Defined.

(** X15. [validateXmlAgainstXsd] always answers with a text in [error], also
    when the document passes: the message of the job, 'XSD Validation
    Failed: ' followed by that text, never shows 'undefined'. *)
Theorem schema_check_always_explains :
  forall (w : World) (xmlParse : string -> option thrown) (xmlPath xsdPath : string),
    exists text,
      error (Validators.validateXmlAgainstXsd w xmlParse xmlPath xsdPath) = Some text
      /\ (isValid (Validators.validateXmlAgainstXsd w xmlParse xmlPath xsdPath) = true ->
          Validators.validateXmlAgainstXsd w xmlParse xmlPath xsdPath = Validators.passed)
      /\ Controller.template
           (error (Validators.validateXmlAgainstXsd w xmlParse xmlPath xsdPath)) = text.
Proof.
  intros w xmlParse xmlPath xsdPath. unfold Validators.validateXmlAgainstXsd.
  destruct (readFile w xmlPath) as [xmlContent | e]; [| eexists; repeat split; discriminate].
  destruct (readFile w xsdPath) as [xsdContent | e]; [| eexists; repeat split; discriminate].
  destruct (xmlParse xmlContent); [eexists; repeat split; discriminate |].
  destruct (xmlParse xsdContent); [eexists; repeat split; discriminate |].
  destruct (or_null (Validators.xmlRootElement xmlContent)) as [name |];
    [| eexists; repeat split].
  destruct (Validators.defines xsdContent name); cbn [negb]; [eexists; repeat split |].
  destruct (Validators.defines xsdContent _); cbn [negb]; eexists; repeat split; discriminate.
Qed.

(** ** The validators of the uploads *)

(** X16. A file that [validateXslFile] or [validateXsdFile] accepts is
    accepted by [validateXmlFile]; and when the read of the file or the
    parser throws an Error, the three validators reject the file with the
    message of that Error. *)
Theorem validators_agree_on_well_formedness :
  forall (w : World) (xmlParse : string -> option thrown) (filePath : string),
    (isValid (Validators.validateXslFile w xmlParse filePath) = true
     \/ isValid (Validators.validateXsdFile w xmlParse filePath) = true ->
     Validators.validateXmlFile w xmlParse filePath = Validators.valid)
    /\ forall message,
        (readFile w filePath = inr (JsError message)
         \/ exists content, readFile w filePath = inl content
                            /\ xmlParse content = Some (JsError message)) ->
        Validators.validateXmlFile w xmlParse filePath = Validators.invalid message
        /\ Validators.validateXslFile w xmlParse filePath = Validators.invalid message
        /\ Validators.validateXsdFile w xmlParse filePath = Validators.invalid message.
Proof.
  intros w xmlParse filePath.
  unfold Validators.validateXmlFile, Validators.validateXslFile, Validators.validateXsdFile.
  split.
  - destruct (readFile w filePath) as [content | e]; [| intros [H | H]; discriminate H].
    destruct (xmlParse content); [intros [H | H]; discriminate H | reflexivity].
  - intros message [-> | (content & -> & ->)]; repeat split.
Qed.

(** ** The result of a job *)

Lemma applied_resultPath u now tr :
  Transformation.resultPath (applied u now tr)
  = MemStorage.override (Transformation.resultPath tr) (Updates.resultPath u).
Proof. unfold applied. now destruct (MemStorage.terminal_update u). Qed.

(** [POST /api/transform] creates a job that is queued, has no result, and
    sits beside the jobs of the registry. *)
Lemma transform_starts_fresh w id now req s run :
  Controller.transform w id now req s = Some run ->
  exists job s1 xmlFile xslFile options,
    queued id job s1
    /\ Transformation.resultPath job = None
    /\ MemStorage.files s1 = MemStorage.files s
    /\ (forall id', id' <> id ->
                    MemStorage.getTransformation id' s1 = MemStorage.getTransformation id' s)
    /\ run = Controller.processTransformation w id xmlFile xslFile options
                                              (Controller.begin s1 job).
Proof.
  unfold Controller.transform. intros H.
  destruct (Controller.truthy (Controller.xmlFileId req)) as [xmlId |]; [| discriminate].
  destruct (Controller.truthy (Controller.xslFileId req)) as [xslId |]; [| discriminate].
  destruct (MemStorage.getFile xmlId s) as [xmlFile |]; [| discriminate].
  destruct (MemStorage.getFile xslId s) as [xslFile |]; [| discriminate].
  assert (Hstart : forall ins options,
             InsertTransformation.status ins = "queued" ->
             InsertTransformation.progress ins = Some "0" ->
             InsertTransformation.statusMessage ins = None ->
             InsertTransformation.errorMessage ins = None ->
             InsertTransformation.resultPath ins = None ->
             Some (let '(transformation, s1) :=
                     MemStorage.createTransformation id now ins s in
                   Controller.processTransformation w (Transformation.id transformation)
                     xmlFile xslFile options (Controller.begin s1 transformation))
             = Some run ->
             exists job s1 xmlFile' xslFile' options',
               queued id job s1
               /\ Transformation.resultPath job = None
               /\ MemStorage.files s1 = MemStorage.files s
               /\ (forall id', id' <> id ->
                               MemStorage.getTransformation id' s1
                               = MemStorage.getTransformation id' s)
               /\ run = Controller.processTransformation w id xmlFile' xslFile' options'
                                                         (Controller.begin s1 job)).
  { intros ins options Hst Hpr Hsm Herr Hrp Hrun.
    exists (fst (MemStorage.createTransformation id now ins s)),
           (snd (MemStorage.createTransformation id now ins s)), xmlFile, xslFile, options.
    split; [| split; [| split; [reflexivity | split; [| now injection Hrun as <-]]]].
    - unfold queued, MemStorage.createTransformation, MemStorage.getTransformation.
      cbn [fst snd MemStorage.transformations MemStorage.with_transformations
           Transformation.status Transformation.progress Transformation.statusMessage
           Transformation.errorMessage Transformation.completedAt].
      rewrite get_set_same, Hst, Hpr, Hsm, Herr. repeat split.
    - cbn. now rewrite Hrp.
    - intros id' Hne. unfold MemStorage.getTransformation. cbn. now apply get_set_other. }
  destruct (Controller.req_validateWithXsd req) eqn:Evx.
  - destruct (Controller.truthy (Controller.xsdFileId req)) as [xsdId |]; [| discriminate].
    destruct (MemStorage.getFile xsdId s) as [xsd |]; [| discriminate].
    eapply Hstart; [| | | | | exact H]; reflexivity.
  - eapply Hstart; [| | | | | exact H]; reflexivity.
Qed.

Ltac result_fields :=
  rewrite ?applied_status, ?applied_resultPath; cbn.

(** X17. Through a run that [POST /api/transform] starts, the job has a
    result path exactly in the state 'completed', and the path is the one of
    the output file.  So [GET /api/transformations/:id/result] answers 404
    for the job that is queued, processing or failed, and reads the output
    file for the job that is completed. *)
Theorem result_is_served_once_completed :
  forall (w : World) (id : string) (now : Date) (req : Controller.Request)
         (s : MemStorage.t) (run : Controller.Run),
    Controller.transform w id now req s = Some run ->
    (forall t, In t (Controller.observed run) ->
               (Transformation.status t = "completed"
                /\ Transformation.resultPath t = Some (Controller.outputPath w))
               \/ (Transformation.status t <> "completed"
                   /\ Transformation.resultPath t = None))
    /\ exists t,
        MemStorage.getTransformation id (Controller.store run) = Some t
        /\ Routes.result w id (Controller.store run)
           = if String.eqb (Transformation.status t) "completed"
             then match readFile w (Controller.outputPath w) with
                  | inl result => Routes.Sent result
                  | inr e => Routes.Status 500 (message_or e "Failed to fetch result")
                  end
             else Routes.Status 404 "Result not found".
Proof.
  intros w id now req s run Hrun.
  apply transform_starts_fresh in Hrun
    as (job & s1 & xmlFile & xslFile & options & Hq & Hrp & _ & _ & ->).
  destruct (processTransformation_refines w id xmlFile xslFile options s1 job Hq)
    as (us & ended & Hruns & (Hobs & _ & Hget & _) & _).
  rewrite Hobs. unfold Routes.result. rewrite Hget. clear Hobs Hget.
  destruct Hq as (_ & Hst & _).
  split.
  - intros t Hin.
    leaves Hruns; cbn [states] in Hin;
      repeat (destruct Hin as [<- | Hin]); try contradiction;
      result_fields; rewrite ?Hst, ?Hrp;
      first [ left; split; reflexivity
            | right; split; [discriminate | reflexivity] ].
  - eexists. split; [reflexivity |].
    leaves Hruns; cbn [final]; result_fields; rewrite ?Hst, ?Hrp; reflexivity.
Qed.

Lemma result_is_served_once_completed_witness :
  Controller.transform Examples.healthy "job" 5 (Cases.request false) Examples.pool
  = Some (Examples.run Examples.healthy false false)
  /\ (forall t, In t (Controller.observed (Examples.run Examples.healthy false false)) ->
                (Transformation.status t = "completed"
                 /\ Transformation.resultPath t = Some (Controller.outputPath Examples.healthy))
                \/ (Transformation.status t <> "completed"
                    /\ Transformation.resultPath t = None))
  /\ exists t,
      MemStorage.getTransformation "job"
        (Controller.store (Examples.run Examples.healthy false false)) = Some t
      /\ Routes.result Examples.healthy "job"
           (Controller.store (Examples.run Examples.healthy false false))
         = if String.eqb (Transformation.status t) "completed"
           then match readFile Examples.healthy (Controller.outputPath Examples.healthy) with
                | inl result => Routes.Sent result
                | inr e => Routes.Status 500 (message_or e "Failed to fetch result")
                end
           else Routes.Status 404 "Result not found".
Proof.
  assert (H : Controller.transform Examples.healthy "job" 5 (Cases.request false) Examples.pool
              = Some (Examples.run Examples.healthy false false))
    by (vm_compute; reflexivity).
  split; [exact H |].
  exact (result_is_served_once_completed Examples.healthy "job" 5 (Cases.request false)
           Examples.pool _ H).
Defined.

(** ** What a run leaves alone *)

Lemma update_others w id u r id' :
  id' <> id ->
  MemStorage.getTransformation id' (Controller.store (Controller.update w id u r))
  = MemStorage.getTransformation id' (Controller.store r).
Proof.
  intros Hne. unfold Controller.update, MemStorage.updateTransformation.
  destruct (JsMap.get id (MemStorage.transformations (Controller.store r))); [| reflexivity].
  unfold MemStorage.getTransformation. cbn. now apply get_set_other.
Qed.

Lemma execute_others w id xmlFile xslFile options r id' :
  id' <> id ->
  MemStorage.getTransformation id'
    (Controller.store (Controller.execute w id xmlFile xslFile options r))
  = MemStorage.getTransformation id' (Controller.store r).
Proof.
  intros Hne. unfold Controller.execute, Controller.failure, Controller.finish. cbn zeta.
  destruct (Executor.processXsltTransformation _ _ _ _ _); cbn [Controller.store];
    [now rewrite !update_others |].
  destruct (stat w (Controller.outputPath w)); cbn [Controller.store];
    now rewrite !update_others.
Qed.

Lemma resolve_others w id xmlFile xslFile options r id' :
  id' <> id ->
  MemStorage.getTransformation id'
    (Controller.store (Controller.resolve w id xmlFile xslFile options r))
  = MemStorage.getTransformation id' (Controller.store r).
Proof.
  intros Hne. unfold Controller.resolve.
  destruct (Controller.resolveDeps options); [| now apply execute_others].
  cbn zeta.
  set (r1 := Controller.update w id _ r).
  pose proof (resolveDependencies_frame w (File.id xslFile) (File.path xslFile)
                                        (Controller.store r1)) as [_ Ht].
  destruct (Resolver.resolveDependencies w (File.id xslFile) (File.path xslFile)
                                          (Controller.store r1)) as [errors s'].
  cbn [snd] in Ht.
  assert (Hs' : MemStorage.getTransformation id' s'
                = MemStorage.getTransformation id' (Controller.store r)).
  { unfold MemStorage.getTransformation. rewrite Ht.
    apply (update_others w id _ r id' Hne). }
  destruct errors as [| err errs].
  - rewrite execute_others by assumption. exact Hs'.
  - unfold Controller.finish. cbn [Controller.store].
    rewrite update_others by assumption. exact Hs'.
Qed.

Lemma processTransformation_others w id xmlFile xslFile options r id' :
  id' <> id ->
  MemStorage.getTransformation id'
    (Controller.store (Controller.processTransformation w id xmlFile xslFile options r))
  = MemStorage.getTransformation id' (Controller.store r).
Proof.
  intros Hne. unfold Controller.processTransformation. cbn zeta.
  assert (Hskip : MemStorage.getTransformation id'
                    (Controller.store
                       (Controller.resolve w id xmlFile xslFile options
                          (Controller.update w id
                             (Controller.processing
                                (if Controller.validateWithXsd options
                                 then "Preparing XSD validation..."
                                 else "Preparing transformation...")) r)))
                  = MemStorage.getTransformation id' (Controller.store r)).
  { rewrite resolve_others by assumption. now apply update_others. }
  destruct (Controller.validateWithXsd options) eqn:Evx; [| exact Hskip].
  destruct (Controller.xsdFile options) as [xsd |]; [| exact Hskip].
  destruct (validateXmlAgainstXsd w (File.path xmlFile) (File.path xsd)) as [ms result |].
  - destruct (isValid result); cbn [negb].
    + rewrite resolve_others by assumption. now rewrite !update_others.
    + unfold Controller.finish. cbn [Controller.store]. now rewrite !update_others.
  - now rewrite !update_others.
Qed.

(** X18. A run that [POST /api/transform] starts writes the job it created
    and no other: every other job of the registry is, after the run, as it
    was before the request, and so is every file. *)
Theorem run_writes_its_own_job_only :
  forall (w : World) (id : string) (now : Date) (req : Controller.Request)
         (s : MemStorage.t) (run : Controller.Run),
    Controller.transform w id now req s = Some run ->
    MemStorage.files (Controller.store run) = MemStorage.files s
    /\ forall id', id' <> id ->
                   MemStorage.getTransformation id' (Controller.store run)
                   = MemStorage.getTransformation id' s.
Proof.
  intros w id now req s run Hrun.
  apply transform_starts_fresh in Hrun
    as (job & s1 & xmlFile & xslFile & options & Hq & _ & Hfiles & Hothers & ->).
  destruct (processTransformation_refines w id xmlFile xslFile options s1 job Hq)
    as (us & ended & _ & (_ & _ & _ & Hf) & _).
  split; [now rewrite Hf |].
  intros id' Hne. rewrite processTransformation_others by assumption.
  now apply Hothers.
Qed.

Lemma run_writes_its_own_job_only_witness :
  exists run,
    Controller.transform Examples.healthy "job2" 9 (Cases.request false) Examples.registry
    = Some run
    /\ MemStorage.files (Controller.store run) = MemStorage.files Examples.registry
    /\ MemStorage.getTransformation "job" (Controller.store run) = Some Examples.job.
Proof.
  destruct (Controller.transform Examples.healthy "job2" 9 (Cases.request false)
                                 Examples.registry) as [run |] eqn:H.
  - exists run. split; [reflexivity |].
    destruct (run_writes_its_own_job_only _ _ _ _ _ _ H) as [Hfiles Hothers].
    split; [exact Hfiles |]. rewrite Hothers by discriminate. reflexivity.
  - vm_compute in H. discriminate H.
Defined.

(** ** The options of a job *)

(** X19. [processTransformation] reads three of the options it is handed:
    [resolveDeps], [validateWithXsd] and [xsdFile].  The flags [validateXml]
    and [generatePreview] of the request change nothing of a run. *)
Theorem validateXml_and_generatePreview_are_not_read :
  forall (w : World) (id : string) (xmlFile xslFile : File.t)
         (options options' : Controller.Options) (r : Controller.Run),
    Controller.resolveDeps options' = Controller.resolveDeps options ->
    Controller.validateWithXsd options' = Controller.validateWithXsd options ->
    Controller.xsdFile options' = Controller.xsdFile options ->
    Controller.processTransformation w id xmlFile xslFile options' r
    = Controller.processTransformation w id xmlFile xslFile options r.
Proof.
  intros w id xmlFile xslFile [v d p x f] [v' d' p' x' f'] r. cbn.
  intros -> -> ->. reflexivity.
Qed.

Lemma validateXml_and_generatePreview_are_not_read_witness :
  Controller.processTransformation Examples.healthy "job" Examples.xmlFile Examples.xslFile
    {| Controller.validateXml := false; Controller.resolveDeps := true;
       Controller.generatePreview := true; Controller.validateWithXsd := false;
       Controller.xsdFile := None |}
    (Controller.begin Examples.registry Examples.job)
  = Examples.run Examples.healthy true false.
Proof.
  apply (validateXml_and_generatePreview_are_not_read Examples.healthy "job" Examples.xmlFile
           Examples.xslFile (Examples.options true false)); reflexivity.
Defined.

(** ** A stylesheet that cannot be read *)

(** X20. When dependency resolution is requested, the job reaches that
    stage and the stylesheet file cannot be read, the job ends 'failed' at
    the progress of the stage with the error 'Error reading XSL file: '
    followed by the message of the thrown error; the executor is not
    started. *)
Theorem unreadable_stylesheet_fails_the_job :
  forall (w : World) (id : string) (xmlFile xslFile : File.t)
         (options : Controller.Options) (s : MemStorage.t) (job : Transformation.t)
         (e : thrown),
    queued id job s ->
    Controller.resolveDeps options = true ->
    (exists t,
        In t (Controller.observed
                (Controller.processTransformation w id xmlFile xslFile options
                                                  (Controller.begin s job)))
        /\ Transformation.statusMessage t = Some "Resolving XSL dependencies and imports...") ->
    readFile w (File.path xslFile) = inr e ->
    exists l t,
      Controller.observed
        (Controller.processTransformation w id xmlFile xslFile options (Controller.begin s job))
      = (l ++ [t])%list
      /\ MemStorage.getTransformation id
           (Controller.store
              (Controller.processTransformation w id xmlFile xslFile options
                                                (Controller.begin s job)))
         = Some t
      /\ Transformation.status t = "failed"
      /\ Transformation.progress t
         = Some (if Controller.validateWithXsd options then "35" else "30")
      /\ Transformation.statusMessage t = Some "Resolving XSL dependencies and imports..."
      /\ Transformation.errorMessage t
         = Some ("Error reading XSL file: " ++ message_or e "Unknown error").
Proof.
  intros w id xmlFile xslFile options s job e Hq Hdeps (tr & Hin & Hmsg) Hread.
  assert (Herrors : dependencyErrors w xslFile s
                    = ["Error reading XSL file: " ++ message_or e "Unknown error"]).
  { unfold dependencyErrors, Resolver.resolveDependencies. now rewrite Hread. }
  destruct (processTransformation_refines w id xmlFile xslFile options s job Hq)
    as (us & ended & Hruns & (Hobs & _ & Hget & _) & _).
  rewrite Hobs in *. rewrite Hget. clear Hobs Hget.
  destruct Hq as (_ & Hst & Hpr & Hsm & Herr & Hnone).
  leaves Hruns; cbn [states final] in *;
    first
      [ congruence
      | exfalso; members Hin; revert Hmsg; fields; rewrite ?Hsm; booleans; discriminate
      | match goal with
        | |- exists l t, ?L = _ /\ Some ?F = _ /\ _ => exists (removelast L), F
        end;
        rewrite Herrors; repeat split; fields; reflexivity ].
Qed.

Lemma unreadable_stylesheet_fails_the_job_witness :
  exists l t,
    Controller.observed (Examples.run Cases.unreadable true false) = (l ++ [t])%list
    /\ MemStorage.getTransformation "job"
         (Controller.store (Examples.run Cases.unreadable true false)) = Some t
    /\ Transformation.status t = "failed"
    /\ Transformation.progress t = Some "30"
    /\ Transformation.statusMessage t = Some "Resolving XSL dependencies and imports..."
    /\ Transformation.errorMessage t
       = Some "Error reading XSL file: EACCES: permission denied, open 'uploads/f2_order.xsl'".
Proof.
  assert (Hstage : exists t,
             In t (Controller.observed (Examples.run Cases.unreadable true false))
             /\ Transformation.statusMessage t
                = Some "Resolving XSL dependencies and imports...").
  { exists (nth 2 (Controller.observed (Examples.run Cases.unreadable true false))
                Examples.job).
    vm_compute. split; [| reflexivity]. do 2 right. left. reflexivity. }
  exact (unreadable_stylesheet_fails_the_job Cases.unreadable "job" Examples.xmlFile
           Examples.xslFile (Examples.options true false) Examples.registry Examples.job
           (JsError "EACCES: permission denied, open 'uploads/f2_order.xsl'")
           example_job_is_queued eq_refl Hstage eq_refl).
Defined.

(** ** The errors of the executor *)

(** X21. The error [processXsltTransformation] rejects with is always the
    error of the primary attempt, and it names the step that failed: its
    message is 'XML validation failed: ' or 'Saxon transformation failed: '
    followed by a text, which for the second is never empty. *)
Theorem executor_error_names_the_failed_step :
  forall (w : World) (s : MemStorage.t) (xmlPath xslPath outputPath : string) (e : thrown),
    Executor.processXsltTransformation w s xmlPath xslPath outputPath = Some e ->
    Executor.primary w xmlPath xslPath outputPath = Some e
    /\ exists detail,
        e = JsError ("XML validation failed: " ++ detail)
        \/ (e = JsError ("Saxon transformation failed: " ++ detail)
            /\ detail <> EmptyString).
Proof.
  intros w s xmlPath xslPath outputPath e. unfold Executor.processXsltTransformation.
  destruct (Executor.primary w xmlPath xslPath outputPath) as [error |] eqn:Ep;
    [| discriminate].
  destruct (Executor.fallback w s xmlPath xslPath outputPath); [| discriminate].
  intros H. injection H as <-. split; [reflexivity |].
  unfold Executor.primary in Ep.
  destruct (negb (Saxon.isValid (Saxon.validateXmlWellFormedness w xmlPath))).
  - injection Ep as <-. eexists. left. reflexivity.
  - destruct (negb (Saxon.success (Saxon.transform w xmlPath xslPath outputPath)));
      [| discriminate].
    injection Ep as <-. eexists. right. split; [reflexivity |].
    destruct (String.eqb_spec (Js.join "; " (Saxon.transformErrors
                                                (Saxon.transform w xmlPath xslPath outputPath)))
                              EmptyString); [discriminate | assumption].
Qed.

Lemma executor_error_names_the_failed_step_witness :
  Executor.processXsltTransformation Examples.broken Examples.registry
    (File.path Examples.xmlFile) (File.path Examples.xslFile)
    (Controller.outputPath Examples.broken)
  = Some (JsError "Saxon transformation failed: XTDE0044: no source input")
  /\ Executor.primary Examples.broken (File.path Examples.xmlFile) (File.path Examples.xslFile)
                      (Controller.outputPath Examples.broken)
     = Some (JsError "Saxon transformation failed: XTDE0044: no source input").
Proof.
  assert (H : Executor.processXsltTransformation Examples.broken Examples.registry
                (File.path Examples.xmlFile) (File.path Examples.xslFile)
                (Controller.outputPath Examples.broken)
              = Some (JsError "Saxon transformation failed: XTDE0044: no source input"))
    by (vm_compute; reflexivity).
  split; [exact H |].
  exact (proj1 (executor_error_names_the_failed_step _ _ _ _ _ _ H)).
Defined.

(** X22. A result of [SaxonProcessor.transform] that reports success stands
    for an output file that was written from a principal result that is not
    empty and whose size was read; a result that reports failure has no
    output and exactly one error. *)
Theorem saxon_result_is_success_or_one_error :
  forall (w : World) (xmlPath xslPath outputPath : string),
    let result := Saxon.transform w xmlPath xslPath outputPath in
    (Saxon.success result = true ->
     exists text size,
       Saxon.output result = Some text
       /\ text <> EmptyString
       /\ writeFile w outputPath text = None
       /\ stat w outputPath = inl size
       /\ Saxon.outputSize result = Some size
       /\ Saxon.transformErrors result = [])
    /\ (Saxon.success result = false ->
        Saxon.output result = None
        /\ Saxon.outputSize result = None
        /\ exists message, Saxon.transformErrors result = [message]).
Proof.
  intros w xmlPath xslPath outputPath. cbn zeta. unfold Saxon.transform.
  assert (Hfailed : forall e,
             (Saxon.success (Saxon.failed e) = true ->
              exists text size,
                Saxon.output (Saxon.failed e) = Some text
                /\ text <> EmptyString
                /\ writeFile w outputPath text = None
                /\ stat w outputPath = inl size
                /\ Saxon.outputSize (Saxon.failed e) = Some size
                /\ Saxon.transformErrors (Saxon.failed e) = [])
             /\ (Saxon.success (Saxon.failed e) = false ->
                 Saxon.output (Saxon.failed e) = None
                 /\ Saxon.outputSize (Saxon.failed e) = None
                 /\ exists message, Saxon.transformErrors (Saxon.failed e) = [message])).
  { intros e. split; [discriminate |]. intros _. cbn. repeat split. now eexists. }
  destruct (saxonCompile w xslPath) as [sefPath | e]; [| apply Hfailed].
  destruct (readFile w xmlPath) as [xmlContent | e]; [| apply Hfailed].
  destruct (saxonTransform w sefPath xmlContent) as [principalResult | e]; [| apply Hfailed].
  destruct (String.eqb_spec principalResult EmptyString) as [Heq | Hne]; [apply Hfailed |].
  destruct (writeFile w outputPath principalResult) as [e |] eqn:Ew; [apply Hfailed |].
  destruct (stat w outputPath) as [size | e] eqn:Es; [| apply Hfailed].
  split; [| discriminate]. intros _. exists principalResult, size. cbn. repeat split; assumption.
Qed.

(** ** The two ways to find the file of a directive *)

Lemma find_weaken {A} (p q : A -> bool) (l : list A) (x : A) :
  (forall y, p y = true -> q y = true) ->
  Js.find p l = Some x -> Js.find q l <> None.
Proof.
  intros Hpq. unfold Js.find. induction l as [| y l IH]; cbn; [discriminate |].
  destruct (p y) eqn:Ep.
  - intros _. now rewrite (Hpq y Ep).
  - intros H. destruct (q y); [discriminate | now apply IH].
Qed.

(** X23. Every file that [resolveDependencies] accepts for a path, by its
    exact name, is accepted by the test of [resolveXslIncludes]: a directive
    that is recorded 'resolved' is never given the comment of a missing file
    by the fallback. *)
Theorem resolved_directive_is_found_by_the_fallback :
  forall (w : World) (files : list File.t) (operation dependencyPath : string),
    unresolved files dependencyPath = false ->
    Js.find (Resolver.includeMatches dependencyPath) files <> None
    /\ exists dependencyFile,
        Js.find (Resolver.includeMatches dependencyPath) files = Some dependencyFile
        /\ Resolver.marker w files operation dependencyPath
           = match readFile w (File.path dependencyFile) with
             | inl _ =>
                 "<!-- " ++ Js.toUpperCase operation ++ ": " ++ dependencyPath
                 ++ " - Manual dependency resolution required -->"
             | inr e =>
                 "<!-- Error resolving " ++ operation ++ ": " ++ dependencyPath ++ " - "
                 ++ message_or e "Unknown error" ++ " -->"
             end.
Proof.
  intros w files operation p Hres. unfold unresolved in Hres.
  destruct (Js.find (Resolver.resolves p) files) as [f |] eqn:Efind; [| discriminate].
  assert (Hfound : Js.find (Resolver.includeMatches p) files <> None).
  { apply (find_weaken (Resolver.resolves p) _ files f); [| exact Efind].
    intros y Hy. unfold Resolver.resolves in Hy. unfold Resolver.includeMatches.
    apply orb_true_iff in Hy as [-> | ->]; cbn; now rewrite ?orb_true_r. }
  split; [exact Hfound |].
  unfold Resolver.marker.
  destruct (Js.find (Resolver.includeMatches p) files) as [g |]; [| contradiction].
  exists g. split; reflexivity.
Qed.

Lemma resolved_directive_is_found_by_the_fallback_witness :
  unresolved (MemStorage.getAllFiles Examples.w2Pool) "W2Style.xsl" = false
  /\ Js.find (Resolver.includeMatches "W2Style.xsl") (MemStorage.getAllFiles Examples.w2Pool)
     <> None.
Proof.
  split; [reflexivity |].
  exact (proj1 (resolved_directive_is_found_by_the_fallback Examples.healthy
                  (MemStorage.getAllFiles Examples.w2Pool) "include" "W2Style.xsl" eq_refl)).
Defined.

(** ** The name suggested for a generated schema *)

(** X24. The file name [POST /api/files/:id/generate-xsd] suggests ends with
    [.xsd]: uploaded under that name the schema is let through by the filter
    of the uploads, whatever its MIME type.  For a name that ends with
    [.xml], [.xsl] or [.xslt], in any case of the letters, the extension is
    replaced; any other name is kept whole. *)
Theorem suggested_schema_name_is_accepted :
  forall originalName : string,
    Js.endsWith (Routes.suggestedFilename originalName) ".xsd" = true
    /\ (forall file, Upload.originalname file = Routes.suggestedFilename originalName ->
                     Multer.fileFilter file = None)
    /\ forall base ext,
        originalName = base ++ ext ->
        In (Js.toLowerCase ext) [".xml"; ".xsl"; ".xslt"] ->
        Routes.suggestedFilename originalName = base ++ ".xsd".
Proof.
  intros originalName. unfold Routes.suggestedFilename.
  split; [now rewrite endsWith_append |]. split.
  - intros file Hname.
    unfold Multer.fileFilter, Multer.hasValidExtension, Multer.allowedExtensions.
    rewrite Hname, toLowerCase_append. cbn [existsb].
    rewrite !endsWith_append by reflexivity. cbn. now rewrite orb_true_r.
  - intros base ext -> Hext. f_equal. unfold Routes.baseName.
    rewrite toLowerCase_append.
    destruct Hext as [Hext | [Hext | [Hext | []]]]; rewrite <- Hext.
    + rewrite !endsWith_append by reflexivity.
      cbn [String.eqb Ascii.eqb Bool.eqb andb orb].
      replace 4 with (String.length ext) by (now rewrite <- length_toLowerCase, <- Hext).
      apply dropEnd_append.
    + rewrite !endsWith_append by reflexivity.
      cbn [String.eqb Ascii.eqb Bool.eqb andb orb].
      replace 4 with (String.length ext) by (now rewrite <- length_toLowerCase, <- Hext).
      apply dropEnd_append.
    + change ".xslt" with ("." ++ "xslt") at 1 2. rewrite <- !append_assoc.
      rewrite !endsWith_append by reflexivity.
      cbn [String.eqb Ascii.eqb Bool.eqb andb orb].
      replace 5 with (String.length ext) by (now rewrite <- length_toLowerCase, <- Hext).
      apply dropEnd_append.
Qed.

(** ** The path of the compiled stylesheet *)





(** ** The records of the dependencies over several runs *)

Lemma filter_all {A} (p : A -> bool) (l : list A) :
  Forall (fun x => p x = true) l -> filter p l = l.
Proof.
  induction 1 as [| x l Hx _ IH]; cbn; [reflexivity |]. now rewrite Hx, IH.
Qed.

Lemma filter_none {A} (p : A -> bool) (l : list A) :
  Forall (fun x => p x = false) l -> filter p l = [].
Proof.
  induction 1 as [| x l Hx _ IH]; cbn; [reflexivity |]. now rewrite Hx, IH.
Qed.

(** X26. [resolveDependencies] only adds records: what
    [getDependenciesByXslFile] lists for the stylesheet after a resolution is
    what it listed before, followed by one record per directive, and what
    it lists for any other stylesheet is unchanged.  A second resolution of
    the same stylesheet therefore lists every directive twice.  The
    identifiers drawn from [randomUUID()] are taken to be new and distinct. *)
Theorem dependency_records_accumulate :
  forall (w : World) (xslFileId xslPath xslContent : string) (s : MemStorage.t),
    readFile w xslPath = inl xslContent ->
    NoDup (map (dependencyUuid w) (seq 0 (List.length (Resolver.directives xslContent)))) ->
    (forall i, i < List.length (Resolver.directives xslContent) ->
               JsMap.get (dependencyUuid w i) (MemStorage.dependencies s) = None) ->
    (exists created,
        MemStorage.getDependenciesByXslFile xslFileId
          (snd (Resolver.resolveDependencies w xslFileId xslPath s))
        = (MemStorage.getDependenciesByXslFile xslFileId s ++ created)%list
        /\ map Dependency.dependencyPath created = Resolver.directives xslContent)
    /\ forall other,
        other <> xslFileId ->
        MemStorage.getDependenciesByXslFile other
          (snd (Resolver.resolveDependencies w xslFileId xslPath s))
        = MemStorage.getDependenciesByXslFile other s.
Proof.
  intros w xslFileId xslPath xslContent s Hread Hnd Hfresh.
  unfold Resolver.resolveDependencies. rewrite Hread.
  rewrite resolveAll_fresh by (auto; intros i Hi; apply Hfresh; lia).
  unfold MemStorage.getDependenciesByXslFile.
  cbn [snd MemStorage.dependencies MemStorage.with_dependencies].
  unfold JsMap.values. rewrite map_app.
  pose proof (outcomes_owner (MemStorage.getAllFiles s) xslFileId (dependencyUuid w)
                             (Resolver.directives xslContent) 0) as Hown.
  split.
  - exists (map snd (outcomes (MemStorage.getAllFiles s) xslFileId (dependencyUuid w) 0
                              (Resolver.directives xslContent))).
    split.
    + rewrite filter_app. f_equal. apply filter_all.
      apply Forall_map. eapply Forall_impl; [| exact Hown].
      cbn. intros e [-> _]. apply String.eqb_refl.
    + rewrite map_map. apply outcomes_paths.
  - intros other Hne. rewrite filter_app.
    rewrite (filter_none _ (map snd (outcomes (MemStorage.getAllFiles s) xslFileId
                                              (dependencyUuid w) 0
                                              (Resolver.directives xslContent))));
      [apply app_nil_r |].
    apply Forall_map. eapply Forall_impl; [| exact Hown].
    cbn. intros e [-> _]. apply String.eqb_neq. congruence.
Qed.

Lemma dependency_records_accumulate_witness :
  exists created,
    MemStorage.getDependenciesByXslFile "f2"
      (snd (Resolver.resolveDependencies
              (Examples.world Examples.withMissing Examples.compliant
                              (inl Examples.html) (inl Examples.html))
              "f2" (File.path Examples.xslFile) Examples.registry))
    = (MemStorage.getDependenciesByXslFile "f2" Examples.registry ++ created)%list
    /\ map Dependency.dependencyPath created = ["Missing.xsl"].
Proof.
  refine (proj1 (dependency_records_accumulate
                   (Examples.world Examples.withMissing Examples.compliant
                                   (inl Examples.html) (inl Examples.html))
                   "f2" (File.path Examples.xslFile) Examples.withMissing Examples.registry
                   _ _ _)).
  - vm_compute. reflexivity.
  - vm_compute. repeat constructor. intros [].
  - intros i Hi. reflexivity.
Defined.

(** ** How a task ends *)



(** ** The validations of a request, in any order *)

Lemma validate_same w now t s :
  forall file',
    MemStorage.getFile (File.id (Upload.savedFile t)) (Upload.validate w now t s) = Some file' ->
    checked file'.
Proof.
  intros file'. unfold Upload.validate, MemStorage.updateFileValidation, MemStorage.getFile.
  destruct (JsMap.get (File.id (Upload.savedFile t)) (MemStorage.files s)) as [file |] eqn:E;
    cbn [snd MemStorage.files MemStorage.with_files].
  - rewrite get_set_same. intros H. injection H as <-. unfold checked. cbn.
    destruct (isValid (Upload.validationWithTimeout w t)); auto.
  - rewrite E. discriminate.
Qed.

Lemma validate_other w now t s id :
  id <> File.id (Upload.savedFile t) ->
  MemStorage.getFile id (Upload.validate w now t s) = MemStorage.getFile id s.
Proof.
  intros Hne. unfold Upload.validate, MemStorage.updateFileValidation, MemStorage.getFile.
  destruct (JsMap.get (File.id (Upload.savedFile t)) (MemStorage.files s)); [| reflexivity].
  cbn. now apply get_set_other.
Qed.

Lemma validate_keeps_checked w now t s id :
  (forall file, MemStorage.getFile id s = Some file -> checked file) ->
  forall file, MemStorage.getFile id (Upload.validate w now t s) = Some file -> checked file.
Proof.
  intros Hs file.
  destruct (String.eqb_spec id (File.id (Upload.savedFile t))) as [-> | Hne].
  - apply validate_same.
  - rewrite validate_other by assumption. apply Hs.
Qed.

Lemma validations_keep_checked w done : forall s id,
  (forall file, MemStorage.getFile id s = Some file -> checked file) ->
  forall file, MemStorage.getFile id (validations w done s) = Some file -> checked file.
Proof.
  induction done as [| [now t] done IH]; intros s id Hs; cbn [validations fold_left];
    [exact Hs |].
  apply IH. now apply validate_keeps_checked.
Qed.

(** X28. Once the deferred validation of a file has run, the file is
    'valid' or 'invalid' and stays so: in whatever order the validations of
    the uploads finish, and however often, none of them puts a file back to
    'pending'. *)
Theorem validated_file_is_never_pending_again :
  forall (w : World) (done : list (Date * Upload.Task)) (now : Date) (t : Upload.Task)
         (s : MemStorage.t) (file : File.t),
    In (now, t) done ->
    MemStorage.getFile (File.id (Upload.savedFile t)) (validations w done s) = Some file ->
    File.validationStatus file = Some "valid" \/ File.validationStatus file = Some "invalid".
Proof.
  intros w done. induction done as [| [now' t'] done IH]; intros now t s file Hin; [destruct Hin |].
  cbn [validations fold_left].
  destruct Hin as [Heq | Hin].
  - injection Heq as -> ->.
    apply (validations_keep_checked w done (Upload.validate w now t s)).
    apply validate_same.
  - now apply IH with now.
Qed.

Lemma validated_file_is_never_pending_again_witness :
  exists file,
    MemStorage.getFile "f1"
      (validations Examples.healthy
         [(60, Cases.task Examples.xslFile); (61, Cases.task Examples.xmlFile);
          (62, Cases.task Examples.xslFile)]
         Examples.pool)
    = Some file
    /\ (File.validationStatus file = Some "valid"
        \/ File.validationStatus file = Some "invalid").
Proof.
  eexists. split; [vm_compute; reflexivity |].
  eapply (validated_file_is_never_pending_again Examples.healthy
            [(60, Cases.task Examples.xslFile); (61, Cases.task Examples.xmlFile);
             (62, Cases.task Examples.xslFile)]
            61 (Cases.task Examples.xmlFile) Examples.pool).
  - right. left. reflexivity.
  - vm_compute. reflexivity.
Defined.

(** ** The files of a reply are in the registry *)

Lemma distinct_ids (uuid : nat -> string) (n i j : nat) :
  NoDup (map uuid (seq 0 n)) -> i < n -> j < n -> uuid i = uuid j -> i = j.
Proof.
  intros Hnd Hi Hj Heq.
  apply (proj1 (NoDup_nth (map uuid (seq 0 n)) EmptyString) Hnd i j);
    rewrite ?length_map, ?length_seq; try assumption.
  rewrite !(nth_indep _ EmptyString (uuid 0)) by (rewrite length_map, length_seq; assumption).
  now rewrite !map_nth, !seq_nth by assumption.
Qed.

Lemma uploadOne_fetched w n f l l' :
  NoDup (map (fileUuid w) (seq 0 n)) ->
  Upload.turn l < n ->
  Upload.uploadOne w f l = inl l' ->
  fetched w n l -> fetched w n l' /\ Upload.turn l' = S (Upload.turn l).
Proof.
  intros Hnd Hturn. unfold Upload.uploadOne.
  destruct (Js.find _ _) as [existing |].
  - intros H [Hold Hfree]. injection H as <-. unfold fetched. cbn.
    split; [| reflexivity]. split.
    + intros x Hx. destruct (Hold x Hx) as (Hget & i & Hi & Hid).
      split; [exact Hget |]. exists i. split; [lia | exact Hid].
    + intros i Hi. apply Hfree. lia.
  - destruct (rename w _ _); [discriminate |].
    cbn. intros H [Hold Hfree]. injection H as <-. unfold fetched. cbn.
    split; [| reflexivity].
    unfold MemStorage.getFile in *. cbn. split.
    + intros x Hx. apply in_app_or in Hx as [Hx | [<- | []]].
      * destruct (Hold x Hx) as (Hget & i & Hi & Hid).
        split; [| exists i; split; [lia | exact Hid]].
        rewrite get_set_other; [exact Hget |].
        rewrite Hid. intros Heq.
        apply (distinct_ids (fileUuid w) n) in Heq; [lia | assumption | lia | lia].
      * cbn. split; [apply get_set_same |]. exists (Upload.turn l). split; [lia | reflexivity].
    + intros i Hi. rewrite get_set_other; [apply Hfree; lia |].
      intros Heq. apply (distinct_ids (fileUuid w) n) in Heq; [lia | assumption | lia | lia].
Qed.

Lemma uploadAll_fetched w n files : forall l l',
  NoDup (map (fileUuid w) (seq 0 n)) ->
  Upload.turn l + List.length files <= n ->
  Upload.uploadAll w files l = (l', None) ->
  fetched w n l -> fetched w n l'.
Proof.
  induction files as [| f rest IH]; intros l l' Hnd Hlen; cbn [Upload.uploadAll].
  - intros H. now injection H as <-.
  - destruct (Upload.uploadOne w f l) as [l1 | e] eqn:E; [| discriminate].
    intros H Hl. cbn in Hlen.
    assert (Hturn0 : Upload.turn l < n) by lia.
    destruct (uploadOne_fetched w n f l l1 Hnd Hturn0 E Hl) as [Hl1 Hturn].
    apply (IH l1 l' Hnd); [lia | exact H | exact Hl1].
Qed.

(** X29. Every file that the reply of [POST /api/upload] lists is in the
    registry when the reply is sent: [getFile] with its id returns it, as it
    is in the reply.  The identifiers drawn from [randomUUID()] are taken to
    be distinct and not in use. *)
Theorem uploaded_files_can_be_fetched :
  forall (w : World) (files : list Upload.MulterFile) (s s' : MemStorage.t)
         (body : Upload.Body) (tasks : list Upload.Task),
    Upload.upload w (Some files) s = (Upload.Ok body, s', tasks) ->
    NoDup (map (fileUuid w) (seq 0 (List.length files))) ->
    (forall i, i < List.length files -> MemStorage.getFile (fileUuid w i) s = None) ->
    forall f, In f (Upload.files body) -> MemStorage.getFile (File.id f) s' = Some f.
Proof.
  intros w files s s' body tasks Hreply Hnd Hfree f Hin.
  unfold Upload.upload in Hreply.
  destruct (Upload.uploadAll w files (Upload.start s)) as [l [e |]] eqn:E; [discriminate |].
  injection Hreply as <- <- <-. cbn in Hin.
  assert (Hstart : fetched w (List.length files) (Upload.start s)).
  { split; [intros x [] |]. intros i Hi. apply Hfree. lia. }
  assert (Hlen : Upload.turn (Upload.start s) + List.length files <= List.length files)
    by (cbn; lia).
  destruct (uploadAll_fetched w (List.length files) files _ _ Hnd Hlen E Hstart) as [Hall _].
  now apply Hall.
Qed.

Lemma uploaded_files_can_be_fetched_witness :
  exists body s' tasks f,
    Upload.upload Examples.healthy
      (Some [Examples.upload "a.xml"; Examples.upload "order.xml"; Examples.upload "b.xml"])
      Examples.pool
    = (Upload.Ok body, s', tasks)
    /\ In f (Upload.files body)
    /\ File.originalName f = "b.xml"
    /\ MemStorage.getFile (File.id f) s' = Some f.
Proof.
  eexists _, _, _, _. split; [vm_compute; reflexivity |].
  split; [right; left; reflexivity |]. split; [reflexivity |].
  eapply (uploaded_files_can_be_fetched Examples.healthy
            [Examples.upload "a.xml"; Examples.upload "order.xml"; Examples.upload "b.xml"]
            Examples.pool).
  - vm_compute. reflexivity.
  - vm_compute. repeat constructor; cbn; intuition discriminate.
  - intros i Hi. do 3 (destruct i as [| i]; [reflexivity |]). cbn in Hi. lia.
  - right. left. reflexivity.
Defined.

(** ** Literal patterns *)

Lemma run_lit {R} (p : string) : forall (rest : string) (c : caps)
    (k : string -> caps -> option R),
  run (lit p) (p ++ rest) c k = k rest c.
Proof.
  induction p as [| a p IH]; intros rest c k; [reflexivity |].
  cbn. rewrite Ascii.eqb_refl. apply IH.
Qed.

Lemma prefix_cons (a b : ascii) (p s : string) :
  String.prefix (String a p) (String b s) = Ascii.eqb a b && String.prefix p s.
Proof.
  cbn. destruct (ascii_dec a b) as [-> | Hne].
  - now rewrite Ascii.eqb_refl.
  - destruct (Ascii.eqb_spec a b); [contradiction | reflexivity].
Qed.

Lemma run_lit_none {R} (p : string) : forall (s : string) (c : caps)
    (k : string -> caps -> option R),
  String.prefix p s = false -> run (lit p) s c k = None.
Proof.
  induction p as [| a p IH]; intros s c k H; [destruct s; discriminate |].
  destruct s as [| b s]; [reflexivity |].
  rewrite prefix_cons in H. cbn.
  destruct (Ascii.eqb a b) eqn:E; [| reflexivity].
  cbn in H. now apply IH.
Qed.

Lemma prefix_extend (p x y : string) :
  String.prefix p x = true -> String.prefix p (x ++ y) = true.
Proof.
  intros H. apply prefix_split in H as [b ->]. rewrite append_assoc. apply prefix_append.
Qed.

Lemma match_here_lit (p s : string) :
  match_here (lit p) s
  = if String.prefix p s then Some (substring (String.length p) (String.length s) s, [])
    else None.
Proof.
  unfold match_here. destruct (String.prefix p s) eqn:E.
  - apply prefix_split in E as [b ->]. rewrite run_lit. do 2 f_equal.
    rewrite length_append.
    assert (H : forall n, substring (String.length p) (String.length b + n) (p ++ b) = b).
    { clear. induction p as [| a p IH]; intros n; cbn; [| apply IH].
      induction b as [| x b IHb]; cbn; [now destruct n | now rewrite IHb]. }
    rewrite Nat.add_comm. now rewrite H.
  - now apply run_lit_none.
Qed.

Lemma includes_nil (p : string) : p <> EmptyString -> Js.includes EmptyString p = false.
Proof. destruct p; [contradiction | reflexivity]. Qed.

(** The leftmost match of a literal pattern splits the text, and the
    pattern does not occur before it. *)
Lemma exec_lit (p : string) : p <> EmptyString -> forall (s : string) (f : found),
  exec (lit p) s = Some f ->
  s = before f ++ p ++ after f /\ matched f = p /\ Js.includes (before f) p = false.
Proof.
  intros Hne. induction s as [| a s IH]; intros f; cbn [exec]; rewrite match_here_lit.
  - destruct p; [contradiction | discriminate].
  - destruct (String.prefix p (String a s)) eqn:E.
    + apply prefix_split in E as [b Hb]. rewrite Hb.
      assert (Hsub : substring (String.length p) (String.length (p ++ b)) (p ++ b) = b).
      { pose proof (match_here_lit p (p ++ b)) as Hm. rewrite prefix_append in Hm.
        unfold match_here in Hm. rewrite run_lit in Hm. now injection Hm as <-. }
      rewrite Hsub. intros H. injection H as <-. cbn [before matched after].
      rewrite consumed_append.
      split; [reflexivity |]. split; [reflexivity | now apply includes_nil].
    + destruct (exec (lit p) s) as [f0 |] eqn:E0; [| discriminate].
      intros H. injection H as <-. cbn [before matched after].
      destruct (IH f0 eq_refl) as (Hs & Hm & Hb).
      split; [cbn; now f_equal |]. split; [exact Hm |].
      rewrite includes_unfold, Hb.
      destruct (String.prefix p (String a (before f0))) eqn:Ep; [| reflexivity].
      apply (prefix_extend _ _ (p ++ after f0)) in Ep.
      change (String a (before f0) ++ p ++ after f0)
        with (String a (before f0 ++ p ++ after f0)) in Ep.
      rewrite <- Hs in Ep. congruence.
Qed.

Lemma exec_lit_none (p : string) : forall s : string,
  exec (lit p) s = None -> Js.includes s p = false.
Proof.
  induction s as [| a s IH]; cbn [exec]; rewrite match_here_lit; intros H.
  - rewrite includes_unfold. now destruct (String.prefix p EmptyString).
  - rewrite includes_unfold.
    destruct (String.prefix p (String a s)); [discriminate |].
    destruct (exec (lit p) s); [discriminate | now apply IH].
Qed.

(** ** Where a text occurs in a text made of two *)

Lemma append_cases (a x : string) : forall b z : string,
  a ++ b = x ++ z ->
  (exists m, a = x ++ m /\ z = m ++ b) \/ (exists m, x = a ++ m /\ b = m ++ z).
Proof.
  revert x. induction a as [| c a IH]; intros x b z H.
  - right. exists x. split; [reflexivity | exact H].
  - destruct x as [| d x].
    + left. exists (String c a). split; [reflexivity | symmetry; exact H].
    + cbn in H. injection H as -> H.
      destruct (IH x b z H) as [(m & -> & ->) | (m & -> & ->)]; [left | right];
        exists m; split; reflexivity.
Qed.

Lemma includes_left (a b q : string) :
  Js.includes a q = true -> Js.includes (a ++ b) q = true.
Proof.
  intros H. apply includes_split in H as (x & y & ->).
  rewrite !append_assoc. apply includes_append.
Qed.

Lemma includes_right (a b q : string) :
  Js.includes b q = true -> Js.includes (a ++ b) q = true.
Proof.
  intros H. apply includes_split in H as (x & y & ->).
  rewrite <- append_assoc. apply includes_append.
Qed.

(** An occurrence of [q] in [a ++ b] lies in [a], lies in [b], or has a
    first part at the end of [a] and a second part at the start of [b]. *)
Lemma includes_append_cases (a b q : string) :
  Js.includes (a ++ b) q = true ->
  Js.includes a q = true \/ Js.includes b q = true
  \/ exists u v a0 b0, u <> EmptyString /\ v <> EmptyString
                       /\ q = u ++ v /\ a = a0 ++ u /\ b = v ++ b0.
Proof.
  intros H. apply includes_split in H as (x & y & H).
  apply append_cases in H as [(m & Ha & H) | (m & _ & Hb)].
  - symmetry in H. apply append_cases in H as [(n & Hm & _) | (n & Hq & Hb)].
    + left. rewrite Ha, Hm. apply includes_append.
    + destruct m as [| c m].
      * right. left. cbn in Hq. rewrite Hb, <- Hq. apply (includes_append EmptyString).
      * destruct n as [| d n].
        -- left. rewrite append_empty in Hq. rewrite Ha, <- Hq.
           rewrite <- (append_empty q) at 1. apply includes_append.
        -- right. right. exists (String c m), (String d n), x, y.
           repeat split; try discriminate; assumption.
  - right. left. rewrite Hb. apply includes_append.
Qed.

(** ** The entity fix *)

Lemma amp_free_append (a b : string) : amp_free (a ++ b) = amp_free a && amp_free b.
Proof. apply all_in_append. Qed.

Lemma named_shape (q : string) :
  named q = true ->
  exists b q', q = String "&" (String b q') /\ b <> "#"%char /\ amp_free (String b q') = true.
Proof.
  destruct q as [| a [| b q']]; try discriminate. cbn [named].
  intros H. apply andb_true_iff in H as [H Hfree]. apply andb_true_iff in H as [Ha Hb].
  apply Ascii.eqb_eq in Ha. subst a. exists b, q'. split; [reflexivity |].
  split; [| exact Hfree]. intros ->. discriminate Hb.
Qed.

Lemma numeric_shape (t : string) :
  numeric t = true -> exists t', t = String "&" (String "#" t') /\ amp_free t' = true.
Proof.
  destruct t as [| a [| b t']]; try discriminate. cbn [numeric].
  intros H. apply andb_true_iff in H as [H Hfree]. apply andb_true_iff in H as [Ha Hb].
  apply Ascii.eqb_eq in Ha, Hb. subst. now exists t'.
Qed.

(** A text without [&] holds no entity, and no entity starts in it. *)
Lemma amp_free_clean (x q : string) :
  named q = true -> amp_free x = true -> Js.includes x q = false.
Proof.
  intros Hq Hx. destruct (Js.includes x q) eqn:E; [| reflexivity].
  apply includes_split in E as (u & v & ->). apply named_shape in Hq as (b & q' & -> & _).
  rewrite !amp_free_append in Hx. cbn in Hx.
  rewrite andb_false_r in Hx. discriminate Hx.
Qed.

Lemma no_entity_from (u v q : string) :
  named q = true -> q = u ++ v -> u <> EmptyString -> amp_free u = true -> False.
Proof.
  intros Hq Heq Hu Hfree. apply named_shape in Hq as (b & q' & -> & _).
  destruct u as [| a u]; [contradiction |]. cbn in Heq. injection Heq as <- _.
  discriminate Hfree.
Qed.

Lemma no_entity_into (u v q : string) (rest : string) :
  named q = true -> q = u ++ String "&" rest -> u <> EmptyString -> False.
Proof.
  intros Hq Heq Hu. apply named_shape in Hq as (b & q' & -> & _ & Hfree).
  destruct u as [| a u]; [contradiction |]. cbn in Heq. injection Heq as _ Heq.
  rewrite Heq in Hfree. unfold amp_free in Hfree. rewrite all_in_append in Hfree.
  cbn in Hfree. rewrite andb_false_r in Hfree. discriminate Hfree.
Qed.

(** After a character reference and a text without the entity [q], no [q]. *)
Lemma reference_clean (t R q : string) :
  named q = true -> numeric t = true -> Js.includes R q = false ->
  Js.includes (t ++ R) q = false.
Proof.
  intros Hq Ht HR. destruct (numeric_shape t Ht) as (t' & -> & Hfree).
  destruct (named_shape q Hq) as (b & q' & Hqeq & Hb & Hqfree).
  cbn [append]. rewrite includes_unfold.
  assert (H1 : String.prefix q (String "&" (String "#" (t' ++ R))) = false).
  { rewrite Hqeq, !prefix_cons. destruct (Ascii.eqb_spec b "#"%char); [contradiction |].
    now rewrite andb_false_r. }
  rewrite H1, includes_unfold.
  assert (H2 : String.prefix q (String "#" (t' ++ R)) = false).
  { rewrite Hqeq, prefix_cons. reflexivity. }
  rewrite H2.
  destruct (Js.includes (t' ++ R) q) eqn:E; [| reflexivity].
  apply includes_append_cases in E as [E | [E | (u & v & a0 & b0 & Hu & Hv & Heq & Ha & _)]].
  - now rewrite (amp_free_clean t' q Hq Hfree) in E.
  - congruence.
  - exfalso. apply (no_entity_from u v q Hq Heq Hu).
    rewrite Ha, amp_free_append in Hfree. now apply andb_true_iff in Hfree as [_ Hfree].
Qed.

Lemma includes_parts (a b q : string) :
  Js.includes (a ++ b) q = false -> Js.includes a q = false /\ Js.includes b q = false.
Proof.
  intros H. split.
  - destruct (Js.includes a q) eqn:E; [| reflexivity].
    now rewrite (includes_left a b q E) in H.
  - destruct (Js.includes b q) eqn:E; [| reflexivity].
    now rewrite (includes_right a b q E) in H.
Qed.

(** One [replace] of the chain removes its entity and brings back none. *)
Lemma replace_clean (p t q : string) :
  named p = true -> numeric t = true -> named q = true ->
  forall (fuel : nat) (s : string),
    String.length s < fuel ->
    q = p \/ Js.includes s q = false ->
    Js.includes (replace_aux fuel (lit p) [Lit t] s) q = false.
Proof.
  intros Hp Ht Hq.
  assert (Hne : p <> EmptyString) by (intros ->; discriminate Hp).
  induction fuel as [| fuel IH]; intros s Hlen Hs; [lia |].
  cbn [replace_aux].
  destruct (exec (lit p) s) as [f |] eqn:E.
  - destruct (exec_lit p Hne s f E) as (Hsplit & Hm & Hbefore).
    rewrite Hm. cbn [expand]. rewrite append_empty.
    destruct p as [| c p]; [contradiction |].
    assert (Hrest : Js.includes (replace_aux fuel (lit (String c p)) [Lit t] (after f)) q = false).
    { apply IH.
      - rewrite Hsplit, !length_append in Hlen. cbn in Hlen. lia.
      - destruct Hs as [Hs | Hs]; [now left | right].
        rewrite Hsplit in Hs. apply includes_parts in Hs as [_ Hs].
        now apply includes_parts in Hs as [_ Hs]. }
    assert (Hb : Js.includes (before f) q = false).
    { destruct Hs as [-> | Hs]; [exact Hbefore |].
      rewrite Hsplit in Hs. now apply includes_parts in Hs as [Hs _]. }
    pose proof (reference_clean t _ q Hq Ht Hrest) as Htail.
    destruct (Js.includes (before f ++ t ++ replace_aux fuel (lit (String c p)) [Lit t] (after f)) q)
      eqn:Eall; [| reflexivity].
    apply includes_append_cases in Eall
      as [Eall | [Eall | (u & v & a0 & b0 & Hu & Hv & Heq & _ & Hb0)]]; try congruence.
    exfalso. destruct (numeric_shape t Ht) as (t' & -> & _).
    destruct v as [| d v]; [contradiction |].
    cbn in Hb0. injection Hb0 as Hd _. rewrite <- Hd in Heq.
    now apply (no_entity_into u v q v Hq Heq Hu).
  - destruct Hs as [-> | Hs]; [now apply exec_lit_none | exact Hs].
Qed.

Lemma chain_clean (rs : list (string * string)) :
  Forall (fun e => named (fst e) = true /\ numeric (snd e) = true) rs ->
  forall (s q : string),
    named q = true ->
    Js.includes s q = false \/ In q (map fst rs) ->
    Js.includes
      (fold_left (fun content e => Regex.replace (lit (fst e)) [Lit (snd e)] content) rs s) q
    = false.
Proof.
  induction 1 as [| e rs [Hp Ht] _ IH]; intros s q Hq Hs; cbn [fold_left].
  - destruct Hs as [Hs | []]. exact Hs.
  - apply IH; [exact Hq |].
    destruct Hs as [Hs | [Hs | Hs]].
    + left. apply replace_clean; auto.
    + left. apply replace_clean; auto.
    + now right.
Qed.

(** X30. After the entity fix that [resolveDependenciesForSaxon] applies to
    the copy of a dependency, none of the seven named entities it rewrites
    ([&nbsp;], [&copy;], [&reg;], [&trade;], [&amp;], [&lt;], [&gt;]) occurs
    in the text: every occurrence is replaced, and no later replacement of
    the chain brings one back. *)
Theorem entity_fix_leaves_no_named_entity :
  forall (content name : string),
    In name (map fst Entities.replacements) ->
    Js.includes (Entities.fixEntities content) name = false.
Proof.
  intros content name Hin. unfold Entities.fixEntities.
  apply chain_clean.
  - repeat constructor.
  - cbn in Hin. repeat (destruct Hin as [<- | Hin]); try reflexivity. contradiction.
  - now right.
Qed.

Lemma entity_fix_leaves_no_named_entity_witness :
  Entities.fixEntities "<td>&nbsp;&amp;lt;&copy; 2024 A&amp;B &l&gt;t;</td>"
  = "<td>&#160;&#38;lt;&#169; 2024 A&#38;B &l&#62;t;</td>"
  /\ Js.includes
       (Entities.fixEntities "<td>&nbsp;&amp;lt;&copy; 2024 A&amp;B &l&gt;t;</td>") "&lt;"
     = false.
Proof.
  split; [vm_compute; reflexivity |].
  apply (entity_fix_leaves_no_named_entity
           "<td>&nbsp;&amp;lt;&copy; 2024 A&amp;B &l&gt;t;</td>" "&lt;").
  cbn. do 5 right. left. reflexivity.
Defined.
